(** * A TFTP server (server.py): shallow embedding and verified properties

    The development follows the layout of the Python source:
    - the packet codec ([struct.pack] / [struct.unpack] with the ['>h'] format),
    - the per-transfer [FileContext] and the two tables [reads] / [writes],
    - the handlers [_handle_RRQ], [_handle_WRQ], [_handle_ACK],
      [_handle_DATA], [_handle_ERROR], the validators and [_parse_pkt],
    - the receive loop [run_server].

    Python objects that are shared by reference ([threading.Event]) live in a
    store and are named by their index.  A handler thread that reaches its
    retry loop [while not timer.wait(self.timeout)] is recorded as a [Waiter];
    the expiry of one timeout interval is the event [Elapse].

    In [step] and [run] the thread started for a datagram runs until it blocks
    in its wait or ends before anything else happens.  The source has no lock:
    where a property depends on two handlers not overlapping, this is said,
    and an overlapping schedule is written out from the same handler
    definitions. *)

From Stdlib Require Import ZArith Lia Strings.Byte.
From stdpp Require Import base option list gmap strings.

Local Open Scope Z_scope.

(** ** Exceptions and results *)

Inductive exn : Type :=
  | SystemExit          (* sys.exit() *)
  | NameError           (* unbound global name *)
  | StructError         (* struct.error *)
  | ValueError          (* tuple unpacking of too few values *)
  | UnicodeDecodeError  (* bytes.decode() *)
  | FileNotFoundError   (* open() of a path that leads to nothing *)
  | IsADirectoryError   (* open() of a directory *)
  | PermissionError     (* open(..., 'wb') refused by the file system *)
  | OSError             (* seek to a negative offset *)
  | TypeError           (* f.write(None) *)
  | KeyError.           (* dict[key] of a missing key *)

Inductive res (A : Type) : Type :=
  | Ok (a : A)
  | Raise (e : exn).
Arguments Ok {A} a.
Arguments Raise {A} e.

(** ** Bytes and the ['>h'] codec *)

Definition Z_of_byte (b : byte) : Z := Z.of_N (Byte.to_N b).

Definition byte_of_Z (z : Z) : byte :=
  match Byte.of_N (Z.to_N z) with
  | Some b => b
  | None => x00
  end.

(** The range of the struct format character [h] (signed, 16 bits). *)
Definition int16_ok (v : Z) : bool := (-32768 <=? v) && (v <=? 32767).

(** Big-endian two's complement on two bytes. *)
Definition be16 (v : Z) : list byte :=
  [byte_of_Z ((v mod 65536) / 256); byte_of_Z (v mod 256)].

(** [struct.unpack('>h', bs)[0]]: exactly two bytes are required. *)
Definition struct_unpack_h (bs : list byte) : res Z :=
  match bs with
  | [hi; lo] =>
      let u := 256 * Z_of_byte hi + Z_of_byte lo in
      Ok (if u <? 32768 then u else u - 65536)
  | _ => Raise StructError
  end.

(** ** Python [str]

    A [str] is represented by its UTF-8 encoding, held in a [string] (a
    sequence of 8-bit characters).  [str.encode()] is then the identity on the
    underlying bytes and [bytes.decode()] succeeds exactly on well-formed
    UTF-8 (Python's decoder is strict: no overlong forms, no surrogates,
    nothing above U+10FFFF). *)

Definition in_range (lo hi : Z) (b : byte) : bool :=
  (lo <=? Z_of_byte b) && (Z_of_byte b <=? hi).

Definition cont (b : byte) : bool := in_range 128 191 b.

Fixpoint utf8_valid (bs : list byte) : bool :=
  match bs with
  | [] => true
  | b0 :: r0 =>
      if in_range 0 127 b0 then utf8_valid r0
      else match r0 with
      | [] => false
      | b1 :: r1 =>
          if in_range 194 223 b0 then cont b1 && utf8_valid r1
          else match r1 with
          | [] => false
          | b2 :: r2 =>
              if in_range 224 224 b0 then in_range 160 191 b1 && cont b2 && utf8_valid r2
              else if in_range 225 236 b0 then cont b1 && cont b2 && utf8_valid r2
              else if in_range 237 237 b0 then in_range 128 159 b1 && cont b2 && utf8_valid r2
              else if in_range 238 239 b0 then cont b1 && cont b2 && utf8_valid r2
              else match r2 with
              | [] => false
              | b3 :: r3 =>
                  if in_range 240 240 b0
                  then in_range 144 191 b1 && cont b2 && cont b3 && utf8_valid r3
                  else if in_range 241 243 b0
                  then cont b1 && cont b2 && cont b3 && utf8_valid r3
                  else if in_range 244 244 b0
                  then in_range 128 143 b1 && cont b2 && cont b3 && utf8_valid r3
                  else false
              end
          end
      end
  end.

(** [data.decode()] *)
Definition decode (data : list byte) : res string :=
  if utf8_valid data then Ok (String.string_of_list_byte data)
  else Raise UnicodeDecodeError.

(** [s.encode()] *)
Definition encode (s : string) : list byte := String.list_byte_of_string s.

(** [s.split('\0')] *)
Fixpoint split_nul (s : string) : list string :=
  match s with
  | EmptyString => [EmptyString]
  | String a r =>
      if Ascii.eqb a Ascii.zero then EmptyString :: split_nul r
      else match split_nul r with
           | h :: t => String a h :: t
           | [] => [String a EmptyString]
           end
  end.

(** [filename, mode = data.decode().split('\0')[:2]] *)
Definition _parse_init_request (data : list byte) : res (string * string) :=
  match decode data with
  | Raise e => Raise e
  | Ok s =>
      match take 2 (split_nul s) with
      | [filename; mode] => Ok (filename, mode)
      | _ => Raise ValueError
      end
  end.

(** ** Constants

    [from constants import *]: the module [constants] supplies the opcodes,
    the error codes and the two size limits.  The handlers are written over an
    arbitrary assignment of these names. *)

Record Constants : Type := {
  RRQ_MODE : Z;
  WRQ_MODE : Z;
  DATA_MODE : Z;
  ACK_MODE : Z;
  ERROR_MODE : Z;
  ERR_NOT_DEFINED : Z;
  ERR_FILE_NOT_FOUND : Z;
  ERR_ILLEGAL_TFTP_OP : Z;
  ERR_UNKNOWN_TID : Z;
  MAX_BYTES : Z;
  MAX_BUFFER_WRQ : Z
}.

(** The constants are usable by the codec and the dispatcher: every opcode
    and error code fits the [h] format, the four dispatched opcodes are
    pairwise distinct, and the block size is positive. *)
Definition wf_constants (c : Constants) : bool :=
  forallb int16_ok
    [RRQ_MODE c; WRQ_MODE c; DATA_MODE c; ACK_MODE c; ERROR_MODE c;
     ERR_NOT_DEFINED c; ERR_FILE_NOT_FOUND c; ERR_ILLEGAL_TFTP_OP c;
     ERR_UNKNOWN_TID c]
  && negb (RRQ_MODE c =? WRQ_MODE c) && negb (RRQ_MODE c =? ACK_MODE c)
  && negb (RRQ_MODE c =? DATA_MODE c) && negb (WRQ_MODE c =? ACK_MODE c)
  && negb (WRQ_MODE c =? DATA_MODE c) && negb (ACK_MODE c =? DATA_MODE c)
  && (0 <? MAX_BYTES c).

(** [wf_constants], unfolded. *)
Record wf_facts (c : Constants) : Prop := {
  wf_RRQ : int16_ok (RRQ_MODE c) = true;
  wf_WRQ : int16_ok (WRQ_MODE c) = true;
  wf_DATA : int16_ok (DATA_MODE c) = true;
  wf_ACK : int16_ok (ACK_MODE c) = true;
  wf_ERROR : int16_ok (ERROR_MODE c) = true;
  wf_ERR_NOT_DEFINED : int16_ok (ERR_NOT_DEFINED c) = true;
  wf_ERR_FILE_NOT_FOUND : int16_ok (ERR_FILE_NOT_FOUND c) = true;
  wf_ERR_ILLEGAL_TFTP_OP : int16_ok (ERR_ILLEGAL_TFTP_OP c) = true;
  wf_ERR_UNKNOWN_TID : int16_ok (ERR_UNKNOWN_TID c) = true;
  wf_RRQ_WRQ : RRQ_MODE c ≠ WRQ_MODE c;
  wf_RRQ_ACK : RRQ_MODE c ≠ ACK_MODE c;
  wf_RRQ_DATA : RRQ_MODE c ≠ DATA_MODE c;
  wf_WRQ_ACK : WRQ_MODE c ≠ ACK_MODE c;
  wf_WRQ_DATA : WRQ_MODE c ≠ DATA_MODE c;
  wf_ACK_DATA : ACK_MODE c ≠ DATA_MODE c;
  wf_MAX_BYTES : 0 < MAX_BYTES c
}.

(** Modelled from the spec: [constants.py] is not part of the sources.  The
    opcodes are those of the message table (RRQ 1, WRQ 2, DATA 3, ACK 4,
    ERROR 5) and [MAX_BYTES] is the example block size 512.  The error codes
    carry the numbers RFC 1350 gives to the four names.  [MAX_BUFFER_WRQ] is
    what is left of a datagram of [MAX_BYTES] bytes behind the four header
    bytes of a DATA packet: the longest payload that
    [recvfrom(MAX_BYTES)] hands to [_handle_DATA].  Only the examples use
    these values; every general statement is over all constants. *)
Definition tftp : Constants := {|
  RRQ_MODE := 1;
  WRQ_MODE := 2;
  DATA_MODE := 3;
  ACK_MODE := 4;
  ERROR_MODE := 5;
  ERR_NOT_DEFINED := 0;
  ERR_FILE_NOT_FOUND := 1;
  ERR_ILLEGAL_TFTP_OP := 4;
  ERR_UNKNOWN_TID := 5;
  MAX_BYTES := 512;
  MAX_BUFFER_WRQ := 508
|}.

(** ** The data model *)

(** A peer address [(host, port)]. *)
Definition Addr : Type := string * Z.

(** Sockets are objects; they are told apart by identity. *)
Definition Socket : Type := nat.

(** [class FileContext]: [timer] is a reference to a [threading.Event] in
    the store; [is_done] is [None] unless the constructor is given it. *)
Record FileContext : Type := {
  filename : string;
  block_num : Z;
  timer : nat;
  is_done : option bool
}.

(** The retry loop in which a blocked thread sits. *)
Inductive Frame : Type := InRRQ | InWRQ.

(** A thread blocked in [while not timer.wait(self.timeout)]: the local
    variables the loop body uses. *)
Record Waiter : Type := {
  w_frame : Frame;
  w_pkt : list byte;
  w_addr : Addr
}.

(** One [sendto] call: the socket object, the payload, the destination. *)
Definition Sent : Type := Socket * list byte * Addr.

(** What a path is to [open] and [os.path.exists], besides the regular
    files of [files]. *)
Inductive Place : Type :=
  | Plain      (* a regular file if [files] has the path; if not, a name that
                  [open(..., 'wb')] creates *)
  | Denied     (* [open(..., 'wb')] is refused: a read-only file, or a new
                  name in a directory that takes no new file *)
  | Directory  (* a directory: the path exists and [open] fails on it *)
  | Nowhere.   (* nothing there and no way to create it: the empty path, a
                  path through a directory that does not exist *)

Definition is_dir (p : Place) : bool :=
  match p with
  | Directory => true
  | _ => false
  end.

(** The exception [open(..., 'wb')] raises at such a path, if it does. *)
Definition refused (p : Place) : option exn :=
  match p with
  | Plain => None
  | Denied => Some PermissionError
  | Directory => Some IsADirectoryError
  | Nowhere => Some FileNotFoundError
  end.

(** The [Server] instance ([self_sock], [reads], [writes]; the timeout value
    only fixes the length of one [Elapse] interval) together with what
    the handlers touch outside it: the module-level name [sock] (bound by the
    [__main__] block, unbound otherwise), the file system, the store of Event
    flags, the blocked threads keyed by the Event they wait on, and the log of
    transmissions.

    The file system is the regular files the server may read, by path
    ([files]), and for every path what [open] and [os.path.exists] meet
    there ([place]).  The handlers create no directory and change no
    permission: [place] stays as it is. *)
Record World : Type := {
  self_sock : Socket;
  reads : gmap Addr FileContext;
  writes : gmap Addr FileContext;
  global_sock : option Socket;
  files : gmap string (list byte);
  place : string → Place;
  events : list bool;
  waiting : gmap nat Waiter;
  wire : list Sent
}.

Definition set_reads (f : gmap Addr FileContext → gmap Addr FileContext) (w : World) : World :=
  {| self_sock := self_sock w; reads := f (reads w); writes := writes w;
     global_sock := global_sock w; files := files w; place := place w; events := events w;
     waiting := waiting w; wire := wire w |}.

Definition set_writes (f : gmap Addr FileContext → gmap Addr FileContext) (w : World) : World :=
  {| self_sock := self_sock w; reads := reads w; writes := f (writes w);
     global_sock := global_sock w; files := files w; place := place w; events := events w;
     waiting := waiting w; wire := wire w |}.

Definition set_files (f : gmap string (list byte) → gmap string (list byte)) (w : World) : World :=
  {| self_sock := self_sock w; reads := reads w; writes := writes w;
     global_sock := global_sock w; files := f (files w); place := place w;
     events := events w;
     waiting := waiting w; wire := wire w |}.

Definition set_events (f : list bool → list bool) (w : World) : World :=
  {| self_sock := self_sock w; reads := reads w; writes := writes w;
     global_sock := global_sock w; files := files w; place := place w;
     events := f (events w);
     waiting := waiting w; wire := wire w |}.

Definition set_waiting (f : gmap nat Waiter → gmap nat Waiter) (w : World) : World :=
  {| self_sock := self_sock w; reads := reads w; writes := writes w;
     global_sock := global_sock w; files := files w; place := place w; events := events w;
     waiting := f (waiting w); wire := wire w |}.

Definition set_wire (f : list Sent → list Sent) (w : World) : World :=
  {| self_sock := self_sock w; reads := reads w; writes := writes w;
     global_sock := global_sock w; files := files w; place := place w; events := events w;
     waiting := waiting w; wire := f (wire w) |}.

(** ** The monad of a handler thread: state and exceptions

    The world reached when an exception is raised is kept: the effects a
    thread had before it died are not undone. *)

Definition M (A : Type) : Type := World → res A * World.

#[global] Instance M_ret : MRet M := λ A a w, (Ok a, w).

#[global] Instance M_bind : MBind M := λ A B k m w,
  match m w with
  | (Ok a, w') => k a w'
  | (Raise e, w') => (Raise e, w')
  end.

Definition raise {A : Type} (e : exn) : M A := λ w, (Raise e, w).
Definition lift {A : Type} (r : res A) : M A := λ w, (r, w).
Definition gets {A : Type} (f : World → A) : M A := λ w, (Ok (f w), w).
Definition modify (f : World → World) : M unit := λ w, (Ok tt, f w).

(** *** [threading.Event] *)

(** [Event()]: a new object, flag clear. *)
Definition Event_new : M nat :=
  λ w, (Ok (length (events w)), set_events (λ es, es ++ [false]) w).

(** [e.set()] *)
Definition Event_set (e : nat) : M unit :=
  modify (set_events (λ es, <[e:=true]> es)).

(** [e.is_set()] on the store. *)
Definition is_set (w : World) (e : nat) : bool :=
  match events w !! e with
  | Some b => b
  | None => false
  end.

(** *** The file system: regular files by path *)

(** [with open(name, 'rb') as f: f.seek(offset, os.SEEK_SET); buf = f.read(size)] *)
Definition file_read (name : string) (offset size : Z) : M (list byte) :=
  λ w, match files w !! name with
       | None =>
           (Raise (if is_dir (place w name) then IsADirectoryError else FileNotFoundError), w)
       | Some content =>
           if offset <? 0 then (Raise OSError, w)
           else
             let rest := drop (Z.to_nat offset) content in
             (Ok (if size <? 0 then rest else take (Z.to_nat size) rest), w)
       end.

(** [with open(name, 'wb') as f: f.seek(offset, os.SEEK_SET); f.write(buf)].
    [open] fails, and leaves everything as it is, where the path is not
    [Plain].  Otherwise mode ['wb'] creates the file or truncates it to
    length zero; a write past the end fills the gap with zero bytes; a write
    of no bytes leaves the length at zero. *)
Definition file_write (name : string) (offset : Z) (buf : option (list byte)) : M unit :=
  λ w, match refused (place w name) with
       | Some e => (Raise e, w)
       | None =>
           let w0 := set_files (λ fs, <[name:=[]]> fs) w in
           if offset <? 0 then (Raise OSError, w0)
           else match buf with
                | None => (Raise TypeError, w0)
                | Some [] => (Ok tt, w0)
                | Some b =>
                    (Ok tt,
                     set_files (λ fs, <[name:=repeat x00 (Z.to_nat offset) ++ b]> fs) w0)
                end
       end.

(** [os.path.exists(name)]: true of the regular files and of the
    directories. *)
Definition exists_path (w : World) (name : string) : bool :=
  bool_decide (is_Some (files w !! name)) || is_dir (place w name).

Definition path_exists (name : string) : M bool :=
  gets (λ w, exists_path w name).

(** ** The server

    [print] calls are not modelled: the log is not part of the state. *)

Section Server.

Variable c : Constants.

(** [struct.pack('>hh', a, b)] *)
Definition struct_pack_hh (a b : Z) : res (list byte) :=
  if int16_ok a && int16_ok b then Ok (be16 a ++ be16 b) else Raise StructError.

(** [self.sock.sendto(pkt, addr)] *)
Definition _transmit (pkt : list byte) (addr : Addr) : M unit :=
  modify (λ w, set_wire (λ l, l ++ [(self_sock w, pkt, addr)]) w).

(** [struct.pack('>hh', ACK_MODE, block_num)] *)
Definition _ACK (block_num : Z) : res (list byte) :=
  struct_pack_hh (ACK_MODE c) block_num.

(** [struct.pack('>hh%ds' % len(buf), DATA_MODE, block_num, buf)] *)
Definition _DATA (block_num : Z) (buf : list byte) : res (list byte) :=
  match struct_pack_hh (DATA_MODE c) block_num with
  | Ok hdr => Ok (hdr ++ buf)
  | Raise e => Raise e
  end.

(** [enc_msg = (msg+'\0').encode()], then
    [struct.pack('>hh%dsb' % len(enc_msg), ERROR_MODE, code, enc_msg, 0)] *)
Definition _ERROR (code : Z) (msg : string) : res (list byte) :=
  let enc_msg := encode (msg +:+ String Ascii.zero EmptyString) in
  match struct_pack_hh (ERROR_MODE c) code with
  | Ok hdr => Ok (hdr ++ enc_msg ++ [x00])
  | Raise e => Raise e
  end.

(** The thread enters [while not timer.wait(self.timeout): self._transmit(pkt, addr)]
    and blocks in the wait. *)
Definition wait_loop (fr : Frame) (tm : nat) (pkt : list byte) (addr : Addr) : M unit :=
  modify (set_waiting (λ ws, <[tm := {| w_frame := fr; w_pkt := pkt; w_addr := addr |}]> ws)).

Definition _handle_RRQ (addr : Addr) (fname : string) (bnum : Z) : M unit :=
  buf ← file_read fname ((bnum - 1) * MAX_BYTES c) (MAX_BYTES c);
  let done := Z.of_nat (length buf) <? MAX_BYTES c in
  pkt ← lift (_DATA bnum buf);
  tm ← Event_new;
  modify (set_reads (λ r, <[addr := {| filename := fname; block_num := bnum;
                                         timer := tm; is_done := Some done |}]> r));;
  _transmit pkt addr;;
  wait_loop InRRQ tm pkt addr.

Definition _handle_WRQ (addr : Addr) (fname : string) (bnum : Z)
    (buf : option (list byte)) : M unit :=
  done ← (if 0 <? bnum then
            file_write fname ((bnum - 1) * MAX_BYTES c) buf;;
            mret (Z.of_nat (length (default [] buf)) <? MAX_BUFFER_WRQ c)
          else mret false);
  pkt ← lift (_ACK bnum);
  tm ← Event_new;
  modify (set_writes (λ r, <[addr := {| filename := fname; block_num := bnum;
                                          timer := tm; is_done := None |}]> r));;
  _transmit pkt addr;;
  if negb done then wait_loop InWRQ tm pkt addr else mret tt.

(** [pkt = self._ERROR(code, msg)], then [sock.sendto(pkt, addr)] where
    [sock] is looked up in the module globals. *)
Definition _handle_ERROR (addr : Addr) (code : Z) (msg : string) : M unit :=
  pkt ← lift (_ERROR code msg);
  g ← gets global_sock;
  match g with
  | None => raise NameError
  | Some s => modify (set_wire (λ l, l ++ [(s, pkt, addr)]))
  end.

Definition _validate_mode (addr : Addr) (mode : string) : M unit :=
  if bool_decide (mode ≠ "octet"%string) then
    _handle_ERROR addr (ERR_ILLEGAL_TFTP_OP c) "TFTP only supports binary mode";;
    raise SystemExit
  else mret tt.

Definition _validate_file (addr : Addr) (fname : string) : M unit :=
  ex ← path_exists fname;
  if negb ex then
    _handle_ERROR addr (ERR_FILE_NOT_FOUND c) "File does not exist";;
    raise SystemExit
  else mret tt.

Definition _validate_tid (addr : Addr) (dct : gmap Addr FileContext) : M unit :=
  if bool_decide (dct !! addr = None) then
    _handle_ERROR addr (ERR_UNKNOWN_TID c) "Unknown transfer ID";;
    raise SystemExit
  else mret tt.

(** Truth value of [fc.is_done]: [None] is false. *)
Definition truthy (o : option bool) : bool := default false o.

(** [dct[addr]] *)
Definition getitem (dct : gmap Addr FileContext) (addr : Addr) : M FileContext :=
  match dct !! addr with
  | Some fc => mret fc
  | None => raise KeyError
  end.

Definition _handle_ACK (addr : Addr) (bnum : Z) : M unit :=
  rs ← gets reads;
  _validate_tid addr rs;;
  rs ← gets reads;
  fc ← getitem rs addr;
  if block_num fc =? bnum then
    Event_set (timer fc);;
    if negb (truthy (is_done fc)) then
      _handle_RRQ addr (filename fc) (block_num fc + 1)
    else mret tt
  else mret tt.

Definition _handle_DATA (addr : Addr) (bnum : Z) (buf : list byte) : M unit :=
  ws ← gets writes;
  _validate_tid addr ws;;
  ws ← gets writes;
  fc ← getitem ws addr;
  if block_num fc + 1 =? bnum then
    Event_set (timer fc);;
    _handle_WRQ addr (filename fc) (block_num fc + 1) (Some buf)
  else mret tt.

(** [if addr in dct: dct[addr].timer.set()] *)
Definition preempt (dct : gmap Addr FileContext) (addr : Addr) : M unit :=
  match dct !! addr with
  | Some fc => Event_set (timer fc)
  | None => mret tt
  end.

Definition _parse_pkt (data : list byte) (addr : Addr) : M unit :=
  mode ← lift (struct_unpack_h (take 2 data));
  let rest := drop 2 data in
  if mode =? RRQ_MODE c then
    fm ← lift (_parse_init_request rest);
    _validate_mode addr fm.2;;
    _validate_file addr fm.1;;
    rs ← gets reads;
    preempt rs addr;;
    _handle_RRQ addr fm.1 1
  else if mode =? WRQ_MODE c then
    fm ← lift (_parse_init_request rest);
    _validate_mode addr fm.2;;
    ws ← gets writes;
    preempt ws addr;;
    _handle_WRQ addr fm.1 0 None
  else if mode =? ACK_MODE c then
    bnum ← lift (struct_unpack_h rest);
    _handle_ACK addr bnum
  else if mode =? DATA_MODE c then
    bnum ← lift (struct_unpack_h (take 2 rest));
    _handle_DATA addr bnum (drop 2 rest)
  else
    _handle_ERROR addr (ERR_NOT_DEFINED c) "Invalid packet type".

(** A thread started with [target=self._parse_pkt]: an exception (also
    [SystemExit]) ends that thread and nothing else. *)
Definition Thread (data : list byte) (addr : Addr) (w : World) : World :=
  (_parse_pkt data addr w).2.

(** [data, addr = self.sock.recvfrom(MAX_BYTES)]: what exceeds the buffer
    size is dropped. *)
Definition recvfrom (dgram : list byte) : list byte :=
  take (Z.to_nat (MAX_BYTES c)) dgram.

(** One turn of the [while True] loop of [run_server] on an incoming
    datagram, the started thread running until it blocks or ends. *)
Definition run_server (dgram : list byte) (addr : Addr) (w : World) : World :=
  match recvfrom dgram with
  | [] => w
  | data => Thread data addr w
  end.

(** One timeout interval of the wait on Event [tm] ends: a blocked thread
    whose Event is set leaves its loop and returns; otherwise [wait] gave
    [False], the body retransmits and the thread waits again. *)
Definition elapse (tm : nat) (w : World) : World :=
  match waiting w !! tm with
  | None => w
  | Some wt =>
      if is_set w tm then set_waiting (λ ws, delete tm ws) w
      else (_transmit (w_pkt wt) (w_addr wt) w).2
  end.

End Server.

(** ** Runs *)

(** What happens to the server: a datagram arrives, or a timeout interval
    of a wait ends. *)
Inductive event : Type :=
  | Datagram (dgram : list byte) (addr : Addr)
  | Elapse (tm : nat).

Definition step (c : Constants) (ev : event) (w : World) : World :=
  match ev with
  | Datagram dgram addr => run_server c dgram addr w
  | Elapse tm => elapse tm w
  end.

Definition run (c : Constants) (evs : list event) (w : World) : World :=
  foldl (λ w ev, step c ev w) w evs.

(** The [__main__] block: one socket is created, bound to the module-level
    name [sock] and passed to [Server(sock, timeout)]. *)
Definition main (s : Socket) (fs : gmap string (list byte)) (pl : string → Place) : World :=
  {| self_sock := s; reads := ∅; writes := ∅; global_sock := Some s;
     files := fs; place := pl; events := []; waiting := ∅; wire := [] |}.

(** [Server(s, timeout)] built by a module that imports [server]: the
    [__main__] block has not run and the name [sock] is not bound. *)
Definition imported (s : Socket) (fs : gmap string (list byte)) (pl : string → Place) : World :=
  {| self_sock := s; reads := ∅; writes := ∅; global_sock := None;
     files := fs; place := pl; events := []; waiting := ∅; wire := [] |}.

(** The worlds the running program goes through. *)
Inductive reachable (c : Constants) : World → Prop :=
  | reach_main s fs pl : reachable c (main s fs pl)
  | reach_step w ev : reachable c w → reachable c (step c ev w).

(** A peer's packets handled one after the other, each by its own thread,
    each thread running until it blocks or ends before the next starts. *)
Definition serve (c : Constants) (addr : Addr) (pkts : list (list byte)) (w : World) : World :=
  foldl (λ w data, Thread c data addr w) w pkts.

(** ** Packets on the wire

    The byte strings the three constructors produce when their numbers fit
    the [h] format; [ACK_dgram] and [DATA_dgram] are also what a client
    sends. *)

Definition ACK_dgram (c : Constants) (n : Z) : list byte :=
  be16 (ACK_MODE c) ++ be16 n.

Definition DATA_dgram (c : Constants) (n : Z) (buf : list byte) : list byte :=
  be16 (DATA_MODE c) ++ be16 n ++ buf.

Definition ERROR_dgram (c : Constants) (code : Z) (msg : string) : list byte :=
  be16 (ERROR_MODE c) ++ be16 code
    ++ encode (msg +:+ String Ascii.zero EmptyString) ++ [x00].

(** A request datagram: opcode, then [filename NUL mode NUL]. *)
Definition request_dgram (opcode : Z) (fname mode : string) : list byte :=
  be16 opcode ++ encode fname ++ [x00] ++ encode mode ++ [x00].

(** [data] is a read (write) request that names [fname] in mode [mode]. *)
Definition is_request (opcode : Z) (data : list byte) (fname mode : string) : Prop :=
  struct_unpack_h (take 2 data) = Ok opcode
  ∧ _parse_init_request (drop 2 data) = Ok (fname, mode).

(** The bytes of block [n] of a file: what [_handle_RRQ] reads for it. *)
Definition nth_block (c : Constants) (content : list byte) (n : Z) : list byte :=
  take (Z.to_nat (MAX_BYTES c)) (drop (Z.to_nat ((n - 1) * MAX_BYTES c)) content).

(** The acknowledgements of blocks [1 .. n], in sequence. *)
Definition acks (c : Constants) (n : nat) : list (list byte) :=
  map (λ j : nat, ACK_dgram c (Z.of_nat j)) (seq 1 n).

(** The DATA transmissions of blocks [1 .. n] of a file to a peer. *)
Definition blocks_sent (c : Constants) (s : Socket) (addr : Addr)
    (content : list byte) (n : nat) : list Sent :=
  map (λ j : nat, (s, DATA_dgram c (Z.of_nat j) (nth_block c content (Z.of_nat j)), addr))
      (seq 1 n).

(** The world in which a handler has stored context [fc] for [addr] in the
    read table, sent [pkt] and entered its retry loop on a new Event. *)
Definition read_started (w : World) (addr : Addr) (fc : FileContext) (pkt : list byte) : World :=
  {| self_sock := self_sock w;
     reads := <[addr := fc]> (reads w);
     writes := writes w;
     global_sock := global_sock w;
     files := files w;
     place := place w;
     events := events w ++ [false];
     waiting := <[timer fc := {| w_frame := InRRQ; w_pkt := pkt; w_addr := addr |}]> (waiting w);
     wire := wire w ++ [(self_sock w, pkt, addr)] |}.

(** The same for the write table; the thread enters the retry loop only if
    [loop] holds. *)
Definition write_started (w : World) (addr : Addr) (fc : FileContext) (pkt : list byte)
    (loop : bool) : World :=
  {| self_sock := self_sock w;
     reads := reads w;
     writes := <[addr := fc]> (writes w);
     global_sock := global_sock w;
     files := files w;
     place := place w;
     events := events w ++ [false];
     waiting := if loop
                then <[timer fc := {| w_frame := InWRQ; w_pkt := pkt; w_addr := addr |}]> (waiting w)
                else waiting w;
     wire := wire w ++ [(self_sock w, pkt, addr)] |}.

(** The content of a file after [_handle_WRQ] has written block [n]. *)
Definition written (c : Constants) (n : Z) (buf : list byte) : list byte :=
  match buf with
  | [] => []
  | _ => repeat x00 (Z.to_nat ((n - 1) * MAX_BYTES c)) ++ buf
  end.

(** The expression [len(buf) < MAX_BUFFER_WRQ] of [_handle_WRQ]. *)
Definition short_block (c : Constants) (buf : list byte) : bool :=
  Z.of_nat (length buf) <? MAX_BUFFER_WRQ c.

(** The value of the local [is_done] when [_handle_WRQ] reaches its last
    statement. *)
Definition write_done (c : Constants) (n : Z) (buf : option (list byte)) : bool :=
  (0 <? n) && short_block c (default [] buf).

(** The world after one more [sendto] on socket [s]. *)
Definition sent_on (s : Socket) (pkt : list byte) (addr : Addr) (w : World) : World :=
  set_wire (λ l, l ++ [(s, pkt, addr)]) w.

(** The world after [e.set()]. *)
Definition cancelled (e : nat) (w : World) : World :=
  set_events (λ es, <[e:=true]> es) w.

(** The world after block [n] was written to [fname]. *)
Definition stored (c : Constants) (fname : string) (n : Z) (buf : list byte) (w : World) : World :=
  set_files (λ fs, <[fname := written c n buf]> fs) w.

(** A thread blocked on [tm] that a timeout would make retransmit. *)
Definition live (w : World) (tm : nat) (wt : Waiter) : Prop :=
  waiting w !! tm = Some wt ∧ is_set w tm = false.

(** The table a retry loop belongs to. *)
Definition table (fr : Frame) (w : World) : gmap Addr FileContext :=
  match fr with
  | InRRQ => reads w
  | InWRQ => writes w
  end.

(** What every world of the running program satisfies: a live thread is the
    one of the context stored for its peer and direction; Events referred to
    exist; the global [sock] is the server's socket. *)
Record consistent (w : World) : Prop := {
  live_is_current : ∀ tm wt, live w tm wt →
    ∃ fc, table (w_frame wt) w !! w_addr wt = Some fc ∧ timer fc = tm;
  reads_timer : ∀ addr fc, reads w !! addr = Some fc → (timer fc < length (events w))%nat;
  writes_timer : ∀ addr fc, writes w !! addr = Some fc → (timer fc < length (events w))%nat;
  waiting_timer : ∀ tm wt, waiting w !! tm = Some wt → (tm < length (events w))%nat;
  sock_bound : global_sock w = Some (self_sock w)
}.

(** The read table holds, for [addr], the context of block [n] of [fname]
    with completion flag [done]. *)
Definition reading (w : World) (addr : Addr) (fname : string) (n : Z) (done : bool) : Prop :=
  ∃ tm, reads w !! addr =
          Some {| filename := fname; block_num := n; timer := tm; is_done := Some done |}.

(** No live thread retransmits to [addr] from the loop [fr]. *)
Definition quiet (fr : Frame) (addr : Addr) (w : World) : Prop :=
  ∀ tm wt, live w tm wt → w_frame wt = fr → w_addr wt ≠ addr.

(** A handler started in a world satisfying [P] ends in a world satisfying
    [Q], or dies in a [consistent] world. *)
Definition triple {A : Type} (P : World → Prop) (m : M A) (Q : A → World → Prop) : Prop :=
  ∀ w, P w →
    match m w with
    | (Ok a, w') => Q a w'
    | (Raise _, w') => consistent w'
    end.

(** ** A peer and packets for the examples *)

Definition client : Addr := ("192.0.2.7"%string, 40000).

Definition other_peer : Addr := ("192.0.2.9"%string, 40001).

Definition RRQ_octet (c : Constants) (fname : string) : list byte :=
  request_dgram (RRQ_MODE c) fname "octet".

Definition WRQ_octet (c : Constants) (fname : string) : list byte :=
  request_dgram (WRQ_MODE c) fname "octet".

Definition srv : Socket := 3%nat.

(** The directory the examples run in: the server may create and write
    files there; [.] and [..] are directories; the empty path and the paths
    through [nodir], which does not exist, lead nowhere. *)
Definition cwd (p : string) : Place :=
  if bool_decide (p = "."%string ∨ p = ".."%string) then Directory
  else if bool_decide (p = EmptyString) || String.prefix "nodir/" p then Nowhere
  else Plain.

(** A payload of ten bytes, shorter than a block. *)
Definition ten_bytes : list byte := repeat x41 10.

(** A full write block under [tftp]. *)
Definition full_block : list byte := repeat x41 508.

(** A file of 32767 whole blocks of 512 bytes. *)
Definition big_file : list byte := repeat x00 (Z.to_nat (32767 * 512)).

(** ** Notions for the rest of the server *)

(** No zero byte. *)
Definition nul_free (bs : list byte) : bool :=
  forallb (λ b, negb (Byte.eqb b x00)) bs.

(** A handler keeps [I], whether it returns or raises. *)
Definition keeps {A : Type} (I : World → Prop) (m : M A) : Prop :=
  ∀ w, I w → I (m w).2.

(** [I] survives the effects a handler for peer [addr] can have on the
    server's own state: creating and setting Events, storing a context for
    [addr] (a read context with a completion flag, a write context without,
    the block number one that could be packed), blocking a thread that
    retransmits to [addr], and sending to [addr] on the server's or the
    global socket.  Writing files is accounted for apart. *)
Record stable (addr : Addr) (I : World → Prop) : Prop := {
  st_cancel : ∀ e w, I w → I (cancelled e w);
  st_new : ∀ w, I w → I (set_events (λ es, es ++ [false]) w);
  st_reads : ∀ fc w, is_Some (is_done fc) → int16_ok (block_num fc) = true →
    I w → I (set_reads (λ r, <[addr := fc]> r) w);
  st_writes : ∀ fc w, is_done fc = None → int16_ok (block_num fc) = true →
    I w → I (set_writes (λ r, <[addr := fc]> r) w);
  st_wait : ∀ tm fr pkt w,
    I w → I (set_waiting (λ ws, <[tm := {| w_frame := fr; w_pkt := pkt; w_addr := addr |}]> ws) w);
  st_send : ∀ s pkt w, s = self_sock w ∨ global_sock w = Some s →
    I w → I (sent_on s pkt addr w)
}.

(** [I] does not depend on the files. *)
Definition blind_to_files (I : World → Prop) : Prop :=
  ∀ name x w, I w → I (set_files (λ fs, <[name := x]> fs) w).

(** The same with the Events told apart: [I] survives the setting of an
    Event in [E] and the use of a new Event in [T] (stored in a context,
    waited on); where [I] holds the Events of the contexts stored for [addr]
    are in [E] and the next new Event is in [T]. *)
Record guarded (addr : Addr) (E T : nat → Prop) (I : World → Prop) : Prop := {
  gd_cancel : ∀ e w, E e → I w → I (cancelled e w);
  gd_new : ∀ w, I w → T (length (events w)) ∧ I (set_events (λ es, es ++ [false]) w);
  gd_reads : ∀ fc w, is_Some (is_done fc) → int16_ok (block_num fc) = true → T (timer fc) →
    I w → I (set_reads (λ r, <[addr := fc]> r) w);
  gd_writes : ∀ fc w, is_done fc = None → int16_ok (block_num fc) = true → T (timer fc) →
    I w → I (set_writes (λ r, <[addr := fc]> r) w);
  gd_wait : ∀ tm fr pkt w, T tm →
    I w → I (set_waiting (λ ws, <[tm := {| w_frame := fr; w_pkt := pkt; w_addr := addr |}]> ws) w);
  gd_send : ∀ s pkt w, s = self_sock w ∨ global_sock w = Some s →
    I w → I (sent_on s pkt addr w);
  gd_reads_timer : ∀ fc w, I w → reads w !! addr = Some fc → E (timer fc);
  gd_writes_timer : ∀ fc w, I w → writes w !! addr = Some fc → E (timer fc)
}.

(** Stored contexts: a read context has a completion flag, a write context
    has none, and every block number fits the [h] format. *)
Definition contexts_ok (w : World) : Prop :=
  (∀ a fc, reads w !! a = Some fc →
     is_Some (is_done fc) ∧ int16_ok (block_num fc) = true)
  ∧ (∀ a fc, writes w !! a = Some fc →
     is_done fc = None ∧ int16_ok (block_num fc) = true).

(** The server's socket and the global [sock] are [s0], and every
    transmission so far went out on it. *)
Definition sends_from (s0 : Socket) (w : World) : Prop :=
  self_sock w = s0 ∧ global_sock w = Some s0 ∧ Forall (λ x : Sent, x.1.1 = s0) (wire w).

(** Since [w0], nothing happened to the contexts of peers other than [addr]
    and nothing was sent to anyone but [addr]. *)
Definition untouched (addr : Addr) (w0 w : World) : Prop :=
  (∀ a, a ≠ addr → reads w !! a = reads w0 !! a ∧ writes w !! a = writes w0 !! a)
  ∧ ∃ l, wire w = wire w0 ++ l ∧ Forall (λ x : Sent, x.2 = addr) l.

(** ** Outstanding transmissions *)

(** The events that are no matching reply to the packet of block [n] sent
    to [addr] from loop [fr]: the end of a timeout interval of any wait, a
    datagram of another peer, and from the peer itself an ACK (for a DATA
    that awaits its ACK) or a DATA (for an ACK that awaits the next DATA)
    with another block number than the awaited one. *)
Definition unmatched (c : Constants) (fr : Frame) (addr : Addr) (n : Z) (ev : event) : Prop :=
  match ev with
  | Elapse _ => True
  | Datagram dgram a =>
      a ≠ addr
      ∨ match fr with
        | InRRQ => ∃ m, int16_ok m = true ∧ m ≠ n ∧ dgram = ACK_dgram c m
        | InWRQ => ∃ m buf, int16_ok m = true ∧ m ≠ n + 1 ∧ dgram = DATA_dgram c m buf
        end
  end.

(** The packet [pkt] of block [n] is outstanding: the thread that sent it
    to [addr] is blocked in loop [fr] on Event [tm], which is not set; the
    context stored for the peer is the one of block [n] with this Event; and
    no other stored context has this Event. *)
Record outstanding (fr : Frame) (addr : Addr) (n : Z) (tm : nat) (pkt : list byte)
    (w : World) : Prop := {
  out_live : live w tm {| w_frame := fr; w_pkt := pkt; w_addr := addr |};
  out_event : (tm < length (events w))%nat;
  out_ctx : ∃ fc, table fr w !! addr = Some fc ∧ block_num fc = n ∧ timer fc = tm;
  out_reads : ∀ a fc, reads w !! a = Some fc → timer fc = tm → fr = InRRQ ∧ a = addr;
  out_writes : ∀ a fc, writes w !! a = Some fc → timer fc = tm → fr = InWRQ ∧ a = addr
}.

(** The worlds in which [_handle_RRQ] and [_handle_WRQ] are called: a world
    of the running server, in which the caller ([_parse_pkt], [_handle_ACK],
    [_handle_DATA]) may have set an Event just before. *)
Definition called_in (c : Constants) (w : World) : Prop :=
  ∃ w0, reachable c w0 ∧ (w = w0 ∨ ∃ e, w = cancelled e w0).

(** [r] is the outcome of a handler, called in [w], that has sent [pkt] for
    block [n] to [addr] and waits in loop [fr] on Event [tm].  Unmatched
    events leave the Event unset.  And after any events at all, as long as
    the Event is not set, the thread is still in its loop with that packet;
    the next timeout interval of its wait then sends [pkt] once more, on the
    same socket, and changes nothing else; and [N] such intervals in a row
    add exactly [N] copies, for every [N]. *)
Definition retransmits (c : Constants) (fr : Frame) (addr : Addr) (n : Z) (tm : nat)
    (pkt : list byte) (w : World) (r : res unit * World) : Prop :=
  ∃ w1, r = (Ok tt, w1)
    ∧ wire w1 = wire w ++ [(self_sock w, pkt, addr)]
    ∧ (∀ evs, Forall (unmatched c fr addr n) evs → is_set (run c evs w1) tm = false)
    ∧ ∀ evs, is_set (run c evs w1) tm = false →
        let w' := run c evs w1 in
        live w' tm {| w_frame := fr; w_pkt := pkt; w_addr := addr |}
        ∧ step c (Elapse tm) w' = sent_on (self_sock w) pkt addr w'
        ∧ ∀ N, wire (run c (repeat (Elapse tm) N) w')
               = wire w' ++ repeat (self_sock w, pkt, addr) N.

(** * Properties *)

(** ** The codec *)

Lemma Z_of_byte_of_Z (z : Z) : 0 <= z < 256 → Z_of_byte (byte_of_Z z) = z.
Proof.
  intros Hz. unfold Z_of_byte, byte_of_Z.
  destruct (Byte.of_N (Z.to_N z)) as [b|] eqn:E.
  - apply Byte.to_of_N in E. rewrite E. lia.
  - apply Byte.of_N_None_iff in E. lia.
Qed.

Lemma struct_unpack_h_be16 (v : Z) : int16_ok v = true → struct_unpack_h (be16 v) = Ok v.
Proof.
  unfold int16_ok. intros Hv. apply andb_true_iff in Hv as [Hlo Hhi].
  apply Z.leb_le in Hlo, Hhi.
  unfold struct_unpack_h, be16.
  assert (Hm : 0 <= v mod 65536 < 65536) by (apply Z.mod_pos_bound; lia).
  rewrite !Z_of_byte_of_Z.
  - assert (Hlow : v mod 256 = (v mod 65536) mod 256).
    { symmetry. apply Z.mod_mod_divide. exists 256. lia. }
    rewrite Hlow.
    assert (Hu : 256 * (v mod 65536 / 256) + v mod 65536 mod 256 = v mod 65536).
    { symmetry. apply Z.div_mod. lia. }
    rewrite Hu. f_equal.
    destruct (Z.ltb_spec (v mod 65536) 32768) as [Hlt|Hge].
    + destruct (Z.lt_ge_cases v 0) as [Hneg|Hpos].
      * assert (v mod 65536 = v + 65536)
          by (symmetry; apply Z.mod_unique with (q := -1); lia). lia.
      * apply Z.mod_small. lia.
    + destruct (Z.lt_ge_cases v 0) as [Hneg|Hpos].
      * assert (v mod 65536 = v + 65536)
          by (symmetry; apply Z.mod_unique with (q := -1); lia). lia.
      * rewrite Z.mod_small in Hge by lia. lia.
  - apply Z.mod_pos_bound. lia.
  - split; [apply Z.div_pos; lia | apply Z.div_lt_upper_bound; lia].
Qed.

Lemma wf_constants_facts (c : Constants) : wf_constants c = true → wf_facts c.
Proof.
  unfold wf_constants. cbn [forallb]. intros H.
  repeat match goal with
  | X : _ && _ = true |- _ => apply andb_true_iff in X as [? ?]
  | X : negb (_ =? _) = true |- _ => apply negb_true_iff, Z.eqb_neq in X
  | X : (_ <? _) = true |- _ => apply Z.ltb_lt in X
  end.
  constructor; assumption.
Qed.

Lemma struct_pack_hh_ok (a b : Z) :
  int16_ok a = true → int16_ok b = true → struct_pack_hh a b = Ok (be16 a ++ be16 b).
Proof. intros Ha Hb. unfold struct_pack_hh. now rewrite Ha, Hb. Qed.

Lemma struct_pack_hh_raise (a b : Z) :
  int16_ok b = false → struct_pack_hh a b = Raise StructError.
Proof. intros Hb. unfold struct_pack_hh. rewrite Hb. now rewrite andb_false_r. Qed.

Lemma _ACK_ok (c : Constants) (n : Z) :
  wf_facts c → int16_ok n = true → _ACK c n = Ok (ACK_dgram c n).
Proof. intros Hc Hn. unfold _ACK. rewrite struct_pack_hh_ok by auto using wf_ACK. reflexivity. Qed.

Lemma _DATA_ok (c : Constants) (n : Z) (buf : list byte) :
  wf_facts c → int16_ok n = true → _DATA c n buf = Ok (DATA_dgram c n buf).
Proof.
  intros Hc Hn. unfold _DATA, DATA_dgram.
  rewrite struct_pack_hh_ok by auto using wf_DATA. reflexivity.
Qed.

Lemma _ERROR_ok (c : Constants) (code : Z) (msg : string) :
  wf_facts c → int16_ok code = true → _ERROR c code msg = Ok (ERROR_dgram c code msg).
Proof.
  intros Hc Hn. unfold _ERROR, ERROR_dgram.
  rewrite struct_pack_hh_ok by auto using wf_ERROR. reflexivity.
Qed.

(** ** The handlers, equation by equation *)

Lemma bind_Ok {A B : Type} (m : M A) (k : A → M B) (w w' : World) (a : A) :
  m w = (Ok a, w') → (m ≫= k) w = k a w'.
Proof. intros H. unfold mbind, M_bind. now rewrite H. Qed.

Lemma bind_Raise {A B : Type} (m : M A) (k : A → M B) (w w' : World) (e : exn) :
  m w = (Raise e, w') → (m ≫= k) w = (Raise e, w').
Proof. intros H. unfold mbind, M_bind. now rewrite H. Qed.

Lemma file_read_block (c : Constants) (w : World) (fname : string) (content : list byte) (n : Z) :
  0 < MAX_BYTES c → 1 <= n → files w !! fname = Some content →
  file_read fname ((n - 1) * MAX_BYTES c) (MAX_BYTES c) w = (Ok (nth_block c content n), w).
Proof.
  intros Hmb Hn Hf. unfold file_read, nth_block. rewrite Hf.
  destruct (Z.ltb_spec ((n - 1) * MAX_BYTES c) 0); [nia|].
  destruct (Z.ltb_spec (MAX_BYTES c) 0); [lia|]. reflexivity.
Qed.

Lemma _handle_RRQ_ok (c : Constants) (w : World) (addr : Addr) (fname : string)
    (content : list byte) (n : Z) :
  wf_facts c → 1 <= n → int16_ok n = true → files w !! fname = Some content →
  _handle_RRQ c addr fname n w =
    (Ok tt,
     read_started w addr
       {| filename := fname; block_num := n; timer := length (events w);
          is_done := Some (Z.of_nat (length (nth_block c content n)) <? MAX_BYTES c) |}
       (DATA_dgram c n (nth_block c content n))).
Proof.
  intros Hc Hn Hi Hf. unfold _handle_RRQ.
  erewrite bind_Ok by (apply file_read_block; eauto using wf_MAX_BYTES).
  erewrite bind_Ok by (unfold lift; rewrite _DATA_ok by assumption; reflexivity).
  reflexivity.
Qed.

Lemma _handle_RRQ_overflow (c : Constants) (w : World) (addr : Addr) (fname : string)
    (content : list byte) (n : Z) :
  wf_facts c → 1 <= n → int16_ok n = false → files w !! fname = Some content →
  _handle_RRQ c addr fname n w = (Raise StructError, w).
Proof.
  intros Hc Hn Hi Hf. unfold _handle_RRQ.
  erewrite bind_Ok by (apply file_read_block; eauto using wf_MAX_BYTES).
  erewrite bind_Raise; [reflexivity|].
  unfold lift, _DATA. now rewrite struct_pack_hh_raise.
Qed.

Lemma file_write_block (c : Constants) (w : World) (fname : string) (buf : list byte) (n : Z) :
  0 < MAX_BYTES c → 1 <= n → place w fname = Plain →
  file_write fname ((n - 1) * MAX_BYTES c) (Some buf) w = (Ok tt, stored c fname n buf w).
Proof.
  intros Hmb Hn Hp. unfold file_write, stored, written. rewrite Hp. cbn [refused].
  destruct (Z.ltb_spec ((n - 1) * MAX_BYTES c) 0); [nia|].
  destruct buf as [|b buf]; [reflexivity|].
  unfold set_files; cbn. now rewrite insert_insert_eq.
Qed.

Lemma _handle_WRQ_request (c : Constants) (w : World) (addr : Addr) (fname : string) :
  wf_facts c →
  _handle_WRQ c addr fname 0 None w =
    (Ok tt,
     write_started w addr
       {| filename := fname; block_num := 0; timer := length (events w); is_done := None |}
       (ACK_dgram c 0) true).
Proof.
  intros Hc. unfold _handle_WRQ. cbn [Z.ltb Z.compare].
  erewrite bind_Ok by reflexivity.
  erewrite bind_Ok by (unfold lift; rewrite _ACK_ok by (assumption || reflexivity); reflexivity).
  reflexivity.
Qed.

Lemma _handle_WRQ_block (c : Constants) (w : World) (addr : Addr) (fname : string)
    (n : Z) (buf : list byte) :
  wf_facts c → 1 <= n → int16_ok n = true → place w fname = Plain →
  _handle_WRQ c addr fname n (Some buf) w =
    (Ok tt,
     write_started (stored c fname n buf w) addr
       {| filename := fname; block_num := n; timer := length (events w); is_done := None |}
       (ACK_dgram c n) (negb (short_block c buf))).
Proof.
  intros Hc Hn Hi Hp. unfold _handle_WRQ.
  destruct (Z.ltb_spec 0 n); [|lia].
  erewrite bind_Ok.
  2:{ erewrite bind_Ok by (apply file_write_block; eauto using wf_MAX_BYTES). reflexivity. }
  erewrite bind_Ok by (unfold lift; rewrite _ACK_ok by assumption; reflexivity).
  change (default [] (Some buf)) with buf. fold (short_block c buf).
  destruct (short_block c buf); reflexivity.
Qed.

(** [open] fails: [_handle_WRQ] ends there. *)
Lemma _handle_WRQ_refused (c : Constants) (w : World) (addr : Addr) (fname : string)
    (n : Z) (buf : option (list byte)) (e : exn) :
  1 <= n → refused (place w fname) = Some e →
  _handle_WRQ c addr fname n buf w = (Raise e, w).
Proof.
  intros Hn Hp. unfold _handle_WRQ.
  destruct (Z.ltb_spec 0 n); [|lia].
  erewrite bind_Raise; [reflexivity|].
  erewrite bind_Raise; [reflexivity|].
  unfold file_write. now rewrite Hp.
Qed.

Lemma _handle_ERROR_bound (c : Constants) (w : World) (addr : Addr) (code : Z) (msg : string)
    (g : Socket) :
  wf_facts c → int16_ok code = true → global_sock w = Some g →
  _handle_ERROR c addr code msg w = (Ok tt, sent_on g (ERROR_dgram c code msg) addr w).
Proof.
  intros Hc Hi Hg. unfold _handle_ERROR.
  erewrite bind_Ok by (unfold lift; rewrite _ERROR_ok by assumption; reflexivity).
  erewrite bind_Ok by reflexivity. rewrite Hg. reflexivity.
Qed.

Lemma _handle_ERROR_unbound (c : Constants) (w : World) (addr : Addr) (code : Z) (msg : string) :
  wf_facts c → int16_ok code = true → global_sock w = None →
  _handle_ERROR c addr code msg w = (Raise NameError, w).
Proof.
  intros Hc Hi Hg. unfold _handle_ERROR.
  erewrite bind_Ok by (unfold lift; rewrite _ERROR_ok by assumption; reflexivity).
  erewrite bind_Ok by reflexivity. rewrite Hg. reflexivity.
Qed.

(** An error reply followed by [sys.exit()]. *)
Lemma error_exit_bound (c : Constants) (w : World) (addr : Addr) (code : Z) (msg : string)
    (g : Socket) :
  wf_facts c → int16_ok code = true → global_sock w = Some g →
  (_handle_ERROR c addr code msg;; raise SystemExit) w =
    (Raise SystemExit : res unit, sent_on g (ERROR_dgram c code msg) addr w).
Proof.
  intros Hc Hi Hg. erewrite bind_Ok by (apply _handle_ERROR_bound; eassumption). reflexivity.
Qed.

Lemma error_exit_unbound (c : Constants) (w : World) (addr : Addr) (code : Z) (msg : string) :
  wf_facts c → int16_ok code = true → global_sock w = None →
  (_handle_ERROR c addr code msg;; raise SystemExit) w = (Raise NameError : res unit, w).
Proof.
  intros Hc Hi Hg. erewrite bind_Raise by (apply _handle_ERROR_unbound; eassumption). reflexivity.
Qed.

Lemma _validate_tid_known (c : Constants) (w : World) (addr : Addr)
    (dct : gmap Addr FileContext) (fc : FileContext) :
  dct !! addr = Some fc → _validate_tid c addr dct w = (Ok tt, w).
Proof.
  intros H. unfold _validate_tid. rewrite bool_decide_eq_false_2; [reflexivity|congruence].
Qed.

Lemma _validate_mode_octet (c : Constants) (w : World) (addr : Addr) :
  _validate_mode c addr "octet" w = (Ok tt, w).
Proof. reflexivity. Qed.

Lemma _validate_file_exists (c : Constants) (w : World) (addr : Addr) (fname : string)
    (content : list byte) :
  files w !! fname = Some content → _validate_file c addr fname w = (Ok tt, w).
Proof.
  intros H. unfold _validate_file.
  erewrite bind_Ok by reflexivity. unfold exists_path.
  rewrite bool_decide_eq_true_2 by (rewrite H; eauto). reflexivity.
Qed.

Lemma _handle_ACK_unknown (c : Constants) (w : World) (addr : Addr) (n : Z) :
  reads w !! addr = None →
  _handle_ACK c addr n w =
    (_handle_ERROR c addr (ERR_UNKNOWN_TID c) "Unknown transfer ID";; raise SystemExit) w.
Proof.
  intros H. unfold _handle_ACK.
  erewrite bind_Ok by reflexivity.
  unfold _validate_tid. rewrite bool_decide_eq_true_2 by assumption.
  unfold mbind, M_bind.
  destruct (_handle_ERROR c addr (ERR_UNKNOWN_TID c) "Unknown transfer ID" w) as [[[]|e] w'];
    reflexivity.
Qed.

Lemma _handle_ACK_known (c : Constants) (w : World) (addr : Addr) (n : Z) (fc : FileContext) :
  reads w !! addr = Some fc →
  _handle_ACK c addr n w =
    if block_num fc =? n then
      if negb (truthy (is_done fc))
      then _handle_RRQ c addr (filename fc) (block_num fc + 1) (cancelled (timer fc) w)
      else (Ok tt, cancelled (timer fc) w)
    else (Ok tt, w).
Proof.
  intros H. unfold _handle_ACK.
  erewrite bind_Ok by reflexivity.
  erewrite bind_Ok by (eapply _validate_tid_known; eassumption).
  erewrite bind_Ok by reflexivity.
  erewrite bind_Ok by (unfold getitem; rewrite H; reflexivity).
  destruct (block_num fc =? n); [|reflexivity].
  erewrite bind_Ok by reflexivity.
  destruct (negb (truthy (is_done fc))); reflexivity.
Qed.

Lemma _handle_DATA_unknown (c : Constants) (w : World) (addr : Addr) (n : Z) (buf : list byte) :
  writes w !! addr = None →
  _handle_DATA c addr n buf w =
    (_handle_ERROR c addr (ERR_UNKNOWN_TID c) "Unknown transfer ID";; raise SystemExit) w.
Proof.
  intros H. unfold _handle_DATA.
  erewrite bind_Ok by reflexivity.
  unfold _validate_tid. rewrite bool_decide_eq_true_2 by assumption.
  unfold mbind, M_bind.
  destruct (_handle_ERROR c addr (ERR_UNKNOWN_TID c) "Unknown transfer ID" w) as [[[]|e] w'];
    reflexivity.
Qed.

Lemma _handle_DATA_known (c : Constants) (w : World) (addr : Addr) (n : Z) (buf : list byte)
    (fc : FileContext) :
  writes w !! addr = Some fc →
  _handle_DATA c addr n buf w =
    if block_num fc + 1 =? n
    then _handle_WRQ c addr (filename fc) (block_num fc + 1) (Some buf) (cancelled (timer fc) w)
    else (Ok tt, w).
Proof.
  intros H. unfold _handle_DATA.
  erewrite bind_Ok by reflexivity.
  erewrite bind_Ok by (eapply _validate_tid_known; eassumption).
  erewrite bind_Ok by reflexivity.
  erewrite bind_Ok by (unfold getitem; rewrite H; reflexivity).
  destruct (block_num fc + 1 =? n); [|reflexivity].
  erewrite bind_Ok by reflexivity. reflexivity.
Qed.

(** *** The dispatcher *)

Lemma _parse_pkt_ACK (c : Constants) (w : World) (addr : Addr) (n : Z) :
  wf_facts c → int16_ok n = true →
  _parse_pkt c (ACK_dgram c n) addr w = _handle_ACK c addr n w.
Proof.
  intros Hc Hn. unfold _parse_pkt.
  erewrite bind_Ok.
  2:{ unfold lift. change (take 2 (ACK_dgram c n)) with (be16 (ACK_MODE c)).
      rewrite struct_unpack_h_be16 by apply Hc. reflexivity. }
  cbn beta zeta.
  rewrite (proj2 (Z.eqb_neq (ACK_MODE c) (RRQ_MODE c))) by (intros E; now apply (wf_RRQ_ACK c Hc)).
  rewrite (proj2 (Z.eqb_neq (ACK_MODE c) (WRQ_MODE c))) by (intros E; now apply (wf_WRQ_ACK c Hc)).
  rewrite Z.eqb_refl.
  erewrite bind_Ok.
  2:{ unfold lift. change (drop 2 (ACK_dgram c n)) with (be16 n).
      rewrite struct_unpack_h_be16 by assumption. reflexivity. }
  reflexivity.
Qed.

Lemma _parse_pkt_DATA (c : Constants) (w : World) (addr : Addr) (n : Z) (buf : list byte) :
  wf_facts c → int16_ok n = true →
  _parse_pkt c (DATA_dgram c n buf) addr w = _handle_DATA c addr n buf w.
Proof.
  intros Hc Hn. unfold _parse_pkt.
  erewrite bind_Ok.
  2:{ unfold lift. change (take 2 (DATA_dgram c n buf)) with (be16 (DATA_MODE c)).
      rewrite struct_unpack_h_be16 by apply Hc. reflexivity. }
  cbn beta zeta.
  rewrite (proj2 (Z.eqb_neq (DATA_MODE c) (RRQ_MODE c))) by (intros E; now apply (wf_RRQ_DATA c Hc)).
  rewrite (proj2 (Z.eqb_neq (DATA_MODE c) (WRQ_MODE c))) by (intros E; now apply (wf_WRQ_DATA c Hc)).
  rewrite (proj2 (Z.eqb_neq (DATA_MODE c) (ACK_MODE c))) by (intros E; now apply (wf_ACK_DATA c Hc)).
  rewrite Z.eqb_refl.
  erewrite bind_Ok.
  2:{ unfold lift. change (take 2 (drop 2 (DATA_dgram c n buf))) with (be16 n).
      rewrite struct_unpack_h_be16 by assumption. reflexivity. }
  reflexivity.
Qed.

Lemma _parse_pkt_RRQ (c : Constants) (w : World) (addr : Addr) (data : list byte)
    (fname mode : string) :
  is_request (RRQ_MODE c) data fname mode →
  _parse_pkt c data addr w =
    (_validate_mode c addr mode;;
     _validate_file c addr fname;;
     rs ← gets reads;
     preempt rs addr;;
     _handle_RRQ c addr fname 1) w.
Proof.
  intros [Hop Hreq]. unfold _parse_pkt.
  erewrite bind_Ok by (unfold lift; rewrite Hop; reflexivity).
  cbn beta zeta. rewrite Z.eqb_refl.
  erewrite bind_Ok by (unfold lift; rewrite Hreq; reflexivity).
  reflexivity.
Qed.

Lemma _parse_pkt_WRQ (c : Constants) (w : World) (addr : Addr) (data : list byte)
    (fname mode : string) :
  wf_facts c → is_request (WRQ_MODE c) data fname mode →
  _parse_pkt c data addr w =
    (_validate_mode c addr mode;;
     ws ← gets writes;
     preempt ws addr;;
     _handle_WRQ c addr fname 0 None) w.
Proof.
  intros Hc [Hop Hreq]. unfold _parse_pkt.
  erewrite bind_Ok by (unfold lift; rewrite Hop; reflexivity).
  cbn beta zeta.
  rewrite (proj2 (Z.eqb_neq (WRQ_MODE c) (RRQ_MODE c))) by (intros E; now apply (wf_RRQ_WRQ c Hc)).
  rewrite Z.eqb_refl.
  erewrite bind_Ok by (unfold lift; rewrite Hreq; reflexivity).
  reflexivity.
Qed.

Lemma _parse_pkt_other (c : Constants) (w : World) (addr : Addr) (data : list byte) (op : Z) :
  struct_unpack_h (take 2 data) = Ok op →
  op ≠ RRQ_MODE c → op ≠ WRQ_MODE c → op ≠ ACK_MODE c → op ≠ DATA_MODE c →
  _parse_pkt c data addr w = _handle_ERROR c addr (ERR_NOT_DEFINED c) "Invalid packet type" w.
Proof.
  intros Hop H1 H2 H3 H4. unfold _parse_pkt.
  erewrite bind_Ok by (unfold lift; rewrite Hop; reflexivity).
  cbn beta zeta.
  now rewrite !(proj2 (Z.eqb_neq _ _)) by assumption.
Qed.

(** ** The invariant of the running program *)

Lemma is_set_cancelled (e tm : nat) (w : World) :
  is_set (cancelled e w) tm = false →
  is_set w tm = false ∧ (tm ≠ e ∨ (length (events w) ≤ e)%nat).
Proof.
  unfold is_set, cancelled. cbn.
  destruct (decide (tm = e)) as [->|Hne].
  - destruct (decide (e < length (events w))%nat) as [Hlt|Hge].
    + rewrite list_lookup_insert_eq by assumption. discriminate.
    + rewrite list_insert_ge by lia. intros H. split; [assumption|right; lia].
  - rewrite list_lookup_insert_ne by congruence. auto.
Qed.

Lemma consistent_cancelled (e : nat) (w : World) : consistent w → consistent (cancelled e w).
Proof.
  intros [H1 H2 H3 H4 H5]. split; cbn.
  - intros tm wt [Hw Hs]. apply is_set_cancelled in Hs as [Hs _].
    destruct (H1 tm wt) as (fc & Hfc & Ht); [split; assumption|].
    exists fc. split; [|assumption]. destruct (w_frame wt); exact Hfc.
  - intros addr fc Hfc. rewrite length_insert. eauto.
  - intros addr fc Hfc. rewrite length_insert. eauto.
  - intros tm wt Hw. rewrite length_insert. eauto.
  - assumption.
Qed.

Lemma consistent_sent_on (s : Socket) (pkt : list byte) (addr : Addr) (w : World) :
  consistent w → consistent (sent_on s pkt addr w).
Proof.
  intros [H1 H2 H3 H4 H5]. split; cbn; assumption.
Qed.

Lemma consistent_set_files (f : gmap string (list byte) → gmap string (list byte)) (w : World) :
  consistent w → consistent (set_files f w).
Proof.
  intros [H1 H2 H3 H4 H5]. split; cbn; assumption.
Qed.

Lemma quiet_set_files (f : gmap string (list byte) → gmap string (list byte)) (fr : Frame)
    (addr : Addr) (w : World) :
  quiet fr addr w → quiet fr addr (set_files f w).
Proof. intros H tm wt Hl. apply (H tm wt). exact Hl. Qed.

Lemma is_set_fresh (w : World) (es : list bool) (tm : nat) :
  events w = es → (tm < length es)%nat →
  ∀ w', events w' = es ++ [false] → is_set w' tm = is_set w tm.
Proof.
  intros He Hlt w' He'. unfold is_set. rewrite He, He'.
  now rewrite lookup_app_l by assumption.
Qed.

Lemma consistent_read_started (w : World) (addr : Addr) (fc : FileContext) (pkt : list byte) :
  consistent w → quiet InRRQ addr w → timer fc = length (events w) →
  consistent (read_started w addr fc pkt).
Proof.
  intros [H1 H2 H3 H4 H5] Hq Ht. split; cbn.
  - intros tm wt [Hw Hs]. cbn in Hw.
    destruct (decide (tm = timer fc)) as [->|Hne].
    + rewrite lookup_insert_eq in Hw. injection Hw as <-. cbn.
      exists fc. now rewrite lookup_insert_eq.
    + rewrite lookup_insert_ne in Hw by congruence.
      assert (Hlt : (tm < length (events w))%nat) by eauto.
      rewrite (is_set_fresh w (events w) tm eq_refl Hlt) in Hs by reflexivity.
      destruct (H1 tm wt) as (fc0 & Hfc0 & Ht0); [split; assumption|].
      exists fc0. split; [|assumption].
      destruct (w_frame wt) eqn:Efr; cbn in *; [|assumption].
      rewrite lookup_insert_ne; [assumption|].
      intros ->. eapply (Hq tm wt); [split; assumption|assumption|reflexivity].
  - intros a fc0. rewrite length_app. cbn.
    destruct (decide (a = addr)) as [->|Hne].
    + rewrite lookup_insert_eq. intros [= <-]. lia.
    + rewrite lookup_insert_ne by congruence. intros Hfc0. apply H2 in Hfc0. lia.
  - intros a fc0 Hfc0. rewrite length_app. cbn. apply H3 in Hfc0. lia.
  - intros tm wt. rewrite length_app. cbn.
    destruct (decide (tm = timer fc)) as [->|Hne].
    + intros _. lia.
    + rewrite lookup_insert_ne by congruence. intros Hw. apply H4 in Hw. lia.
  - assumption.
Qed.

Lemma consistent_write_started (w : World) (addr : Addr) (fc : FileContext) (pkt : list byte)
    (loop : bool) :
  consistent w → quiet InWRQ addr w → timer fc = length (events w) →
  consistent (write_started w addr fc pkt loop).
Proof.
  intros [H1 H2 H3 H4 H5] Hq Ht. split; cbn.
  - intros tm wt [Hw Hs]. cbn in Hw.
    assert (Hcase : (tm = timer fc ∧ wt = {| w_frame := InWRQ; w_pkt := pkt; w_addr := addr |})
                    ∨ (tm ≠ timer fc ∧ waiting w !! tm = Some wt)).
    { destruct loop.
      - destruct (decide (tm = timer fc)) as [->|Hne].
        + rewrite lookup_insert_eq in Hw. injection Hw as <-. now left.
        + rewrite lookup_insert_ne in Hw by congruence. now right.
      - right. split; [|assumption]. intros ->. apply H4 in Hw. lia. }
    destruct Hcase as [[-> ->]|[Hne Hw0]].
    + cbn. exists fc. now rewrite lookup_insert_eq.
    + assert (Hlt : (tm < length (events w))%nat) by eauto.
      rewrite (is_set_fresh w (events w) tm eq_refl Hlt) in Hs by reflexivity.
      destruct (H1 tm wt) as (fc0 & Hfc0 & Ht0); [split; assumption|].
      exists fc0. split; [|assumption].
      destruct (w_frame wt) eqn:Efr; cbn in *; [assumption|].
      rewrite lookup_insert_ne; [assumption|].
      intros ->. eapply (Hq tm wt); [split; assumption|assumption|reflexivity].
  - intros a fc0 Hfc0. rewrite length_app. cbn. apply H2 in Hfc0. lia.
  - intros a fc0. rewrite length_app. cbn.
    destruct (decide (a = addr)) as [->|Hne].
    + rewrite lookup_insert_eq. intros [= <-]. lia.
    + rewrite lookup_insert_ne by congruence. intros Hfc0. apply H3 in Hfc0. lia.
  - intros tm wt. rewrite length_app. cbn. destruct loop.
    + destruct (decide (tm = timer fc)) as [->|Hne].
      * intros _. lia.
      * rewrite lookup_insert_ne by congruence. intros Hw. apply H4 in Hw. lia.
    + intros Hw. apply H4 in Hw. lia.
  - assumption.
Qed.

(** Cancelling the Event of the stored context silences the peer's loop. *)
Lemma quiet_cancelled (fr : Frame) (addr : Addr) (fc : FileContext) (w : World) :
  consistent w → table fr w !! addr = Some fc → quiet fr addr (cancelled (timer fc) w).
Proof.
  intros Hc Hfc tm wt [Hw Hs] Hfr Ha.
  apply is_set_cancelled in Hs as [Hs Hne]. cbn in Hw.
  destruct (live_is_current w Hc tm wt) as (fc0 & Hfc0 & Ht0); [split; assumption|].
  rewrite Hfr, Ha, Hfc in Hfc0. injection Hfc0 as <-.
  destruct Hne as [Hne|Hge]; [congruence|].
  assert ((timer fc < length (events w))%nat); [|lia].
  destruct fr; [eapply reads_timer|eapply writes_timer]; eassumption.
Qed.

(** A peer without a stored context has no live loop. *)
Lemma quiet_absent (fr : Frame) (addr : Addr) (w : World) :
  consistent w → table fr w !! addr = None → quiet fr addr w.
Proof.
  intros Hc Hnone tm wt Hl Hfr Ha.
  destruct (live_is_current w Hc tm wt Hl) as (fc0 & Hfc0 & _).
  rewrite Hfr, Ha, Hnone in Hfc0. discriminate.
Qed.

(** *** Rules for [triple] *)

Lemma triple_bind {A B : Type} (P : World → Prop) (m : M A) (Q : A → World → Prop)
    (k : A → M B) (R : B → World → Prop) :
  triple P m Q → (∀ a, triple (Q a) (k a) R) → triple P (m ≫= k) R.
Proof.
  intros Hm Hk w HP. specialize (Hm w HP). unfold mbind, M_bind.
  destruct (m w) as [[a|e] w']; [exact (Hk a w' Hm)|exact Hm].
Qed.

Lemma triple_weaken {A : Type} (P P' : World → Prop) (m : M A) (Q Q' : A → World → Prop) :
  (∀ w, P' w → P w) → (∀ a w, Q a w → Q' a w) → triple P m Q → triple P' m Q'.
Proof.
  intros HP HQ Hm w HP'. specialize (Hm w (HP w HP')).
  destruct (m w) as [[a|e] w']; auto.
Qed.

Lemma triple_ret {A : Type} (P : World → Prop) (a : A) : triple P (mret a) (λ _, P).
Proof. intros w HP. exact HP. Qed.

Lemma triple_raise {A : Type} (e : exn) (Q : A → World → Prop) :
  triple consistent (raise e) Q.
Proof. intros w HP. exact HP. Qed.

Lemma triple_lift {A : Type} (P : World → Prop) (r : res A) :
  (∀ w, P w → consistent w) → triple P (lift r) (λ _, P).
Proof. intros HP w Hw. unfold lift. destruct r; auto. Qed.

Lemma triple_gets {A : Type} (P : World → Prop) (f : World → A) :
  triple P (gets f) (λ a w, P w ∧ a = f w).
Proof. intros w HP. cbn. auto. Qed.

(** *** The handlers keep the invariant *)

Lemma triple_ERROR (c : Constants) (addr : Addr) (code : Z) (msg : string) :
  triple consistent (_handle_ERROR c addr code msg) (λ _, consistent).
Proof.
  intros w Hw. unfold _handle_ERROR, mbind, M_bind, lift, gets, raise, modify.
  destruct (_ERROR c code msg); [|assumption].
  destruct (global_sock w); [|assumption].
  now apply consistent_sent_on.
Qed.

Lemma triple_error_exit (c : Constants) (addr : Addr) (code : Z) (msg : string)
    (Q : unit → World → Prop) :
  triple consistent (_handle_ERROR c addr code msg;; raise SystemExit) Q.
Proof. eapply triple_bind; [apply triple_ERROR|]. intros ?; cbn beta. apply triple_raise. Qed.

Lemma triple_validate_mode (c : Constants) (addr : Addr) (mode : string) :
  triple consistent (_validate_mode c addr mode) (λ _, consistent).
Proof.
  unfold _validate_mode. destruct (bool_decide _).
  - apply triple_error_exit.
  - apply triple_ret.
Qed.

Lemma triple_validate_file (c : Constants) (addr : Addr) (fname : string) :
  triple consistent (_validate_file c addr fname) (λ _, consistent).
Proof.
  unfold _validate_file, path_exists. eapply triple_bind; [apply triple_gets|].
  intros ex. destruct (negb ex).
  - apply (triple_weaken consistent _ _ (λ _, consistent));
      [intros w [H _]; exact H|auto|apply triple_error_exit].
  - apply (triple_weaken consistent _ _ (λ _, consistent));
      [intros w [H _]; exact H|auto|apply triple_ret].
Qed.

Lemma triple_preempt (fr : Frame) (addr : Addr) (rs : gmap Addr FileContext) :
  triple (λ w, consistent w ∧ rs = table fr w) (preempt rs addr)
         (λ _ w, consistent w ∧ quiet fr addr w).
Proof.
  intros w [Hw ->]. unfold preempt.
  destruct (table fr w !! addr) as [fc|] eqn:E; cbn.
  - split; [now apply consistent_cancelled|now apply quiet_cancelled].
  - split; [assumption|now apply quiet_absent].
Qed.

Lemma triple_handle_RRQ (c : Constants) (addr : Addr) (fname : string) (n : Z) :
  triple (λ w, consistent w ∧ quiet InRRQ addr w) (_handle_RRQ c addr fname n)
         (λ _, consistent).
Proof.
  intros w [Hw Hq]. unfold _handle_RRQ, mbind, M_bind, file_read, lift.
  destruct (files w !! fname); [|assumption].
  destruct (_ <? 0); [assumption|].
  destruct (_DATA c n _) as [pkt|e]; [|assumption].
  cbn. now apply (consistent_read_started w addr
    {| filename := fname; block_num := n; timer := length (events w); is_done := Some _ |} pkt).
Qed.

Lemma triple_handle_WRQ (c : Constants) (addr : Addr) (fname : string) (n : Z)
    (buf : option (list byte)) :
  triple (λ w, consistent w ∧ quiet InWRQ addr w) (_handle_WRQ c addr fname n buf)
         (λ _, consistent).
Proof.
  intros w [Hw Hq].
  assert (Hrest : ∀ (done : bool) w0, consistent w0 → quiet InWRQ addr w0 →
    match (pkt ← lift (_ACK c n);
           tm ← Event_new;
           modify (set_writes (λ r, <[addr := {| filename := fname; block_num := n;
                                                   timer := tm; is_done := None |}]> r));;
           _transmit pkt addr;;
           if negb done then wait_loop InWRQ tm pkt addr else mret tt) w0
    with
    | (Ok _, w') => consistent w'
    | (Raise _, w') => consistent w'
    end).
  { intros done w0 Hw0 Hq0. unfold mbind, M_bind, lift.
    destruct (_ACK c n) as [pkt|e]; [|assumption].
    cbn. destruct done; cbn.
    - now apply (consistent_write_started w0 addr
        {| filename := fname; block_num := n; timer := length (events w0); is_done := None |}
        pkt false).
    - now apply (consistent_write_started w0 addr
        {| filename := fname; block_num := n; timer := length (events w0); is_done := None |}
        pkt true). }
  unfold _handle_WRQ. unfold mbind at 1. unfold M_bind at 1.
  destruct (0 <? n).
  - unfold mbind at 1. unfold M_bind at 1. unfold file_write.
    destruct (refused (place w fname)); [assumption|].
    destruct (_ <? 0); [now apply consistent_set_files|].
    destruct buf as [[|b buf]|]; cbn [mret M_ret];
      try (now apply consistent_set_files).
    + apply Hrest; [now apply consistent_set_files|now apply quiet_set_files].
    + apply Hrest; [now do 2 apply consistent_set_files|now do 2 apply quiet_set_files].
  - apply Hrest; assumption.
Qed.

Lemma triple_handle_ACK (c : Constants) (addr : Addr) (n : Z) :
  triple consistent (_handle_ACK c addr n) (λ _, consistent).
Proof.
  intros w Hw. destruct (reads w !! addr) as [fc|] eqn:E.
  - rewrite (_handle_ACK_known c w addr n fc E).
    destruct (block_num fc =? n); [|assumption].
    destruct (negb (truthy (is_done fc))); [|now apply consistent_cancelled].
    apply triple_handle_RRQ. split; [now apply consistent_cancelled|].
    now apply (quiet_cancelled InRRQ).
  - rewrite (_handle_ACK_unknown c w addr n E). now apply triple_error_exit.
Qed.

Lemma triple_handle_DATA (c : Constants) (addr : Addr) (n : Z) (buf : list byte) :
  triple consistent (_handle_DATA c addr n buf) (λ _, consistent).
Proof.
  intros w Hw. destruct (writes w !! addr) as [fc|] eqn:E.
  - rewrite (_handle_DATA_known c w addr n buf fc E).
    destruct (block_num fc + 1 =? n); [|assumption].
    apply triple_handle_WRQ. split; [now apply consistent_cancelled|].
    now apply (quiet_cancelled InWRQ).
  - rewrite (_handle_DATA_unknown c w addr n buf E). now apply triple_error_exit.
Qed.

Lemma triple_parse_pkt (c : Constants) (data : list byte) (addr : Addr) :
  triple consistent (_parse_pkt c data addr) (λ _, consistent).
Proof.
  unfold _parse_pkt.
  eapply triple_bind; [apply triple_lift; auto|]. intros mode. cbn beta zeta.
  destruct (mode =? RRQ_MODE c).
  { eapply triple_bind; [apply triple_lift; auto|]. intros fm.
    eapply triple_bind; [apply triple_validate_mode|]. intros ?; cbn beta.
    eapply triple_bind; [apply triple_validate_file|]. intros ?; cbn beta.
    eapply triple_bind; [apply triple_gets|]. intros rs.
    eapply triple_bind; [apply (triple_preempt InRRQ)|].
    intros ?; cbn beta. apply triple_handle_RRQ. }
  destruct (mode =? WRQ_MODE c).
  { eapply triple_bind; [apply triple_lift; auto|]. intros fm.
    eapply triple_bind; [apply triple_validate_mode|]. intros ?; cbn beta.
    eapply triple_bind; [apply triple_gets|]. intros ws.
    eapply triple_bind; [apply (triple_preempt InWRQ)|].
    intros ?; cbn beta. apply triple_handle_WRQ. }
  destruct (mode =? ACK_MODE c).
  { eapply triple_bind; [apply triple_lift; auto|]. intros bnum. apply triple_handle_ACK. }
  destruct (mode =? DATA_MODE c).
  { eapply triple_bind; [apply triple_lift; auto|]. intros bnum. apply triple_handle_DATA. }
  apply triple_ERROR.
Qed.

Lemma consistent_Thread (c : Constants) (data : list byte) (addr : Addr) (w : World) :
  consistent w → consistent (Thread c data addr w).
Proof.
  intros Hw. unfold Thread. pose proof (triple_parse_pkt c data addr w Hw) as H.
  destruct (_parse_pkt c data addr w) as [[[]|e] w']; exact H.
Qed.

Lemma consistent_elapse (tm : nat) (w : World) : consistent w → consistent (elapse tm w).
Proof.
  intros Hw. unfold elapse. destruct (waiting w !! tm) as [wt|] eqn:E; [|assumption].
  destruct (is_set w tm) eqn:Es.
  - destruct Hw as [H1 H2 H3 H4 H5]. split; cbn; try assumption.
    + intros tm' wt' [Hw' Hs']. cbn in Hw'.
      apply lookup_delete_Some in Hw' as [Hne Hw'].
      destruct (H1 tm' wt') as (fc & Hfc & Ht); [split; assumption|].
      exists fc. split; [|assumption]. destruct (w_frame wt'); exact Hfc.
    + intros tm' wt' Hw'. apply lookup_delete_Some in Hw' as [_ Hw']. eauto.
  - now apply (consistent_sent_on (self_sock w)).
Qed.

Lemma consistent_main (s : Socket) (fs : gmap string (list byte)) (pl : string → Place) :
  consistent (main s fs pl).
Proof.
  split; cbn; try (intros ? ? H; rewrite lookup_empty in H; discriminate); [|reflexivity].
  intros tm wt [H _]. cbn in H. rewrite lookup_empty in H. discriminate.
Qed.

Lemma consistent_step (c : Constants) (ev : event) (w : World) :
  consistent w → consistent (step c ev w).
Proof.
  intros Hw. destruct ev as [dgram addr|tm]; cbn.
  - unfold run_server. destruct (recvfrom c dgram); [assumption|].
    now apply consistent_Thread.
  - now apply consistent_elapse.
Qed.

Lemma reachable_consistent (c : Constants) (w : World) : reachable c w → consistent w.
Proof.
  induction 1 as [s fs|w ev _ IH]; [apply consistent_main|now apply consistent_step].
Qed.

Lemma reachable_sock (c : Constants) (w : World) :
  reachable c w → global_sock w = Some (self_sock w).
Proof. intros H. apply sock_bound. exact (reachable_consistent c w H). Qed.

Lemma _validate_mode_other (c : Constants) (w : World) (addr : Addr) (mode : string) :
  mode ≠ "octet"%string →
  _validate_mode c addr mode w =
    (_handle_ERROR c addr (ERR_ILLEGAL_TFTP_OP c) "TFTP only supports binary mode";;
     raise SystemExit) w.
Proof. intros H. unfold _validate_mode. now rewrite bool_decide_eq_true_2. Qed.

Lemma _validate_file_missing (c : Constants) (w : World) (addr : Addr) (fname : string) :
  exists_path w fname = false →
  _validate_file c addr fname w =
    (_handle_ERROR c addr (ERR_FILE_NOT_FOUND c) "File does not exist";; raise SystemExit) w.
Proof.
  intros H. unfold _validate_file. erewrite bind_Ok by reflexivity.
  now rewrite H.
Qed.

Lemma exists_path_file (w : World) (fname : string) (content : list byte) :
  files w !! fname = Some content → exists_path w fname = true.
Proof. intros H. unfold exists_path. rewrite bool_decide_eq_true_2; [reflexivity|]. now rewrite H. Qed.

Lemma exists_path_false (w : World) (fname : string) :
  exists_path w fname = false ↔ files w !! fname = None ∧ place w fname ≠ Directory.
Proof.
  unfold exists_path. rewrite orb_false_iff. split.
  - intros [Hf Hd]. apply bool_decide_eq_false in Hf. split.
    + destruct (files w !! fname); [exfalso; eauto|reflexivity].
    + intros E. now rewrite E in Hd.
  - intros [Hf Hd]. split.
    + apply bool_decide_eq_false. rewrite Hf. now intros [? ?].
    + destruct (place w fname); try reflexivity. congruence.
Qed.

(** * The claims *)

(** C10: every ERROR reply is transmitted through the module-level name
    [sock] and not through [self.sock]: [_handle_ERROR] sends on whatever
    socket that name is bound to, and where it is unbound [_handle_ERROR] and
    every error branch of the dispatcher (wrong mode in a read or write
    request, missing file, ACK or DATA of an unknown transfer, unknown opcode)
    raise [NameError] and send nothing. *)
Theorem error_replies_use_global_sock (c : Constants) (w : World) (addr : Addr) :
  wf_constants c = true →
  (∀ code msg, int16_ok code = true →
     match global_sock w with
     | Some g =>
         _handle_ERROR c addr code msg w = (Ok tt, sent_on g (ERROR_dgram c code msg) addr w)
     | None => _handle_ERROR c addr code msg w = (Raise NameError, w)
     end)
  ∧ (global_sock w = None →
     (∀ data fname mode,
        is_request (RRQ_MODE c) data fname mode ∨ is_request (WRQ_MODE c) data fname mode →
        mode ≠ "octet"%string →
        _parse_pkt c data addr w = (Raise NameError, w))
     ∧ (∀ data fname,
        is_request (RRQ_MODE c) data fname "octet" → exists_path w fname = false →
        _parse_pkt c data addr w = (Raise NameError, w))
     ∧ (∀ n, int16_ok n = true → reads w !! addr = None →
        _parse_pkt c (ACK_dgram c n) addr w = (Raise NameError, w))
     ∧ (∀ n buf, int16_ok n = true → writes w !! addr = None →
        _parse_pkt c (DATA_dgram c n buf) addr w = (Raise NameError, w))
     ∧ (∀ data op, struct_unpack_h (take 2 data) = Ok op →
        op ≠ RRQ_MODE c → op ≠ WRQ_MODE c → op ≠ ACK_MODE c → op ≠ DATA_MODE c →
        _parse_pkt c data addr w = (Raise NameError, w))).
Proof.
  intros Hwf. apply wf_constants_facts in Hwf as Hc. split.
  - intros code msg Hcode. destruct (global_sock w) as [g|] eqn:Eg.
    + now apply _handle_ERROR_bound.
    + now apply _handle_ERROR_unbound.
  - intros Hg. repeat split.
    + intros data fname mode [Hreq|Hreq] Hmode.
      * rewrite (_parse_pkt_RRQ c w addr data fname mode Hreq).
        erewrite bind_Raise; [reflexivity|].
        rewrite _validate_mode_other by assumption.
        apply error_exit_unbound; auto using wf_ERR_ILLEGAL_TFTP_OP.
      * rewrite (_parse_pkt_WRQ c w addr data fname mode Hc Hreq).
        erewrite bind_Raise; [reflexivity|].
        rewrite _validate_mode_other by assumption.
        apply error_exit_unbound; auto using wf_ERR_ILLEGAL_TFTP_OP.
    + intros data fname Hreq Hf.
      rewrite (_parse_pkt_RRQ c w addr data fname "octet" Hreq).
      erewrite bind_Ok by apply _validate_mode_octet.
      erewrite bind_Raise; [reflexivity|].
      rewrite _validate_file_missing by assumption.
      apply error_exit_unbound; auto using wf_ERR_FILE_NOT_FOUND.
    + intros n Hn Hr. rewrite _parse_pkt_ACK, _handle_ACK_unknown by assumption.
      apply error_exit_unbound; auto using wf_ERR_UNKNOWN_TID.
    + intros n buf Hn Hr. rewrite _parse_pkt_DATA, _handle_DATA_unknown by assumption.
      apply error_exit_unbound; auto using wf_ERR_UNKNOWN_TID.
    + intros data op Hop H1 H2 H3 H4.
      rewrite (_parse_pkt_other c w addr data op) by assumption.
      apply _handle_ERROR_unbound; auto using wf_ERR_NOT_DEFINED.
Qed.

(** C6: a read request in mode octet that names a path at which nothing
    exists ([os.path.exists] is false: no file and no directory) makes the
    running server send exactly one ERROR(FILE_NOT_FOUND) packet to the peer
    and nothing else; the handling thread ends with [SystemExit], and the two
    tables, the files, the Events and the blocked threads are as before. *)
Theorem rrq_missing_file (c : Constants) (w : World) (addr : Addr) (data : list byte)
    (fname : string) :
  wf_constants c = true → reachable c w →
  is_request (RRQ_MODE c) data fname "octet" → exists_path w fname = false →
  (_parse_pkt c data addr w).1 = Raise SystemExit
  ∧ let w' := Thread c data addr w in
    wire w' = wire w ++ [(self_sock w,
                          ERROR_dgram c (ERR_FILE_NOT_FOUND c) "File does not exist", addr)]
    ∧ reads w' = reads w ∧ writes w' = writes w ∧ files w' = files w
    ∧ events w' = events w ∧ waiting w' = waiting w.
Proof.
  intros Hwf Hr Hreq Hf. apply wf_constants_facts in Hwf as Hc.
  apply reachable_sock in Hr.
  assert (E : _parse_pkt c data addr w =
    (Raise SystemExit,
     sent_on (self_sock w) (ERROR_dgram c (ERR_FILE_NOT_FOUND c) "File does not exist") addr w)).
  { rewrite (_parse_pkt_RRQ c w addr data fname "octet" Hreq).
    erewrite bind_Ok by apply _validate_mode_octet.
    erewrite bind_Raise; [reflexivity|].
    rewrite _validate_file_missing by assumption.
    apply error_exit_bound; auto using wf_ERR_FILE_NOT_FOUND. }
  unfold Thread. rewrite E. cbn. auto 10.
Qed.

(** A read request for a path that exists and is not a file (a directory):
    [_validate_file] passes, an older read context of the peer is cancelled,
    and the thread dies in [open]; nothing is sent. *)
Lemma rrq_directory (c : Constants) (w : World) (addr : Addr) (data : list byte)
    (fname : string) :
  is_request (RRQ_MODE c) data fname "octet" →
  files w !! fname = None → place w fname = Directory →
  _parse_pkt c data addr w = (Raise IsADirectoryError, (preempt (reads w) addr w).2)
  ∧ wire (Thread c data addr w) = wire w.
Proof.
  intros Hreq Hf Hp.
  assert (E : _parse_pkt c data addr w
              = (Raise IsADirectoryError, (preempt (reads w) addr w).2)).
  { rewrite (_parse_pkt_RRQ c w addr data fname "octet" Hreq).
    erewrite bind_Ok by apply _validate_mode_octet.
    erewrite bind_Ok.
    2:{ unfold _validate_file. erewrite bind_Ok by reflexivity.
        unfold exists_path. now rewrite Hp, orb_true_r. }
    erewrite bind_Ok by reflexivity.
    unfold preempt. destruct (reads w !! addr) as [old|].
    - erewrite bind_Ok by reflexivity. unfold _handle_RRQ.
      erewrite bind_Raise; [reflexivity|].
      unfold file_read. cbn [files place cancelled set_events]. now rewrite Hf, Hp.
    - erewrite bind_Ok by reflexivity. unfold _handle_RRQ.
      erewrite bind_Raise; [reflexivity|].
      unfold file_read. now rewrite Hf, Hp. }
  split; [exact E|]. unfold Thread. rewrite E. cbn [snd].
  unfold preempt. now destruct (reads w !! addr).
Qed.

(** C7, for a peer that has no entry in the table (the test the code
    makes: [addr not in dct]): an ACK from a peer without an entry in
    [reads], and a DATA from a peer without an entry in [writes], make the
    running server reply with one ERROR(UNKNOWN_TRANSFER_ID); only the
    handling thread ends (with [SystemExit]), and nothing but the
    transmission log changes: both tables (so every other peer's context),
    the files, the Events and the blocked threads are as before. *)
Theorem unknown_transfer_id (c : Constants) (w : World) (addr : Addr) :
  wf_constants c = true → reachable c w →
  let reply := sent_on (self_sock w)
                 (ERROR_dgram c (ERR_UNKNOWN_TID c) "Unknown transfer ID") addr w in
  (∀ n, int16_ok n = true → reads w !! addr = None →
     _parse_pkt c (ACK_dgram c n) addr w = (Raise SystemExit, reply))
  ∧ (∀ n buf, int16_ok n = true → writes w !! addr = None →
     _parse_pkt c (DATA_dgram c n buf) addr w = (Raise SystemExit, reply))
  ∧ reads reply = reads w ∧ writes reply = writes w ∧ files reply = files w
  ∧ events reply = events w ∧ waiting reply = waiting w.
Proof.
  intros Hwf Hr. apply wf_constants_facts in Hwf as Hc. apply reachable_sock in Hr.
  cbn zeta. split; [|split; [|cbn; auto 10]].
  - intros n Hn Hnone. rewrite _parse_pkt_ACK, _handle_ACK_unknown by assumption.
    apply error_exit_bound; auto using wf_ERR_UNKNOWN_TID.
  - intros n buf Hn Hnone. rewrite _parse_pkt_DATA, _handle_DATA_unknown by assumption.
    apply error_exit_bound; auto using wf_ERR_UNKNOWN_TID.
Qed.

(** ** Accepted and ignored packets *)

Lemma int16_ok_pred (n : Z) : 0 <= n → int16_ok (n + 1) = true → int16_ok n = true.
Proof.
  unfold int16_ok. intros H0 H. apply andb_true_iff in H as [H1 H2].
  apply Z.leb_le in H1, H2. apply andb_true_iff. split; apply Z.leb_le; lia.
Qed.

Lemma data_accepted (c : Constants) (w : World) (addr : Addr) (fc : FileContext)
    (buf : list byte) :
  wf_facts c → writes w !! addr = Some fc → 0 <= block_num fc →
  int16_ok (block_num fc + 1) = true → place w (filename fc) = Plain →
  _parse_pkt c (DATA_dgram c (block_num fc + 1) buf) addr w =
    (Ok tt,
     write_started (stored c (filename fc) (block_num fc + 1) buf (cancelled (timer fc) w)) addr
       {| filename := filename fc; block_num := block_num fc + 1;
          timer := length (events w); is_done := None |}
       (ACK_dgram c (block_num fc + 1)) (negb (short_block c buf))).
Proof.
  intros Hc Hfc H0 Hi Hp.
  rewrite _parse_pkt_DATA by assumption.
  rewrite (_handle_DATA_known c w addr _ buf fc Hfc), Z.eqb_refl.
  rewrite _handle_WRQ_block by (assumption || lia).
  cbn [events cancelled set_events]. now rewrite length_insert.
Qed.

(** The matching DATA for a file that [open] refuses: the Event of the
    context is set and the thread dies in [open]. *)
Lemma data_refused (c : Constants) (w : World) (addr : Addr) (fc : FileContext)
    (buf : list byte) (e : exn) :
  wf_facts c → writes w !! addr = Some fc → 0 <= block_num fc →
  int16_ok (block_num fc + 1) = true → refused (place w (filename fc)) = Some e →
  _parse_pkt c (DATA_dgram c (block_num fc + 1) buf) addr w =
    (Raise e, cancelled (timer fc) w).
Proof.
  intros Hc Hfc H0 Hi Hp.
  rewrite _parse_pkt_DATA by assumption.
  rewrite (_handle_DATA_known c w addr _ buf fc Hfc), Z.eqb_refl.
  apply _handle_WRQ_refused; [lia|exact Hp].
Qed.

Lemma data_ignored (c : Constants) (w : World) (addr : Addr) (fc : FileContext)
    (m : Z) (buf : list byte) :
  wf_facts c → writes w !! addr = Some fc → int16_ok m = true → m ≠ block_num fc + 1 →
  _parse_pkt c (DATA_dgram c m buf) addr w = (Ok tt, w).
Proof.
  intros Hc Hfc Hi Hne.
  rewrite _parse_pkt_DATA by assumption.
  rewrite (_handle_DATA_known c w addr _ buf fc Hfc).
  now rewrite (proj2 (Z.eqb_neq _ _)) by congruence.
Qed.

Lemma ack_accepted (c : Constants) (w : World) (addr : Addr) (fc : FileContext)
    (content : list byte) :
  wf_facts c → reads w !! addr = Some fc → truthy (is_done fc) = false →
  0 <= block_num fc → int16_ok (block_num fc + 1) = true →
  files w !! filename fc = Some content →
  _parse_pkt c (ACK_dgram c (block_num fc)) addr w =
    (Ok tt,
     read_started (cancelled (timer fc) w) addr
       {| filename := filename fc; block_num := block_num fc + 1;
          timer := length (events w);
          is_done := Some (Z.of_nat (length (nth_block c content (block_num fc + 1)))
                           <? MAX_BYTES c) |}
       (DATA_dgram c (block_num fc + 1) (nth_block c content (block_num fc + 1)))).
Proof.
  intros Hc Hfc Hd H0 Hi Hf.
  rewrite _parse_pkt_ACK by auto using int16_ok_pred.
  rewrite (_handle_ACK_known c w addr _ fc Hfc), Z.eqb_refl, Hd. cbn [negb].
  rewrite (_handle_RRQ_ok c _ addr _ content) by (assumption || lia).
  cbn [events cancelled set_events]. now rewrite length_insert.
Qed.

Lemma ack_overflow (c : Constants) (w : World) (addr : Addr) (fc : FileContext)
    (content : list byte) :
  wf_facts c → reads w !! addr = Some fc → truthy (is_done fc) = false →
  0 <= block_num fc → int16_ok (block_num fc) = true → int16_ok (block_num fc + 1) = false →
  files w !! filename fc = Some content →
  _parse_pkt c (ACK_dgram c (block_num fc)) addr w =
    (Raise StructError, cancelled (timer fc) w).
Proof.
  intros Hc Hfc Hd H0 Hi Hi' Hf.
  rewrite _parse_pkt_ACK by assumption.
  rewrite (_handle_ACK_known c w addr _ fc Hfc), Z.eqb_refl, Hd. cbn [negb].
  now rewrite (_handle_RRQ_overflow c _ addr _ content) by (assumption || lia).
Qed.

Lemma ack_final (c : Constants) (w : World) (addr : Addr) (fc : FileContext) :
  wf_facts c → reads w !! addr = Some fc → is_done fc = Some true →
  int16_ok (block_num fc) = true →
  _parse_pkt c (ACK_dgram c (block_num fc)) addr w = (Ok tt, cancelled (timer fc) w).
Proof.
  intros Hc Hfc Hd Hi.
  rewrite _parse_pkt_ACK by assumption.
  now rewrite (_handle_ACK_known c w addr _ fc Hfc), Z.eqb_refl, Hd.
Qed.

Lemma ack_ignored (c : Constants) (w : World) (addr : Addr) (fc : FileContext) (m : Z) :
  wf_facts c → reads w !! addr = Some fc → int16_ok m = true → m ≠ block_num fc →
  _parse_pkt c (ACK_dgram c m) addr w = (Ok tt, w).
Proof.
  intros Hc Hfc Hi Hne.
  rewrite _parse_pkt_ACK by assumption.
  rewrite (_handle_ACK_known c w addr _ fc Hfc).
  now rewrite (proj2 (Z.eqb_neq _ _)) by congruence.
Qed.

(** C2, as the code has it: a DATA(n+1) that matches the write context, for
    a file that [open(..., 'wb')] opens, is answered by exactly one ACK(n+1);
    the stored write context gets the new block number and no completion
    flag ([is_done] stays [None]); the flag the handler computes,
    [len(buf) < MAX_BUFFER_WRQ], decides only whether the thread enters the
    retry loop: it does exactly when the flag is false, and when it is true
    no thread is left to retransmit that ACK.  Where [open] fails (a name
    that cannot be created, a directory, a file that may not be written) the
    handler has set the Event of the context and the thread dies there: no
    ACK, no write, the context as it was. *)
Theorem data_accept_completion (c : Constants) (w : World) (addr : Addr) (fc : FileContext)
    (buf : list byte) :
  wf_constants c = true → writes w !! addr = Some fc → 0 <= block_num fc →
  int16_ok (block_num fc + 1) = true →
  let n := block_num fc + 1 in
  let tm := length (events w) in
  let w' := Thread c (DATA_dgram c n buf) addr w in
  (place w (filename fc) = Plain →
     wire w' = wire w ++ [(self_sock w, ACK_dgram c n, addr)]
     ∧ writes w' !! addr =
         Some {| filename := filename fc; block_num := n; timer := tm; is_done := None |}
     ∧ is_set w' tm = false
     ∧ waiting w' =
         if Z.of_nat (length buf) <? MAX_BUFFER_WRQ c
         then waiting w
         else <[tm := {| w_frame := InWRQ; w_pkt := ACK_dgram c n; w_addr := addr |}]>
                (waiting w))
  ∧ (∀ e, refused (place w (filename fc)) = Some e →
       _parse_pkt c (DATA_dgram c n buf) addr w = (Raise e, cancelled (timer fc) w)).
Proof.
  intros Hwf Hfc H0 Hi n tm w'. apply wf_constants_facts in Hwf as Hc. split.
  - intros Hp.
    subst w'. unfold Thread. subst n. rewrite (data_accepted c w addr fc buf) by assumption.
    cbn. repeat split.
    + now rewrite lookup_insert_eq.
    + unfold is_set. cbn. subst tm.
      rewrite lookup_app_r by (rewrite length_insert; lia).
      now rewrite length_insert, Nat.sub_diag.
    + unfold short_block. now destruct (_ <? MAX_BUFFER_WRQ c).
  - intros e He. now apply data_refused.
Qed.

(** C3, for read contexts: once the stored read context has its completion
    flag set, an ACK from that peer, whatever its block number, makes the
    server send nothing and write nothing: the transmission log, the files,
    both tables and the blocked threads are as before (at most the Event of
    the context is set). *)
Theorem done_read_ignores_acks (c : Constants) (w : World) (addr : Addr) (fc : FileContext)
    (m : Z) :
  wf_constants c = true → reads w !! addr = Some fc → is_done fc = Some true →
  int16_ok m = true →
  let w' := Thread c (ACK_dgram c m) addr w in
  wire w' = wire w ∧ files w' = files w ∧ reads w' = reads w ∧ writes w' = writes w
  ∧ waiting w' = waiting w.
Proof.
  intros Hwf Hfc Hd Hi w'. apply wf_constants_facts in Hwf as Hc.
  subst w'. unfold Thread.
  destruct (decide (m = block_num fc)) as [->|Hne].
  - rewrite ack_final by assumption. cbn. auto.
  - rewrite (ack_ignored c w addr fc m) by assumption. cbn. auto.
Qed.

(** C4, for handlers that run one after the other, with the read case
    limited to a context that is not complete: the matching packet advances
    the stored block number by exactly one (ACK(n) for a read at [n] whose
    completion flag is not set and whose file is there, DATA(n+1) for a write
    at [n] whose file [open(..., 'wb')] opens; block numbers within the
    signed 16-bit field), and the same packet once more, handled after the
    first, then changes nothing; an ACK or a DATA with any other block number
    leaves the whole world as it was: no state change, no reply, no Event
    set. *)
Theorem block_number_steps (c : Constants) (w : World) (addr : Addr) (fc : FileContext) :
  wf_constants c = true →
  (reads w !! addr = Some fc →
     (truthy (is_done fc) = false → is_Some (files w !! filename fc) →
      0 <= block_num fc → int16_ok (block_num fc + 1) = true →
        let w' := Thread c (ACK_dgram c (block_num fc)) addr w in
        block_num <$> reads w' !! addr = Some (block_num fc + 1)
        ∧ _parse_pkt c (ACK_dgram c (block_num fc)) addr w' = (Ok tt, w'))
     ∧ (∀ m, int16_ok m = true → m ≠ block_num fc →
          _parse_pkt c (ACK_dgram c m) addr w = (Ok tt, w)))
  ∧ (writes w !! addr = Some fc →
     (∀ buf, 0 <= block_num fc → int16_ok (block_num fc + 1) = true →
        place w (filename fc) = Plain →
        let w' := Thread c (DATA_dgram c (block_num fc + 1) buf) addr w in
        block_num <$> writes w' !! addr = Some (block_num fc + 1)
        ∧ ∀ buf', _parse_pkt c (DATA_dgram c (block_num fc + 1) buf') addr w' = (Ok tt, w'))
     ∧ (∀ m buf, int16_ok m = true → m ≠ block_num fc + 1 →
          _parse_pkt c (DATA_dgram c m buf) addr w = (Ok tt, w))).
Proof.
  intros Hwf. apply wf_constants_facts in Hwf as Hc. split; intros Hfc; split.
  - intros Hd [content Hf] H0 Hi. cbn zeta. unfold Thread.
    rewrite (ack_accepted c w addr fc content) by assumption. cbn [snd].
    split; [cbn; now rewrite lookup_insert_eq|].
    eapply ack_ignored; [assumption|cbn; apply lookup_insert_eq| |cbn; lia].
    now apply int16_ok_pred.
  - intros m Hm Hne. now apply (ack_ignored c w addr fc).
  - intros buf H0 Hi Hp. cbn zeta. unfold Thread.
    rewrite (data_accepted c w addr fc buf) by assumption. cbn [snd].
    split; [cbn; now rewrite lookup_insert_eq|].
    intros buf'. eapply data_ignored; [assumption|cbn; apply lookup_insert_eq| |cbn; lia].
    assumption.
  - intros m buf Hm Hne. now apply (data_ignored c w addr fc).
Qed.

(** ** Timeouts *)

Lemma elapse_live (tm : nat) (w : World) (wt : Waiter) :
  live w tm wt → elapse tm w = sent_on (self_sock w) (w_pkt wt) (w_addr wt) w.
Proof. intros [Hw Hs]. unfold elapse. now rewrite Hw, Hs. Qed.

Lemma run_cons (c : Constants) (ev : event) (evs : list event) (w : World) :
  run c (ev :: evs) w = run c evs (step c ev w).
Proof. reflexivity. Qed.

Lemma elapse_repeat (c : Constants) (tm : nat) (wt : Waiter) (N : nat) (w : World) :
  live w tm wt →
  let w' := run c (repeat (Elapse tm) N) w in
  wire w' = wire w ++ repeat (self_sock w, w_pkt wt, w_addr wt) N ∧ live w' tm wt.
Proof.
  revert w. induction N as [|N IH]; intros w Hl; cbn zeta.
  - cbn. now rewrite app_nil_r.
  - cbn [repeat]. rewrite run_cons. cbn [step].
    rewrite (elapse_live tm w wt Hl).
    destruct (IH (sent_on (self_sock w) (w_pkt wt) (w_addr wt) w)) as [Hwire Hlive].
    { destruct Hl as [Hw Hs]. split; assumption. }
    split; [|exact Hlive]. rewrite Hwire. cbn. now rewrite <- app_assoc.
Qed.

Lemma is_set_new (w : World) (es : list bool) :
  events w = es ++ [false] → is_set w (length es) = false.
Proof.
  intros He. unfold is_set. rewrite He.
  rewrite lookup_app_r by lia. now rewrite Nat.sub_diag.
Qed.

(** ** Preemption *)

Lemma is_set_cancelled_eq (e : nat) (w : World) :
  (e < length (events w))%nat → is_set (cancelled e w) e = true.
Proof. intros H. unfold is_set, cancelled. cbn. now rewrite list_lookup_insert_eq. Qed.

Lemma is_set_old (w w' : World) (e : nat) :
  events w' = events w ++ [false] → (e < length (events w))%nat → is_set w' e = is_set w e.
Proof. intros He Hlt. unfold is_set. rewrite He. now rewrite lookup_app_l. Qed.

Lemma preempt_known (addr : Addr) (dct : gmap Addr FileContext) (fc : FileContext) (w : World) :
  dct !! addr = Some fc → preempt dct addr w = (Ok tt, cancelled (timer fc) w).
Proof. intros H. unfold preempt. now rewrite H. Qed.

Lemma at_most_one_live (w : World) (tm1 tm2 : nat) (wt1 wt2 : Waiter) :
  consistent w → live w tm1 wt1 → live w tm2 wt2 →
  w_frame wt1 = w_frame wt2 → w_addr wt1 = w_addr wt2 → tm1 = tm2.
Proof.
  intros Hc H1 H2 Hfr Ha.
  destruct (live_is_current w Hc tm1 wt1 H1) as (fc1 & Hfc1 & <-).
  destruct (live_is_current w Hc tm2 wt2 H2) as (fc2 & Hfc2 & <-).
  rewrite Hfr, Ha in Hfc1. congruence.
Qed.

(** C9, for handlers that run one after the other (each packet's handler up
    to its wait before the next one starts): in the running server a read
    (write) request from a peer that already has a read (write) context first
    sets the Event of the old context, and only in the world so reached does
    [_handle_RRQ] ([_handle_WRQ]) overwrite the table entry, with a context
    whose Event is new and not set; and at every moment at most one thread
    per direction and peer is still retransmitting. *)
Theorem preemption_cancels_first (c : Constants) (w : World) (addr : Addr) :
  wf_constants c = true → reachable c w →
  (∀ data fname content old,
     is_request (RRQ_MODE c) data fname "octet" → files w !! fname = Some content →
     reads w !! addr = Some old →
     let mid := cancelled (timer old) w in
     let w' := Thread c data addr w in
     _parse_pkt c data addr w = _handle_RRQ c addr fname 1 mid
     ∧ is_set mid (timer old) = true ∧ reads mid !! addr = Some old
     ∧ is_set w' (timer old) = true
     ∧ ∃ new, reads w' !! addr = Some new ∧ timer new ≠ timer old
              ∧ is_set w' (timer new) = false)
  ∧ (∀ data fname old,
     is_request (WRQ_MODE c) data fname "octet" → writes w !! addr = Some old →
     let mid := cancelled (timer old) w in
     let w' := Thread c data addr w in
     _parse_pkt c data addr w = _handle_WRQ c addr fname 0 None mid
     ∧ is_set mid (timer old) = true ∧ writes mid !! addr = Some old
     ∧ is_set w' (timer old) = true
     ∧ ∃ new, writes w' !! addr = Some new ∧ timer new ≠ timer old
              ∧ is_set w' (timer new) = false)
  ∧ (∀ tm1 tm2 wt1 wt2, live w tm1 wt1 → live w tm2 wt2 →
     w_frame wt1 = w_frame wt2 → w_addr wt1 = w_addr wt2 → tm1 = tm2).
Proof.
  intros Hwf Hr. apply wf_constants_facts in Hwf as Hc.
  apply reachable_consistent in Hr as Hcons.
  split; [|split].
  - intros data fname content old Hreq Hf Hold mid w'.
    assert (Hlt : (timer old < length (events w))%nat) by (eapply reads_timer; eassumption).
    assert (E : _parse_pkt c data addr w = _handle_RRQ c addr fname 1 mid).
    { rewrite (_parse_pkt_RRQ c w addr data fname "octet" Hreq).
      erewrite bind_Ok by apply _validate_mode_octet.
      erewrite bind_Ok by (eapply _validate_file_exists; eassumption).
      erewrite bind_Ok by reflexivity.
      erewrite bind_Ok by (apply preempt_known; eassumption). reflexivity. }
    split; [exact E|]. split; [now apply is_set_cancelled_eq|]. split; [exact Hold|].
    subst w'. unfold Thread. rewrite E.
    rewrite (_handle_RRQ_ok c mid addr fname content 1) by (assumption || lia || reflexivity).
    cbn [snd]. split.
    + rewrite (is_set_old mid) by (reflexivity || (cbn; now rewrite length_insert)).
      now apply is_set_cancelled_eq.
    + eexists. split; [cbn; apply lookup_insert_eq|]. cbn [timer]. split.
      * cbn. rewrite length_insert. lia.
      * now apply is_set_new.
  - intros data fname old Hreq Hold mid w'.
    assert (Hlt : (timer old < length (events w))%nat) by (eapply writes_timer; eassumption).
    assert (E : _parse_pkt c data addr w = _handle_WRQ c addr fname 0 None mid).
    { rewrite (_parse_pkt_WRQ c w addr data fname "octet" Hc Hreq).
      erewrite bind_Ok by apply _validate_mode_octet.
      erewrite bind_Ok by reflexivity.
      erewrite bind_Ok by (apply preempt_known; eassumption). reflexivity. }
    split; [exact E|]. split; [now apply is_set_cancelled_eq|]. split; [exact Hold|].
    subst w'. unfold Thread. rewrite E.
    rewrite (_handle_WRQ_request c mid addr fname) by assumption.
    cbn [snd]. split.
    + rewrite (is_set_old mid) by (reflexivity || (cbn; now rewrite length_insert)).
      now apply is_set_cancelled_eq.
    + eexists. split; [cbn; apply lookup_insert_eq|]. cbn [timer]. split.
      * cbn. rewrite length_insert. lia.
      * now apply is_set_new.
  - intros tm1 tm2 wt1 wt2. now apply at_most_one_live.
Qed.

(** ** A read transfer acknowledged in sequence *)

Lemma nth_block_full (c : Constants) (content : list byte) (n : Z) :
  0 < MAX_BYTES c → 1 <= n → n * MAX_BYTES c <= Z.of_nat (length content) →
  Z.of_nat (length (nth_block c content n)) = MAX_BYTES c.
Proof.
  intros Hmb Hn Hlen. unfold nth_block. rewrite length_take, length_drop.
  assert (n * MAX_BYTES c = (n - 1) * MAX_BYTES c + MAX_BYTES c) by ring.
  assert (0 <= (n - 1) * MAX_BYTES c) by nia. lia.
Qed.

Lemma nth_block_end (c : Constants) (content : list byte) (n : Z) :
  (n - 1) * MAX_BYTES c = Z.of_nat (length content) → nth_block c content n = [].
Proof.
  intros Hlen. unfold nth_block. rewrite Hlen, Nat2Z.id, drop_all. apply take_nil.
Qed.

Lemma acks_S (c : Constants) (n : nat) :
  acks c (S n) = acks c n ++ [ACK_dgram c (Z.of_nat (S n))].
Proof. unfold acks. now rewrite seq_S, map_app. Qed.

Lemma blocks_sent_S (c : Constants) (s : Socket) (addr : Addr) (content : list byte) (n : nat) :
  blocks_sent c s addr content (S n) =
    blocks_sent c s addr content n
      ++ [(s, DATA_dgram c (Z.of_nat (S n)) (nth_block c content (Z.of_nat (S n))), addr)].
Proof. unfold blocks_sent. now rewrite seq_S, map_app. Qed.

Lemma serve_snoc (c : Constants) (addr : Addr) (pkts : list (list byte)) (data : list byte)
    (w : World) :
  serve c addr (pkts ++ [data]) w = Thread c data addr (serve c addr pkts w).
Proof. unfold serve. now rewrite foldl_app. Qed.

(** Packets that fit the receive buffer reach their handler as they are. *)
Lemma run_serve (c : Constants) (addr : Addr) (pkts : list (list byte)) (w : World) :
  Forall (λ d, d ≠ [] ∧ Z.of_nat (length d) <= MAX_BYTES c) pkts →
  run c (map (λ d, Datagram d addr) pkts) w = serve c addr pkts w.
Proof.
  intros H. revert w. induction H as [|d pkts [Hne Hlen] _ IH]; intros w; [reflexivity|].
  cbn [map]. rewrite run_cons.
  change (serve c addr (d :: pkts) w) with (serve c addr pkts (Thread c d addr w)).
  rewrite <- IH. f_equal. cbn [step]. unfold run_server, recvfrom.
  rewrite take_ge by lia. destruct d; [contradiction|reflexivity].
Qed.

Lemma int16_ok_small (n : Z) : 0 <= n <= 32767 → int16_ok n = true.
Proof. intros H. unfold int16_ok. apply andb_true_iff. split; apply Z.leb_le; lia. Qed.

(** The request itself: block 1 goes out. *)
Lemma read_request (c : Constants) (w : World) (addr : Addr) (rrq : list byte)
    (fname : string) (content : list byte) :
  wf_facts c → is_request (RRQ_MODE c) rrq fname "octet" → files w !! fname = Some content →
  let w' := Thread c rrq addr w in
  reading w' addr fname 1 (Z.of_nat (length (nth_block c content 1)) <? MAX_BYTES c)
  ∧ wire w' = wire w ++ blocks_sent c (self_sock w) addr content 1
  ∧ files w' = files w ∧ self_sock w' = self_sock w.
Proof.
  intros Hc Hreq Hf w'. subst w'. unfold Thread.
  rewrite (_parse_pkt_RRQ c w addr rrq fname "octet" Hreq).
  erewrite bind_Ok by apply _validate_mode_octet.
  erewrite bind_Ok by (eapply _validate_file_exists; eassumption).
  erewrite bind_Ok by reflexivity.
  assert (Hp : ∃ w0, preempt (reads w) addr w = (Ok tt, w0) ∧ files w0 = files w
                     ∧ wire w0 = wire w ∧ self_sock w0 = self_sock w).
  { unfold preempt. destruct (reads w !! addr); eexists; (split; [reflexivity|]); cbn; auto. }
  destruct Hp as (w0 & Hp & Hf0 & Hw0 & Hs0).
  erewrite bind_Ok by exact Hp.
  rewrite (_handle_RRQ_ok c w0 addr fname content 1)
    by (assumption || lia || reflexivity || congruence).
  cbn. rewrite Hf0, Hw0, Hs0. repeat split.
  eexists. apply lookup_insert_eq.
Qed.

Lemma read_progress (c : Constants) (w : World) (addr : Addr) (rrq : list byte)
    (fname : string) (content : list byte) (j : nat) :
  wf_facts c → is_request (RRQ_MODE c) rrq fname "octet" → files w !! fname = Some content →
  Z.of_nat j * MAX_BYTES c <= Z.of_nat (length content) → Z.of_nat (S j) <= 32767 →
  let w' := serve c addr (rrq :: acks c j) w in
  reading w' addr fname (Z.of_nat (S j))
    (Z.of_nat (length (nth_block c content (Z.of_nat (S j)))) <? MAX_BYTES c)
  ∧ wire w' = wire w ++ blocks_sent c (self_sock w) addr content (S j)
  ∧ files w' = files w ∧ self_sock w' = self_sock w.
Proof.
  intros Hc Hreq Hf. induction j as [|j IH]; intros Hlen Hmax; cbn zeta.
  - exact (read_request c w addr rrq fname content Hc Hreq Hf).
  - pose proof (wf_MAX_BYTES c Hc) as Hmb.
    destruct IH as ((tm & Hctx) & Hwire & Hfiles & Hsock); [nia|lia|].
    rewrite acks_S, app_comm_cons, serve_snoc.
    remember (serve c addr (rrq :: acks c j) w) as wj eqn:Ewj. clear Ewj.
    rewrite (nth_block_full c content (Z.of_nat (S j))) in Hctx by (assumption || lia).
    rewrite Z.ltb_irrefl in Hctx.
    unfold Thread.
    pose proof (ack_accepted c wj addr _ content Hc Hctx) as E.
    cbn [filename block_num timer is_done] in E.
    replace (Z.of_nat (S j) + 1) with (Z.of_nat (S (S j))) in E by lia.
    rewrite E; [|reflexivity|lia|apply int16_ok_small; lia|congruence].
    unfold reading, read_started, cancelled, set_events.
    cbn [snd reads wire files self_sock].
    rewrite Hfiles, Hsock, Hwire, (blocks_sent_S c _ _ _ (S j)). repeat split.
    + eexists. apply lookup_insert_eq.
    + now rewrite <- app_assoc.
Qed.

(** C5, for files whose last block number fits the signed 16-bit field: a
    read of a file of [k] whole blocks ([k] positive, [k + 1 <= 32767]) whose
    DATA packets are acknowledged in sequence sends exactly the [k + 1] DATA
    packets of blocks [1 .. k+1], block [n] holding the bytes from offset
    [(n-1) * MAX_BYTES]; block [k + 1] is empty; and after [i]
    acknowledgements the stored context is at block [i + 1] with the
    completion flag set exactly when [i = k]. *)
Theorem read_of_whole_blocks (c : Constants) (w : World) (addr : Addr) (rrq : list byte)
    (fname : string) (content : list byte) (k : nat) :
  wf_constants c = true → is_request (RRQ_MODE c) rrq fname "octet" →
  files w !! fname = Some content →
  (0 < k)%nat → Z.of_nat (length content) = Z.of_nat k * MAX_BYTES c →
  Z.of_nat k + 1 <= 32767 →
  wire (serve c addr (rrq :: acks c (S k)) w)
    = wire w ++ blocks_sent c (self_sock w) addr content (S k)
  ∧ nth_block c content (Z.of_nat (S k)) = []
  ∧ (∀ i, (i ≤ k)%nat →
       reading (serve c addr (rrq :: acks c i) w) addr fname (Z.of_nat (S i))
         (bool_decide (i = k))).
Proof.
  intros Hwf Hreq Hf Hk Hlen Hmax. apply wf_constants_facts in Hwf as Hc.
  pose proof (wf_MAX_BYTES c Hc) as Hmb.
  assert (Hend : nth_block c content (Z.of_nat (S k)) = []).
  { apply nth_block_end. rewrite Hlen. f_equal. lia. }
  assert (Hprog : ∀ i, (i ≤ k)%nat →
    let wi := serve c addr (rrq :: acks c i) w in
    reading wi addr fname (Z.of_nat (S i)) (bool_decide (i = k))
    ∧ wire wi = wire w ++ blocks_sent c (self_sock w) addr content (S i)).
  { intros i Hi.
    destruct (read_progress c w addr rrq fname content i Hc Hreq Hf) as (Hctx & Hwire & _);
      [nia|lia|].
    split; [|exact Hwire].
    destruct (decide (i = k)) as [->|Hne].
    - rewrite Hend in Hctx. change (Z.of_nat (length (@nil byte))) with 0 in Hctx.
      rewrite (proj2 (Z.ltb_lt 0 _) Hmb) in Hctx.
      now rewrite bool_decide_eq_true_2.
    - rewrite (nth_block_full c content) in Hctx by (assumption || nia).
      rewrite Z.ltb_irrefl in Hctx. now rewrite bool_decide_eq_false_2. }
  split; [|split; [exact Hend|intros i Hi; apply (Hprog i Hi)]].
  destruct (Hprog k (Nat.le_refl k)) as ((tm & Hctx) & Hwire).
  rewrite bool_decide_eq_true_2 in Hctx by reflexivity.
  rewrite acks_S, app_comm_cons, serve_snoc. unfold Thread.
  pose proof (ack_final c _ addr _ Hc Hctx eq_refl) as E.
  cbn [block_num timer] in E. rewrite E by (apply int16_ok_small; lia).
  exact Hwire.
Qed.

(** Block 32768 cannot be packed: a read of 32767 whole blocks stops after
    the DATA of block 32767, which is full, and the flag is never set. *)
Lemma read_overflow (c : Constants) (w : World) (addr : Addr) (rrq : list byte)
    (fname : string) (content : list byte) (k : nat) :
  wf_facts c → is_request (RRQ_MODE c) rrq fname "octet" → files w !! fname = Some content →
  Z.of_nat (length content) = Z.of_nat k * MAX_BYTES c → Z.of_nat k = 32767 →
  let w' := serve c addr (rrq :: acks c k) w in
  wire w' = wire w ++ blocks_sent c (self_sock w) addr content k
  ∧ reading w' addr fname (Z.of_nat k) false
  ∧ Z.of_nat (length (nth_block c content (Z.of_nat k))) = MAX_BYTES c.
Proof.
  intros Hc Hreq Hf Hlen Hk. pose proof (wf_MAX_BYTES c Hc) as Hmb.
  destruct k as [|k]; [discriminate|]. cbn zeta.
  assert (Hfull : Z.of_nat (length (nth_block c content (Z.of_nat (S k)))) = MAX_BYTES c)
    by (apply nth_block_full; lia).
  destruct (read_progress c w addr rrq fname content k Hc Hreq Hf) as ((tm & Hctx) & Hwire & _);
    [nia|lia|].
  rewrite Hfull, Z.ltb_irrefl in Hctx.
  rewrite acks_S, app_comm_cons, serve_snoc. unfold Thread.
  pose proof (ack_overflow c _ addr _ content Hc Hctx eq_refl) as E.
  cbn [block_num timer filename] in E.
  rewrite E; [|lia|apply int16_ok_small; lia| |].
  - cbn [snd]. split; [exact Hwire|]. split; [|exact Hfull]. exists tm. exact Hctx.
  - rewrite Hk. reflexivity.
  - destruct (read_progress c w addr rrq fname content k Hc Hreq Hf) as (_ & _ & Hfiles & _);
      [nia|lia|]. now rewrite Hfiles.
Qed.

(** * Where the code departs from the claims *)

Lemma data_accepted_file (c : Constants) (w : World) (addr : Addr) (fc : FileContext)
    (buf : list byte) :
  wf_facts c → writes w !! addr = Some fc → 0 <= block_num fc →
  int16_ok (block_num fc + 1) = true → place w (filename fc) = Plain →
  files (Thread c (DATA_dgram c (block_num fc + 1) buf) addr w) !! filename fc
    = Some (written c (block_num fc + 1) buf).
Proof.
  intros Hc Hfc H0 Hi Hp. unfold Thread.
  rewrite (data_accepted c w addr fc buf) by assumption. cbn. apply lookup_insert_eq.
Qed.

(** C1: a write of two blocks.  The request is acknowledged, DATA(1) with a
    full block of 508 bytes is stored and acknowledged, DATA(2) with one byte
    is accepted and acknowledged; but the file then holds 512 zero bytes
    followed by that one byte: opening with mode ['wb'] has emptied the file
    again, and the 508 bytes of block 1 are gone. *)
Theorem second_block_erases_first :
  let w0 := main srv ∅ cwd in
  let w1 := run tftp [Datagram (WRQ_octet tftp "g") client;
                      Datagram (DATA_dgram tftp 1 full_block) client] w0 in
  let w2 := step tftp (Datagram (DATA_dgram tftp 2 [x42]) client) w1 in
  files w1 !! "g"%string = Some full_block
  ∧ wire w2 = [(srv, ACK_dgram tftp 0, client); (srv, ACK_dgram tftp 1, client);
               (srv, ACK_dgram tftp 2, client)]
  ∧ files w2 !! "g"%string = Some (repeat x00 512 ++ [x42])
  ∧ files w2 !! "g"%string ≠ Some (full_block ++ repeat x00 4 ++ [x42])
  ∧ files w2 !! "g"%string ≠ Some (full_block ++ [x42]).
Proof. vm_compute. repeat split; discriminate. Qed.

(** C2 fails on the stored context: after a DATA(1) of ten bytes, fewer than
    either size limit, the write context of the peer has no completion flag. *)
Lemma write_context_never_done :
  let w1 := run tftp [Datagram (WRQ_octet tftp "g") client;
                      Datagram (DATA_dgram tftp 1 ten_bytes) client] (main srv ∅ cwd) in
  Z.of_nat (length ten_bytes) < MAX_BUFFER_WRQ tftp
  ∧ Z.of_nat (length ten_bytes) < MAX_BYTES tftp
  ∧ files w1 !! "g"%string = Some ten_bytes
  ∧ is_done <$> writes w1 !! client = Some None.
Proof. vm_compute. repeat split. Qed.

(** C3 fails for writes: the DATA(1) of ten bytes ended the transfer (the
    handler computed [is_done] true and left no retry loop), yet DATA(2) is
    accepted: the file is written again and ACK(2) is sent. *)
Lemma data_after_last_block_accepted :
  let w1 := run tftp [Datagram (WRQ_octet tftp "g") client;
                      Datagram (DATA_dgram tftp 1 ten_bytes) client] (main srv ∅ cwd) in
  let w2 := step tftp (Datagram (DATA_dgram tftp 2 [x42]) client) w1 in
  write_done tftp 1 (Some ten_bytes) = true
  ∧ files w1 !! "g"%string = Some ten_bytes
  ∧ wire w2 = wire w1 ++ [(srv, ACK_dgram tftp 2, client)]
  ∧ files w2 !! "g"%string = Some (repeat x00 512 ++ [x42]).
Proof. vm_compute. repeat split. Qed.

(** C4 fails for the last ACK of a read: ACK(1) for a file of ten bytes is
    the matching packet and is accepted (it sets the Event of the context),
    but the block number stays 1. *)
Lemma last_ack_does_not_advance :
  let w1 := step tftp (Datagram (RRQ_octet tftp "f") client)
              (main srv {[ "f"%string := ten_bytes ]} cwd) in
  let w2 := step tftp (Datagram (ACK_dgram tftp 1) client) w1 in
  reads w1 !! client
    = Some {| filename := "f"; block_num := 1; timer := 0%nat; is_done := Some true |}
  ∧ is_set w1 0%nat = false ∧ is_set w2 0%nat = true
  ∧ block_num <$> reads w2 !! client = Some 1
  ∧ block_num <$> reads w2 !! client ≠ Some (1 + 1).
Proof. vm_compute. repeat split; discriminate. Qed.

(** C4 needs the handlers of a peer's packets to run one after the other.
    When two threads handle the same ACK(1) and both pass the test
    [fc.block_num == block_num] before either has stored the next context,
    what is left of each is the call [_handle_RRQ(addr, "f", 2)]: the repeat
    is not ignored, DATA(2) is sent twice, and two threads are left
    retransmitting it; the block number has still advanced by one only. *)
Lemma overlapping_acks_both_accepted :
  let w := step tftp (Datagram (RRQ_octet tftp "f") client)
             (main srv {[ "f"%string := repeat x41 600 ]} cwd) in
  let ack := ACK_dgram tftp 1 in
  let midA := cancelled 0 w in
  let midB := cancelled 0 midA in
  let w3 := (_handle_RRQ tftp client "f" 2 midB).2 in
  let w4 := (_handle_RRQ tftp client "f" 2 w3).2 in
  let data2 := DATA_dgram tftp 2 (nth_block tftp (repeat x41 600) 2) in
  _parse_pkt tftp ack client w = _handle_RRQ tftp client "f" 2 midA
  ∧ _parse_pkt tftp ack client midA = _handle_RRQ tftp client "f" 2 midB
  ∧ wire w4 = wire w ++ [(srv, data2, client); (srv, data2, client)]
  ∧ block_num <$> reads w4 !! client = Some 2
  ∧ live w4 1%nat {| w_frame := InRRQ; w_pkt := data2; w_addr := client |}
  ∧ live w4 2%nat {| w_frame := InRRQ; w_pkt := data2; w_addr := client |}.
Proof. vm_compute. repeat split. Qed.

(** C5 fails for a file of 32767 whole blocks: with every DATA acknowledged
    in sequence the server has sent the 32767 DATA packets of blocks
    [1 .. 32767] and no more (not 32767 + 1), the last of them full, not
    empty, and no context ever had its completion flag set. *)
Lemma read_of_32767_blocks_stalls :
  let w' := serve tftp client (RRQ_octet tftp "f" :: acks tftp (Z.to_nat 32767))
              (main srv {[ "f"%string := big_file ]} cwd) in
  Z.of_nat (length big_file) = 32767 * MAX_BYTES tftp
  ∧ wire w' = blocks_sent tftp srv client big_file (Z.to_nat 32767)
  ∧ Z.of_nat (length (wire w')) = 32767
  ∧ Z.of_nat (length (nth_block tftp big_file 32767)) = 512
  ∧ reading w' client "f" 32767 false.
Proof.
  assert (Hlen : Z.of_nat (length big_file) = Z.of_nat (Z.to_nat 32767) * MAX_BYTES tftp).
  { unfold big_file. rewrite repeat_length. change (MAX_BYTES tftp) with 512. lia. }
  assert (Hk : Z.of_nat (Z.to_nat 32767) = 32767) by lia.
  assert (Hc : wf_facts tftp) by (apply wf_constants_facts; reflexivity).
  assert (Hreq : is_request (RRQ_MODE tftp) (RRQ_octet tftp "f") "f" "octet")
    by (split; reflexivity).
  destruct (read_overflow tftp (main srv {[ "f"%string := big_file ]} cwd) client
              (RRQ_octet tftp "f") "f" big_file (Z.to_nat 32767) Hc Hreq
              (lookup_singleton_eq _ _) Hlen Hk) as (Hwire & Hctx & Hfull).
  rewrite Hk in Hctx, Hfull. cbn zeta.
  split; [rewrite Hlen, Hk; reflexivity|].
  split; [exact Hwire|]. split; [|split; [exact Hfull|exact Hctx]].
  rewrite Hwire, length_app. unfold blocks_sent. rewrite length_map, length_seq.
  change (length (wire (main srv {[ "f"%string := big_file ]} cwd))) with 0%nat. lia.
Qed.

(** C7 fails for a peer whose transfer is over: its context is still in the
    table (nothing removes one), so the test [addr not in dct] is false and
    no ERROR is sent.  After a read of ten bytes that the peer has
    acknowledged, a further ACK, with the old block number or any other, is
    dropped without a reply; after a write that ended with a short block, a
    repeated DATA(1) is dropped without a reply. *)
Lemma finished_transfer_gets_no_error :
  let w := run tftp [Datagram (RRQ_octet tftp "f") client; Datagram (ACK_dgram tftp 1) client]
             (main srv {[ "f"%string := ten_bytes ]} cwd) in
  let v := run tftp [Datagram (WRQ_octet tftp "g") client;
                     Datagram (DATA_dgram tftp 1 ten_bytes) client] (main srv ∅ cwd) in
  reads w !! client
    = Some {| filename := "f"; block_num := 1; timer := 0%nat; is_done := Some true |}
  ∧ is_set w 0%nat = true ∧ waiting (step tftp (Elapse 0%nat) w) = ∅
  ∧ _parse_pkt tftp (ACK_dgram tftp 1) client w = (Ok tt, w)
  ∧ _parse_pkt tftp (ACK_dgram tftp 7) client w = (Ok tt, w)
  ∧ write_done tftp 1 (Some ten_bytes) = true ∧ waiting (step tftp (Elapse 0%nat) v) = ∅
  ∧ _parse_pkt tftp (DATA_dgram tftp 1 ten_bytes) client v = (Ok tt, v).
Proof. vm_compute. repeat split. Qed.

(** C9 fails when two handlers of one peer interleave; nothing in the code
    keeps them apart.  The peer has a read context (Event 0).  Two more read
    requests arrive and threads A and B each run [_parse_pkt] up to the call
    of [_handle_RRQ]: both find the old context and set its Event (world
    [midA], then [midB]), and what is left of either thread is the call
    [_handle_RRQ(addr, "f", 1)].  Then A's call stores its context (Event 1)
    and B's call overwrites it (Event 2) while Event 1 is not set, and never
    will be: both threads are left retransmitting to the same peer. *)
Lemma interleaved_requests_both_live :
  let data := RRQ_octet tftp "f" in
  let w := step tftp (Datagram data client) (main srv {[ "f"%string := ten_bytes ]} cwd) in
  let midA := cancelled 0 w in
  let midB := cancelled 0 midA in
  let w3 := (_handle_RRQ tftp client "f" 1 midB).2 in
  let w4 := (_handle_RRQ tftp client "f" 1 w3).2 in
  _parse_pkt tftp data client w = _handle_RRQ tftp client "f" 1 midA
  ∧ _parse_pkt tftp data client midA = _handle_RRQ tftp client "f" 1 midB
  ∧ timer <$> reads w3 !! client = Some 1%nat ∧ is_set w3 1%nat = false
  ∧ timer <$> reads w4 !! client = Some 2%nat ∧ is_set w4 1%nat = false
  ∧ live w4 1%nat {| w_frame := InRRQ; w_pkt := DATA_dgram tftp 1 ten_bytes; w_addr := client |}
  ∧ live w4 2%nat {| w_frame := InRRQ; w_pkt := DATA_dgram tftp 1 ten_bytes; w_addr := client |}.
Proof. vm_compute. repeat split. Qed.

(** * The theorems at concrete inputs *)

Lemma data_accept_completion_witness :
  let w := step tftp (Datagram (WRQ_octet tftp "g") client) (main srv ∅ cwd) in
  let fc := {| filename := "g"; block_num := 0; timer := 0%nat; is_done := None |} in
  let w' := Thread tftp (DATA_dgram tftp 1 ten_bytes) client w in
  let v := step tftp (Datagram (WRQ_octet tftp "nodir/g") client) (main srv ∅ cwd) in
  let fd := {| filename := "nodir/g"; block_num := 0; timer := 0%nat; is_done := None |} in
  wf_constants tftp = true ∧ writes w !! client = Some fc ∧ 0 <= block_num fc
  ∧ int16_ok (block_num fc + 1) = true ∧ place w "g" = Plain
  ∧ wire w' = wire w ++ [(srv, ACK_dgram tftp 1, client)]
  ∧ writes w' !! client
      = Some {| filename := "g"; block_num := 1; timer := 1%nat; is_done := None |}
  ∧ is_set w' 1%nat = false
  ∧ waiting w' = waiting w
  ∧ writes v !! client = Some fd ∧ refused (place v "nodir/g") = Some FileNotFoundError
  ∧ _parse_pkt tftp (DATA_dgram tftp 1 ten_bytes) client v
    = (Raise FileNotFoundError, cancelled 0 v).
Proof.
  intros w fc w' v fd.
  assert (Hfc : writes w !! client = Some fc) by (vm_compute; reflexivity).
  assert (Hfd : writes v !! client = Some fd) by (vm_compute; reflexivity).
  assert (Hp : place w "g" = Plain) by reflexivity.
  assert (Hr : refused (place v "nodir/g") = Some FileNotFoundError) by reflexivity.
  split; [reflexivity|]. split; [exact Hfc|]. split; [cbn; lia|]. split; [reflexivity|].
  split; [exact Hp|].
  destruct (data_accept_completion tftp w client fc ten_bytes eq_refl Hfc
              (Z.le_refl 0) eq_refl) as [Hok _].
  destruct (Hok Hp) as (H1 & H2 & H3 & H4).
  split; [exact H1|]. split; [exact H2|]. split; [exact H3|]. split; [exact H4|].
  split; [exact Hfd|]. split; [exact Hr|].
  exact (proj2 (data_accept_completion tftp v client fd ten_bytes eq_refl Hfd
                  (Z.le_refl 0) eq_refl) FileNotFoundError Hr).
Defined.

Lemma done_read_ignores_acks_witness :
  let w := step tftp (Datagram (RRQ_octet tftp "f") client)
             (main srv {[ "f"%string := ten_bytes ]} cwd) in
  let fc := {| filename := "f"; block_num := 1; timer := 0%nat; is_done := Some true |} in
  let w' := Thread tftp (ACK_dgram tftp 2) client w in
  wf_constants tftp = true ∧ reads w !! client = Some fc ∧ is_done fc = Some true
  ∧ int16_ok 2 = true
  ∧ wire w' = wire w ∧ files w' = files w ∧ reads w' = reads w ∧ writes w' = writes w
  ∧ waiting w' = waiting w.
Proof.
  cbn zeta.
  assert (Hfc : reads (step tftp (Datagram (RRQ_octet tftp "f") client)
                         (main srv {[ "f"%string := ten_bytes ]} cwd)) !! client
                = Some {| filename := "f"; block_num := 1; timer := 0%nat;
                          is_done := Some true |})
    by (vm_compute; reflexivity).
  split; [reflexivity|]. split; [exact Hfc|]. split; [reflexivity|]. split; [reflexivity|].
  exact (done_read_ignores_acks tftp _ client _ 2 eq_refl Hfc eq_refl eq_refl).
Defined.

Lemma block_number_steps_witness :
  let w := step tftp (Datagram (RRQ_octet tftp "f") client)
             (main srv {[ "f"%string := repeat x41 600 ]} cwd) in
  let w' := Thread tftp (ACK_dgram tftp 1) client w in
  let v := step tftp (Datagram (WRQ_octet tftp "g") client) (main srv ∅ cwd) in
  let v' := Thread tftp (DATA_dgram tftp 1 full_block) client v in
  wf_constants tftp = true
  ∧ block_num <$> reads w !! client = Some 1
  ∧ block_num <$> reads w' !! client = Some (1 + 1)
  ∧ _parse_pkt tftp (ACK_dgram tftp 1) client w' = (Ok tt, w')
  ∧ _parse_pkt tftp (ACK_dgram tftp 2) client w = (Ok tt, w)
  ∧ block_num <$> writes v !! client = Some 0 ∧ place v "g" = Plain
  ∧ block_num <$> writes v' !! client = Some (0 + 1)
  ∧ _parse_pkt tftp (DATA_dgram tftp 1 full_block) client v' = (Ok tt, v')
  ∧ _parse_pkt tftp (DATA_dgram tftp 3 full_block) client v = (Ok tt, v).
Proof.
  intros w w' v v'.
  set (fc := {| filename := "f"; block_num := 1; timer := 0%nat; is_done := Some false |}).
  set (fd := {| filename := "g"; block_num := 0; timer := 0%nat; is_done := None |}).
  assert (Hfc : reads w !! client = Some fc) by (vm_compute; reflexivity).
  assert (Hfd : writes v !! client = Some fd) by (vm_compute; reflexivity).
  assert (Hf : is_Some (files w !! "f"%string))
    by (exists (repeat x41 600); vm_compute; reflexivity).
  destruct (block_number_steps tftp w client fc eq_refl) as [Hread _].
  destruct (Hread Hfc) as [Hadv Hign].
  destruct (Hadv eq_refl Hf ltac:(cbn; lia) eq_refl) as [Hnext Hagain].
  destruct (block_number_steps tftp v client fd eq_refl) as [_ Hwrite].
  destruct (Hwrite Hfd) as [Hadv' Hign'].
  destruct (Hadv' full_block ltac:(cbn; lia) eq_refl eq_refl) as [Hnext' Hagain'].
  split; [reflexivity|]. split; [rewrite Hfc; reflexivity|].
  split; [exact Hnext|]. split; [exact Hagain|].
  split; [apply Hign; [reflexivity|cbn; lia]|].
  split; [rewrite Hfd; reflexivity|]. split; [reflexivity|].
  split; [exact Hnext'|]. split; [exact (Hagain' full_block)|].
  apply Hign'; [reflexivity|cbn; lia].
Defined.

Lemma read_of_whole_blocks_witness :
  let w := main srv {[ "f"%string := repeat x41 512 ]} cwd in
  let rrq := RRQ_octet tftp "f" in
  wf_constants tftp = true ∧ is_request (RRQ_MODE tftp) rrq "f" "octet"
  ∧ files w !! "f"%string = Some (repeat x41 512)
  ∧ (0 < 1)%nat ∧ Z.of_nat (length (repeat x41 512)) = Z.of_nat 1 * MAX_BYTES tftp
  ∧ Z.of_nat 1 + 1 <= 32767
  ∧ wire (serve tftp client (rrq :: acks tftp 2) w)
      = wire w ++ blocks_sent tftp srv client (repeat x41 512) 2
  ∧ nth_block tftp (repeat x41 512) 2 = []
  ∧ (∀ i, (i ≤ 1)%nat →
       reading (serve tftp client (rrq :: acks tftp i) w) client "f" (Z.of_nat (S i))
         (bool_decide (i = 1%nat))).
Proof.
  cbn zeta.
  assert (Hreq : is_request (RRQ_MODE tftp) (RRQ_octet tftp "f") "f" "octet")
    by (split; reflexivity).
  assert (Hf : files (main srv {[ "f"%string := repeat x41 512 ]} cwd) !! "f"%string
               = Some (repeat x41 512)) by (vm_compute; reflexivity).
  split; [reflexivity|]. split; [exact Hreq|]. split; [exact Hf|]. split; [lia|].
  split; [reflexivity|]. split; [lia|].
  exact (read_of_whole_blocks tftp _ client _ "f" _ 1 eq_refl Hreq Hf
           (Nat.lt_0_1) eq_refl ltac:(lia)).
Defined.

Lemma rrq_missing_file_witness :
  let w := main srv ∅ cwd in
  let data := RRQ_octet tftp "nofile" in
  let w' := Thread tftp data client w in
  wf_constants tftp = true ∧ reachable tftp w
  ∧ is_request (RRQ_MODE tftp) data "nofile" "octet" ∧ exists_path w "nofile" = false
  ∧ (_parse_pkt tftp data client w).1 = Raise SystemExit
  ∧ wire w' = wire w ++ [(srv, ERROR_dgram tftp 1 "File does not exist", client)]
  ∧ reads w' = reads w ∧ writes w' = writes w ∧ files w' = files w
  ∧ events w' = events w ∧ waiting w' = waiting w.
Proof.
  cbn zeta.
  assert (Hreq : is_request (RRQ_MODE tftp) (RRQ_octet tftp "nofile") "nofile" "octet")
    by (split; reflexivity).
  split; [reflexivity|]. split; [apply reach_main|]. split; [exact Hreq|].
  split; [reflexivity|].
  exact (rrq_missing_file tftp (main srv ∅ cwd) client _ "nofile" eq_refl
           (reach_main tftp srv ∅ cwd) Hreq eq_refl).
Defined.

Lemma unknown_transfer_id_witness :
  let w := main srv ∅ cwd in
  let reply := sent_on srv (ERROR_dgram tftp 5 "Unknown transfer ID") client w in
  wf_constants tftp = true ∧ reachable tftp w
  ∧ _parse_pkt tftp (ACK_dgram tftp 1) client w = (Raise SystemExit, reply)
  ∧ _parse_pkt tftp (DATA_dgram tftp 1 ten_bytes) client w = (Raise SystemExit, reply).
Proof.
  cbn zeta.
  destruct (unknown_transfer_id tftp (main srv ∅ cwd) client eq_refl (reach_main tftp srv ∅ cwd))
    as (Hack & Hdata & _).
  split; [reflexivity|]. split; [apply reach_main|]. split.
  - apply Hack; reflexivity.
  - apply Hdata; reflexivity.
Defined.

Lemma preemption_cancels_first_witness :
  let w := step tftp (Datagram (RRQ_octet tftp "f") client)
             (main srv {[ "f"%string := ten_bytes ]} cwd) in
  let w' := Thread tftp (RRQ_octet tftp "f") client w in
  wf_constants tftp = true ∧ reachable tftp w
  ∧ is_set w 0%nat = false ∧ is_set w' 0%nat = true
  ∧ ∃ new, reads w' !! client = Some new ∧ timer new ≠ 0%nat
           ∧ is_set w' (timer new) = false.
Proof.
  cbn zeta.
  assert (Hr : reachable tftp (step tftp (Datagram (RRQ_octet tftp "f") client)
                                 (main srv {[ "f"%string := ten_bytes ]} cwd)))
    by (apply reach_step, reach_main).
  destruct (preemption_cancels_first tftp _ client eq_refl Hr) as (Hrrq & _ & _).
  assert (Hreq : is_request (RRQ_MODE tftp) (RRQ_octet tftp "f") "f" "octet")
    by (split; reflexivity).
  destruct (Hrrq (RRQ_octet tftp "f") "f" ten_bytes
              {| filename := "f"; block_num := 1; timer := 0%nat; is_done := Some true |}
              Hreq ltac:(vm_compute; reflexivity) ltac:(vm_compute; reflexivity))
    as (_ & _ & _ & Hold & Hnew).
  split; [reflexivity|]. split; [exact Hr|]. split; [vm_compute; reflexivity|].
  split; [exact Hold|exact Hnew].
Defined.

Lemma error_replies_use_global_sock_witness :
  let w := imported srv ∅ cwd in
  wf_constants tftp = true ∧ global_sock w = None
  ∧ _handle_ERROR tftp client 5 "Unknown transfer ID" w = (Raise NameError, w)
  ∧ _parse_pkt tftp (RRQ_octet tftp "nofile") client w = (Raise NameError, w)
  ∧ _parse_pkt tftp (ACK_dgram tftp 1) client w = (Raise NameError, w)
  ∧ _parse_pkt tftp [x00; x09] client w = (Raise NameError, w).
Proof.
  cbn zeta.
  destruct (error_replies_use_global_sock tftp (imported srv ∅ cwd) client eq_refl)
    as [Herr Hbranches].
  destruct (Hbranches eq_refl) as (_ & Hfile & Hack & _ & Hop).
  split; [reflexivity|]. split; [reflexivity|]. split; [|split; [|split]].
  - exact (Herr 5 "Unknown transfer ID"%string eq_refl).
  - apply (Hfile _ "nofile"%string); [split; reflexivity|reflexivity].
  - apply Hack; reflexivity.
  - apply (Hop _ 9); [reflexivity|discriminate..].
Defined.

(** * More of the server *)

(** ** The codec both ways *)

Lemma Z_of_byte_range (b : byte) : 0 <= Z_of_byte b < 256.
Proof. unfold Z_of_byte. pose proof (Byte.to_N_bounded b). lia. Qed.

Lemma byte_of_Z_of_byte (b : byte) : byte_of_Z (Z_of_byte b) = b.
Proof. unfold byte_of_Z, Z_of_byte. now rewrite N2Z.id, Byte.of_to_N. Qed.

Lemma be16_of_bytes (hi lo : byte) (v : Z) :
  v mod 65536 = 256 * Z_of_byte hi + Z_of_byte lo → be16 v = [hi; lo].
Proof.
  intros Hv. pose proof (Z_of_byte_range hi). pose proof (Z_of_byte_range lo).
  unfold be16. rewrite Hv.
  assert (Hl : v mod 256 = Z_of_byte lo).
  { rewrite <- (Z.mod_mod_divide v 65536 256) by (exists 256; lia). rewrite Hv.
    symmetry. apply Z.mod_unique with (q := Z_of_byte hi); lia. }
  assert (Hh : (256 * Z_of_byte hi + Z_of_byte lo) / 256 = Z_of_byte hi).
  { symmetry. apply Z.div_unique with (r := Z_of_byte lo); lia. }
  now rewrite Hl, Hh, !byte_of_Z_of_byte.
Qed.

(** X1: [struct.unpack('>h', bs)] succeeds exactly on two bytes; its value
    lies in the signed 16-bit range and packs back to the same two bytes. *)
Theorem struct_unpack_h_inverse (bs : list byte) :
  match struct_unpack_h bs with
  | Ok v => length bs = 2%nat ∧ int16_ok v = true ∧ be16 v = bs
  | Raise e => e = StructError ∧ length bs ≠ 2%nat
  end.
Proof.
  destruct bs as [|hi [|lo [|b bs]]]; cbn; try (split; [reflexivity|discriminate]).
  split; [reflexivity|].
  pose proof (Z_of_byte_range hi). pose proof (Z_of_byte_range lo).
  destruct (Z.ltb_spec (256 * Z_of_byte hi + Z_of_byte lo) 32768) as [Hlt|Hge].
  - split.
    + unfold int16_ok. apply andb_true_iff. split; apply Z.leb_le; lia.
    + apply be16_of_bytes. apply Z.mod_small. lia.
  - split.
    + unfold int16_ok. apply andb_true_iff. split; apply Z.leb_le; lia.
    + apply be16_of_bytes. symmetry. apply Z.mod_unique with (q := -1); lia.
Qed.

(** X2: an ACK packet is the opcode and the block number on four bytes, and
    the expressions of [_parse_pkt] ([data[:2]], [data[2:]]) read both back;
    [_ACK] fails, with [struct.error], exactly when the opcode or the block
    number is outside the signed 16-bit range. *)
Theorem _ACK_roundtrip (c : Constants) (n : Z) :
  match _ACK c n with
  | Ok pkt =>
      length pkt = 4%nat
      ∧ struct_unpack_h (take 2 pkt) = Ok (ACK_MODE c)
      ∧ struct_unpack_h (drop 2 pkt) = Ok n
  | Raise e => e = StructError ∧ (int16_ok (ACK_MODE c) && int16_ok n = false)
  end.
Proof.
  unfold _ACK, struct_pack_hh.
  destruct (int16_ok (ACK_MODE c)) eqn:Ea; destruct (int16_ok n) eqn:En; cbn [andb];
    try (split; reflexivity).
  split; [reflexivity|].
  change (take 2 (be16 (ACK_MODE c) ++ be16 n)) with (be16 (ACK_MODE c)).
  change (drop 2 (be16 (ACK_MODE c) ++ be16 n)) with (be16 n).
  now rewrite !struct_unpack_h_be16.
Qed.

(** X3: a DATA packet is four header bytes followed by the payload as it is;
    [data[:2]], [rest[:2]] and [rest[2:]] give back the opcode, the block
    number and the payload; [_DATA] fails exactly when the opcode or the
    block number is outside the signed 16-bit range, whatever the payload. *)
Theorem _DATA_roundtrip (c : Constants) (n : Z) (buf : list byte) :
  match _DATA c n buf with
  | Ok pkt =>
      length pkt = (4 + length buf)%nat
      ∧ struct_unpack_h (take 2 pkt) = Ok (DATA_MODE c)
      ∧ struct_unpack_h (take 2 (drop 2 pkt)) = Ok n
      ∧ drop 2 (drop 2 pkt) = buf
  | Raise e => e = StructError ∧ (int16_ok (DATA_MODE c) && int16_ok n = false)
  end.
Proof.
  unfold _DATA, struct_pack_hh.
  destruct (int16_ok (DATA_MODE c)) eqn:Ea; destruct (int16_ok n) eqn:En; cbn [andb];
    try (split; reflexivity).
  split; [reflexivity|].
  change (take 2 ((be16 (DATA_MODE c) ++ be16 n) ++ buf)) with (be16 (DATA_MODE c)).
  change (take 2 (drop 2 ((be16 (DATA_MODE c) ++ be16 n) ++ buf))) with (be16 n).
  rewrite !struct_unpack_h_be16 by assumption. repeat split.
Qed.

Lemma encode_app (s1 s2 : string) : encode (s1 +:+ s2) = encode s1 ++ encode s2.
Proof.
  unfold encode, String.list_byte_of_string. induction s1 as [|a s1 IH]; [reflexivity|].
  change (String a s1 +:+ s2) with (String a (s1 +:+ s2)). cbn. f_equal. exact IH.
Qed.

Lemma length_encode (s : string) : length (encode s) = String.length s.
Proof.
  unfold encode, String.list_byte_of_string.
  induction s as [|a s IH]; [reflexivity|]. cbn. now f_equal.
Qed.

(** X4: an ERROR packet is the opcode, the error code, the bytes of the
    message and then two zero bytes (the terminator appended to the message
    and the byte of the format's trailing [b]): [6 + len(msg)] bytes in all;
    the opcode and the code read back from the first four bytes. *)
Theorem _ERROR_layout (c : Constants) (code : Z) (msg : string) :
  match _ERROR c code msg with
  | Ok pkt =>
      pkt = be16 (ERROR_MODE c) ++ be16 code ++ encode msg ++ [x00; x00]
      ∧ length pkt = (6 + String.length msg)%nat
      ∧ struct_unpack_h (take 2 pkt) = Ok (ERROR_MODE c)
      ∧ struct_unpack_h (take 2 (drop 2 pkt)) = Ok code
  | Raise e => e = StructError ∧ (int16_ok (ERROR_MODE c) && int16_ok code = false)
  end.
Proof.
  unfold _ERROR, struct_pack_hh.
  destruct (int16_ok (ERROR_MODE c)) eqn:Ea; destruct (int16_ok code) eqn:En; cbn [andb];
    try (split; reflexivity).
  rewrite encode_app.
  change (encode (String Ascii.zero EmptyString)) with [x00].
  split; [now rewrite <- !app_assoc|]. split.
  - rewrite !length_app, length_encode. cbn. lia.
  - change (take 2 ((be16 (ERROR_MODE c) ++ be16 code) ++ (encode msg ++ [x00]) ++ [x00]))
      with (be16 (ERROR_MODE c)).
    change (take 2 (drop 2 ((be16 (ERROR_MODE c) ++ be16 code)
                              ++ (encode msg ++ [x00]) ++ [x00])))
      with (be16 code).
    now rewrite !struct_unpack_h_be16.
Qed.

(** ** Request parsing *)

Ltac utf8_step IH :=
  match goal with
  | H : false = true |- _ => discriminate H
  | H : _ && _ = true |- _ => apply andb_true_iff in H as [? ?]
  | |- _ && _ = true => apply andb_true_iff; split
  | H : ?x = true |- ?x = true => exact H
  | H : utf8_valid ?r = true |- utf8_valid (?r ++ _) = true =>
      apply (IH (length r)); [cbn; lia|reflexivity|exact H]
  | H : context [if ?c then _ else _] |- _ => destruct c eqn:?
  | H : context [match ?r with [] => _ | _ :: _ => _ end] |- _ =>
      destruct r; cbn [app utf8_valid] in *
  end.

Lemma utf8_valid_app (a b : list byte) :
  utf8_valid a = true → utf8_valid b = true → utf8_valid (a ++ b) = true.
Proof.
  intros Ha Hb. remember (length a) as n eqn:Hn. revert a Hn Ha.
  induction n as [n IH] using lt_wf_ind. intros a -> Ha.
  destruct a as [|b0 r0]; [exact Hb|].
  cbn [app utf8_valid] in *.
  repeat utf8_step IH.
Qed.

Lemma string_of_list_byte_app (a b : list byte) :
  String.string_of_list_byte (a ++ b)
  = String.string_of_list_byte a +:+ String.string_of_list_byte b.
Proof.
  unfold String.string_of_list_byte. induction a as [|x a IH]; [reflexivity|].
  cbn [app map String.string_of_list_ascii].
  change (String ?h ?t +:+ ?u) with (String h (t +:+ u)). now rewrite IH.
Qed.

Lemma ascii_zero_byte (a : Ascii.ascii) :
  Ascii.eqb a Ascii.zero = Byte.eqb (Ascii.byte_of_ascii a) x00.
Proof. destruct a as [[] [] [] [] [] [] [] []]; reflexivity. Qed.

Lemma split_nul_app (s r : string) :
  nul_free (encode s) = true →
  split_nul (s +:+ String Ascii.zero r) = s :: split_nul r.
Proof.
  induction s as [|a s IH]; intros Hs.
  - reflexivity.
  - change (String a s +:+ ?u) with (String a (s +:+ u)).
    unfold encode, String.list_byte_of_string, nul_free in Hs. cbn in Hs.
    apply andb_true_iff in Hs as [Ha Hs]. apply negb_true_iff in Ha.
    rewrite <- ascii_zero_byte in Ha.
    cbn [split_nul]. rewrite Ha, IH by exact Hs. reflexivity.
Qed.

Lemma split_nul_free (s : string) : nul_free (encode s) = true → split_nul s = [s].
Proof.
  induction s as [|a s IH]; intros Hs; [reflexivity|].
  unfold encode, String.list_byte_of_string, nul_free in Hs. cbn in Hs.
  apply andb_true_iff in Hs as [Ha Hs]. apply negb_true_iff in Ha.
  rewrite <- ascii_zero_byte in Ha.
  cbn [split_nul]. rewrite Ha, IH by exact Hs. reflexivity.
Qed.

Lemma append_nul (u : string) :
  String Ascii.zero EmptyString +:+ u = String Ascii.zero u.
Proof. reflexivity. Qed.

Lemma utf8_valid_nul : utf8_valid [x00] = true.
Proof. reflexivity. Qed.

(** X5: [_parse_init_request] gives back the file name and the mode of a
    request built as [filename NUL mode NUL]; whatever follows the second NUL
    is ignored (it only has to decode), and the second NUL itself may be
    missing.  Name and mode are any texts without a zero byte. *)
Theorem _parse_init_request_roundtrip (fname mode : string) (tail : list byte) :
  utf8_valid (encode fname) = true → utf8_valid (encode mode) = true →
  utf8_valid tail = true →
  nul_free (encode fname) = true → nul_free (encode mode) = true →
  _parse_init_request (encode fname ++ [x00] ++ encode mode ++ [x00] ++ tail)
    = Ok (fname, mode)
  ∧ _parse_init_request (encode fname ++ [x00] ++ encode mode) = Ok (fname, mode).
Proof.
  intros Hf Hm Ht Hnf Hnm. unfold _parse_init_request, decode. split.
  - rewrite !utf8_valid_app by (auto using utf8_valid_nul, utf8_valid_app).
    rewrite !string_of_list_byte_app. unfold encode.
    rewrite !String.string_of_list_byte_of_string.
    change (String.string_of_list_byte [x00]) with (String Ascii.zero EmptyString).
    rewrite !append_nul.
    rewrite split_nul_app by exact Hnf. rewrite split_nul_app by exact Hnm.
    reflexivity.
  - rewrite !utf8_valid_app by (auto using utf8_valid_nul, utf8_valid_app).
    rewrite !string_of_list_byte_app. unfold encode.
    rewrite !String.string_of_list_byte_of_string.
    change (String.string_of_list_byte [x00]) with (String Ascii.zero EmptyString).
    rewrite !append_nul.
    rewrite split_nul_app by exact Hnf. rewrite split_nul_free by exact Hnm.
    reflexivity.
Qed.

Lemma _parse_init_request_bad (data : list byte) :
  (utf8_valid data = false → _parse_init_request data = Raise UnicodeDecodeError)
  ∧ (utf8_valid data = true → nul_free data = true →
     _parse_init_request data = Raise ValueError).
Proof.
  unfold _parse_init_request, decode. split.
  - intros ->. reflexivity.
  - intros -> Hn.
    rewrite split_nul_free; [reflexivity|].
    unfold encode. now rewrite String.list_byte_of_string_of_list_byte.
Qed.

(** X6: a read or write request that cannot be parsed gets no reply at all:
    if the bytes after the opcode are not UTF-8 the handling thread dies with
    [UnicodeDecodeError], and if they decode but hold no zero byte (no mode)
    it dies with [ValueError]; in both cases nothing is sent and nothing
    changes. *)
Theorem malformed_request_dropped (c : Constants) (w : World) (addr : Addr)
    (data : list byte) (op : Z) :
  wf_constants c = true → struct_unpack_h (take 2 data) = Ok op →
  op = RRQ_MODE c ∨ op = WRQ_MODE c →
  (utf8_valid (drop 2 data) = false →
     _parse_pkt c data addr w = (Raise UnicodeDecodeError, w))
  ∧ (utf8_valid (drop 2 data) = true → nul_free (drop 2 data) = true →
     _parse_pkt c data addr w = (Raise ValueError, w)).
Proof.
  intros Hwf Hop Hor. apply wf_constants_facts in Hwf as Hc.
  destruct (_parse_init_request_bad (drop 2 data)) as [Hbad1 Hbad2].
  assert (E : ∀ e, _parse_init_request (drop 2 data) = Raise e →
                   _parse_pkt c data addr w = (Raise e, w)).
  { intros e He. unfold _parse_pkt.
    erewrite bind_Ok by (unfold lift; rewrite Hop; reflexivity). cbn beta zeta.
    destruct Hor as [->| ->].
    - rewrite Z.eqb_refl. erewrite bind_Raise; [reflexivity|]. unfold lift. now rewrite He.
    - rewrite (proj2 (Z.eqb_neq (WRQ_MODE c) (RRQ_MODE c)))
        by (intros E; now apply (wf_RRQ_WRQ c Hc)).
      rewrite Z.eqb_refl. erewrite bind_Raise; [reflexivity|]. unfold lift. now rewrite He. }
  split.
  - intros H. apply E. now apply Hbad1.
  - intros H1 H2. apply E. now apply Hbad2.
Qed.

(** ** The other replies of the dispatcher *)

(** X7: a read or write request in any mode but ["octet"] makes the running
    server send one ERROR(ILLEGAL_TFTP_OP) and end the thread with
    [SystemExit]; the check comes first, so no file is looked up, no context
    is cancelled or stored, and nothing but the transmission log changes. *)
Theorem unsupported_mode (c : Constants) (w : World) (addr : Addr) (data : list byte)
    (fname mode : string) :
  wf_constants c = true → reachable c w →
  is_request (RRQ_MODE c) data fname mode ∨ is_request (WRQ_MODE c) data fname mode →
  mode ≠ "octet"%string →
  _parse_pkt c data addr w =
    (Raise SystemExit,
     sent_on (self_sock w)
       (ERROR_dgram c (ERR_ILLEGAL_TFTP_OP c) "TFTP only supports binary mode") addr w).
Proof.
  intros Hwf Hr Hreq Hmode. apply wf_constants_facts in Hwf as Hc.
  apply reachable_sock in Hr.
  destruct Hreq as [Hreq|Hreq].
  - rewrite (_parse_pkt_RRQ c w addr data fname mode Hreq).
    erewrite bind_Raise; [reflexivity|].
    rewrite _validate_mode_other by assumption.
    apply error_exit_bound; auto using wf_ERR_ILLEGAL_TFTP_OP.
  - rewrite (_parse_pkt_WRQ c w addr data fname mode Hc Hreq).
    erewrite bind_Raise; [reflexivity|].
    rewrite _validate_mode_other by assumption.
    apply error_exit_bound; auto using wf_ERR_ILLEGAL_TFTP_OP.
Qed.

(** X8: a datagram whose opcode is none of RRQ, WRQ, ACK, DATA makes the
    running server send one ERROR(NOT_DEFINED); the thread then returns (no
    [sys.exit()] on this path) and nothing but the transmission log changes. *)
Theorem unknown_opcode (c : Constants) (w : World) (addr : Addr) (data : list byte) (op : Z) :
  wf_constants c = true → reachable c w →
  struct_unpack_h (take 2 data) = Ok op →
  op ≠ RRQ_MODE c → op ≠ WRQ_MODE c → op ≠ ACK_MODE c → op ≠ DATA_MODE c →
  _parse_pkt c data addr w =
    (Ok tt,
     sent_on (self_sock w) (ERROR_dgram c (ERR_NOT_DEFINED c) "Invalid packet type") addr w).
Proof.
  intros Hwf Hr Hop H1 H2 H3 H4. apply wf_constants_facts in Hwf as Hc.
  apply reachable_sock in Hr.
  rewrite (_parse_pkt_other c w addr data op) by assumption.
  apply _handle_ERROR_bound; auto using wf_ERR_NOT_DEFINED.
Qed.

Lemma struct_unpack_h_length (bs : list byte) :
  length bs ≠ 2%nat → struct_unpack_h bs = Raise StructError.
Proof. destruct bs as [|hi [|lo [|b bs]]]; cbn; intros H; (reflexivity || lia). Qed.

Lemma struct_unpack_h_Ok_length (bs : list byte) (v : Z) :
  struct_unpack_h bs = Ok v → length bs = 2%nat.
Proof. destruct bs as [|hi [|lo [|b bs]]]; cbn; intros H; (reflexivity || discriminate). Qed.

(** X9: truncated packets get no reply.  A datagram of fewer than two bytes,
    an ACK whose length is not four, and a DATA of fewer than four bytes
    each end the handling thread with [struct.error]; nothing is sent and
    nothing changes (an ACK with trailing bytes is dropped as well). *)
Theorem truncated_packet_dropped (c : Constants) (w : World) (addr : Addr)
    (data : list byte) :
  wf_constants c = true →
  ((length data < 2)%nat → _parse_pkt c data addr w = (Raise StructError, w))
  ∧ (struct_unpack_h (take 2 data) = Ok (ACK_MODE c) → length data ≠ 4%nat →
     _parse_pkt c data addr w = (Raise StructError, w))
  ∧ (struct_unpack_h (take 2 data) = Ok (DATA_MODE c) → (length data < 4)%nat →
     _parse_pkt c data addr w = (Raise StructError, w)).
Proof.
  intros Hwf. apply wf_constants_facts in Hwf as Hc. repeat split.
  - intros Hlen. unfold _parse_pkt. erewrite bind_Raise; [reflexivity|].
    unfold lift. rewrite struct_unpack_h_length; [reflexivity|].
    rewrite length_take. lia.
  - intros Hop Hlen. unfold _parse_pkt.
    erewrite bind_Ok by (unfold lift; rewrite Hop; reflexivity). cbn beta zeta.
    rewrite (proj2 (Z.eqb_neq (ACK_MODE c) (RRQ_MODE c)))
      by (intros E; now apply (wf_RRQ_ACK c Hc)).
    rewrite (proj2 (Z.eqb_neq (ACK_MODE c) (WRQ_MODE c)))
      by (intros E; now apply (wf_WRQ_ACK c Hc)).
    rewrite Z.eqb_refl. erewrite bind_Raise; [reflexivity|].
    unfold lift. rewrite struct_unpack_h_length; [reflexivity|].
    apply struct_unpack_h_Ok_length in Hop. rewrite length_take in Hop.
    rewrite length_drop. lia.
  - intros Hop Hlen. unfold _parse_pkt.
    erewrite bind_Ok by (unfold lift; rewrite Hop; reflexivity). cbn beta zeta.
    rewrite (proj2 (Z.eqb_neq (DATA_MODE c) (RRQ_MODE c)))
      by (intros E; now apply (wf_RRQ_DATA c Hc)).
    rewrite (proj2 (Z.eqb_neq (DATA_MODE c) (WRQ_MODE c)))
      by (intros E; now apply (wf_WRQ_DATA c Hc)).
    rewrite (proj2 (Z.eqb_neq (DATA_MODE c) (ACK_MODE c)))
      by (intros E; now apply (wf_ACK_DATA c Hc)).
    rewrite Z.eqb_refl. erewrite bind_Raise; [reflexivity|].
    unfold lift. rewrite struct_unpack_h_length; [reflexivity|].
    rewrite length_take, length_drop. lia.
Qed.

(** ** Write transfers *)

Lemma preempt_frame (dct : gmap Addr FileContext) (addr : Addr) (w : World) :
  ∃ w0, preempt dct addr w = (Ok tt, w0)
        ∧ files w0 = files w ∧ wire w0 = wire w ∧ self_sock w0 = self_sock w
        ∧ reads w0 = reads w ∧ writes w0 = writes w ∧ waiting w0 = waiting w
        ∧ length (events w0) = length (events w) ∧ place w0 = place w.
Proof.
  unfold preempt. destruct (dct !! addr); eexists; (split; [reflexivity|]); cbn;
    rewrite ?length_insert; auto 10.
Qed.

Lemma write_request (c : Constants) (w : World) (addr : Addr) (data : list byte)
    (fname : string) :
  wf_facts c → is_request (WRQ_MODE c) data fname "octet" →
  ∃ w0, _parse_pkt c data addr w =
          (Ok tt,
           write_started w0 addr
             {| filename := fname; block_num := 0; timer := length (events w);
                is_done := None |}
             (ACK_dgram c 0) true)
        ∧ files w0 = files w ∧ wire w0 = wire w ∧ self_sock w0 = self_sock w
        ∧ reads w0 = reads w ∧ writes w0 = writes w ∧ waiting w0 = waiting w
        ∧ length (events w0) = length (events w) ∧ place w0 = place w.
Proof.
  intros Hc Hreq.
  destruct (preempt_frame (writes w) addr w) as (w0 & Hp & Hrest).
  exists w0. split; [|exact Hrest].
  rewrite (_parse_pkt_WRQ c w addr data fname "octet" Hc Hreq).
  erewrite bind_Ok by apply _validate_mode_octet.
  erewrite bind_Ok by reflexivity.
  erewrite bind_Ok by exact Hp.
  rewrite _handle_WRQ_request by assumption.
  destruct Hrest as (_ & _ & _ & _ & _ & _ & Hlen & _). now rewrite Hlen.
Qed.

(** X10: a write request in mode octet is always accepted, whether or not
    the file exists and whether or not the peer already has a write context:
    the server sends ACK(0), stores for the peer a context at block 0 with a
    new Event, and the thread stays to retransmit that ACK; no file is
    created or changed by the request itself, and the read table is left
    alone. *)
Theorem write_request_accepted (c : Constants) (w : World) (addr : Addr) (data : list byte)
    (fname : string) :
  wf_constants c = true → is_request (WRQ_MODE c) data fname "octet" →
  let w' := Thread c data addr w in
  let tm := length (events w) in
  (_parse_pkt c data addr w).1 = Ok tt
  ∧ wire w' = wire w ++ [(self_sock w, ACK_dgram c 0, addr)]
  ∧ writes w' = <[addr := {| filename := fname; block_num := 0; timer := tm;
                              is_done := None |}]> (writes w)
  ∧ live w' tm {| w_frame := InWRQ; w_pkt := ACK_dgram c 0; w_addr := addr |}
  ∧ files w' = files w ∧ reads w' = reads w.
Proof.
  intros Hwf Hreq. apply wf_constants_facts in Hwf as Hc. cbn zeta.
  destruct (write_request c w addr data fname Hc Hreq)
    as (w0 & E & Hf & Hw & Hs & Hr & Hwr & Hwt & Hlen & _).
  unfold Thread. rewrite E. cbn [fst snd].
  unfold write_started. cbn [wire writes files reads timer].
  rewrite Hf, Hw, Hs, Hr, Hwr. repeat split.
  - cbn. apply lookup_insert_eq.
  - rewrite <- Hlen. now apply is_set_new.
Qed.

Lemma written_first (c : Constants) (buf : list byte) : written c 1 buf = buf.
Proof. unfold written. destruct buf; reflexivity. Qed.

Lemma recvfrom_all (c : Constants) (data : list byte) :
  Z.of_nat (length data) <= MAX_BYTES c → recvfrom c data = data.
Proof. intros H. unfold recvfrom. apply take_ge. lia. Qed.

Lemma recvfrom_DATA (c : Constants) (n : Z) (buf : list byte) :
  4 <= MAX_BYTES c →
  recvfrom c (DATA_dgram c n buf) = DATA_dgram c n (take (Z.to_nat (MAX_BYTES c - 4)) buf).
Proof.
  intros Hmb. unfold recvfrom.
  replace (Z.to_nat (MAX_BYTES c)) with (4 + Z.to_nat (MAX_BYTES c - 4))%nat by lia.
  reflexivity.
Qed.

Lemma run_server_Thread (c : Constants) (data : list byte) (addr : Addr) (w : World) :
  data ≠ [] → Z.of_nat (length data) <= MAX_BYTES c →
  run_server c data addr w = Thread c data addr w.
Proof.
  intros Hne Hlen. unfold run_server. rewrite recvfrom_all by assumption.
  destruct data; [congruence|reflexivity].
Qed.

Lemma run_server_DATA (c : Constants) (n : Z) (buf : list byte) (addr : Addr) (w : World) :
  4 <= MAX_BYTES c →
  run_server c (DATA_dgram c n buf) addr w
  = Thread c (DATA_dgram c n (take (Z.to_nat (MAX_BYTES c - 4)) buf)) addr w.
Proof. intros Hmb. unfold run_server. now rewrite recvfrom_DATA. Qed.

Lemma is_request_nonempty (op : Z) (data : list byte) (fname mode : string) :
  is_request op data fname mode → data ≠ [].
Proof. intros [H _] ->. discriminate. Qed.

(** X11: a write of one block works.  After a write request and a DATA(1)
    from the same peer, for a file that [open(..., 'wb')] opens, the server
    has sent ACK(0) and ACK(1) and the file holds exactly the payload of that
    DATA as the receive loop passed it on, which is its first
    [MAX_BYTES - 4] bytes (an empty file for an empty payload), whatever the
    file held before; the thread that was retransmitting ACK(0) has its Event
    set. *)
Theorem single_block_write (c : Constants) (w : World) (addr : Addr) (wrq : list byte)
    (fname : string) (buf : list byte) :
  wf_constants c = true → 4 <= MAX_BYTES c → Z.of_nat (length wrq) <= MAX_BYTES c →
  is_request (WRQ_MODE c) wrq fname "octet" → place w fname = Plain →
  let w' := run c [Datagram wrq addr; Datagram (DATA_dgram c 1 buf) addr] w in
  files w' !! fname = Some (take (Z.to_nat (MAX_BYTES c - 4)) buf)
  ∧ wire w' = wire w ++ [(self_sock w, ACK_dgram c 0, addr); (self_sock w, ACK_dgram c 1, addr)]
  ∧ is_set w' (length (events w)) = true
  ∧ block_num <$> writes w' !! addr = Some 1.
Proof.
  intros Hwf Hmb Hlen Hreq Hp. apply wf_constants_facts in Hwf as Hc. cbn zeta.
  remember (take (Z.to_nat (MAX_BYTES c - 4)) buf) as kept eqn:Hkept.
  destruct (write_request c w addr wrq fname Hc Hreq)
    as (w0 & E & Hf & Hw & Hs & Hr & Hwr & Hwt & Hlen0 & Hpl).
  set (fc := {| filename := fname; block_num := 0; timer := length (events w);
                is_done := None |}) in *.
  assert (Hfc : writes (write_started w0 addr fc (ACK_dgram c 0) true) !! addr = Some fc)
    by (cbn; apply lookup_insert_eq).
  assert (Hp0 : place (write_started w0 addr fc (ACK_dgram c 0) true) (filename fc) = Plain)
    by (cbn; now rewrite Hpl).
  pose proof (data_accepted c _ addr fc kept Hc Hfc (Z.le_refl 0) eq_refl Hp0) as E1.
  change (block_num fc + 1) with 1 in E1.
  assert (Ew : run c [Datagram wrq addr; Datagram (DATA_dgram c 1 buf) addr] w
               = (_parse_pkt c (DATA_dgram c 1 kept) addr
                    (write_started w0 addr fc (ACK_dgram c 0) true)).2).
  { unfold run. cbn [foldl step].
    rewrite (run_server_Thread c wrq) by (eauto using is_request_nonempty).
    rewrite run_server_DATA by assumption. rewrite <- Hkept.
    unfold Thread. now rewrite E. }
  rewrite Ew, E1. cbn [snd]. subst fc.
  unfold write_started, stored, cancelled, set_files, set_events, is_set.
  cbn [files wire writes events self_sock filename timer].
  rewrite written_first, Hw, Hs. repeat split.
  - apply lookup_insert_eq.
  - now rewrite <- app_assoc.
  - rewrite lookup_app_l by (rewrite length_insert, length_app; cbn; lia).
    rewrite <- Hlen0. rewrite list_lookup_insert_eq by (rewrite length_app; cbn; lia).
    reflexivity.
  - now rewrite lookup_insert_eq.
Qed.

(** ** Read transfers of any length *)

Lemma nth_block_S (c : Constants) (content : list byte) (j : nat) :
  0 <= MAX_BYTES c →
  nth_block c content (Z.of_nat (S j))
  = take (Z.to_nat (MAX_BYTES c)) (drop (j * Z.to_nat (MAX_BYTES c)) content).
Proof.
  intros Hmb. unfold nth_block. do 2 f_equal.
  replace (Z.of_nat (S j) - 1) with (Z.of_nat j) by lia.
  rewrite Z2Nat.inj_mul by lia. now rewrite Nat2Z.id.
Qed.

Lemma concat_blocks (c : Constants) (content : list byte) (n : nat) :
  0 <= MAX_BYTES c →
  concat (map (λ j : nat, nth_block c content (Z.of_nat j)) (seq 1 n))
  = take (n * Z.to_nat (MAX_BYTES c)) content.
Proof.
  intros Hmb. induction n as [|n IH]; [reflexivity|].
  rewrite seq_S, map_app, concat_app, IH. cbn [map concat Nat.add].
  rewrite app_nil_r, nth_block_S by assumption.
  rewrite take_take_drop. f_equal. lia.
Qed.

(** X12: a read delivers the file.  For a file of any length, served to a
    peer that acknowledges every DATA in sequence, the server sends the DATA
    packets of blocks [1 .. k+1], where [k] is the number of whole blocks in
    the file ([k + 1 <= 32767]); the payloads, put together in order, are the
    content of the file; and the context ends at block [k + 1] with its
    completion flag set. *)
Theorem read_delivers_file (c : Constants) (w : World) (addr : Addr) (rrq : list byte)
    (fname : string) (content : list byte) :
  wf_constants c = true → is_request (RRQ_MODE c) rrq fname "octet" →
  files w !! fname = Some content →
  let k := Z.to_nat (Z.of_nat (length content) / MAX_BYTES c) in
  Z.of_nat k + 1 <= 32767 →
  let w' := serve c addr (rrq :: acks c (S k)) w in
  wire w' = wire w ++ blocks_sent c (self_sock w) addr content (S k)
  ∧ concat (map (λ j : nat, nth_block c content (Z.of_nat j)) (seq 1 (S k))) = content
  ∧ reading w' addr fname (Z.of_nat (S k)) true.
Proof.
  intros Hwf Hreq Hf k Hmax. apply wf_constants_facts in Hwf as Hc.
  pose proof (wf_MAX_BYTES c Hc) as Hmb.
  assert (Hdiv : 0 <= Z.of_nat (length content) / MAX_BYTES c) by (apply Z.div_pos; lia).
  assert (Hk : Z.of_nat k = Z.of_nat (length content) / MAX_BYTES c) by (subst k; lia).
  assert (Hlo : Z.of_nat k * MAX_BYTES c <= Z.of_nat (length content)).
  { rewrite Hk, Z.mul_comm. apply Z.mul_div_le. lia. }
  assert (Hhi : Z.of_nat (length content) < (Z.of_nat k + 1) * MAX_BYTES c).
  { rewrite Hk. pose proof (Z.mod_pos_bound (Z.of_nat (length content)) (MAX_BYTES c) Hmb).
    pose proof (Z.div_mod (Z.of_nat (length content)) (MAX_BYTES c)). lia. }
  destruct (read_progress c w addr rrq fname content k Hc Hreq Hf Hlo) as ((tm & Hctx) & Hwire & _);
    [lia|].
  assert (Hshort : (Z.of_nat (length (nth_block c content (Z.of_nat (S k)))) <? MAX_BYTES c)
                   = true).
  { apply Z.ltb_lt. rewrite nth_block_S by lia. rewrite length_take, length_drop.
    assert (Z.of_nat (k * Z.to_nat (MAX_BYTES c)) = Z.of_nat k * MAX_BYTES c)
      by (rewrite Nat2Z.inj_mul, Z2Nat.id; lia).
    lia. }
  rewrite Hshort in Hctx. cbn zeta. split; [|split].
  - rewrite acks_S, app_comm_cons, serve_snoc. unfold Thread.
    pose proof (ack_final c _ addr _ Hc Hctx eq_refl) as E.
    cbn [block_num timer] in E. rewrite E by (apply int16_ok_small; lia).
    exact Hwire.
  - rewrite concat_blocks by lia. apply take_ge.
    assert (Z.of_nat (S k * Z.to_nat (MAX_BYTES c)) = (Z.of_nat k + 1) * MAX_BYTES c)
      by (rewrite Nat2Z.inj_mul, Z2Nat.id; lia).
    lia.
  - rewrite acks_S, app_comm_cons, serve_snoc. unfold Thread.
    pose proof (ack_final c _ addr _ Hc Hctx eq_refl) as E.
    cbn [block_num timer] in E. rewrite E by (apply int16_ok_small; lia).
    exists tm. exact Hctx.
Qed.

(** ** The receive loop *)

(** X13: the receive loop hands a handler at most [MAX_BYTES] bytes of a
    datagram: of a DATA packet only the first [MAX_BYTES - 4] payload bytes
    reach [_handle_DATA], the rest is dropped without notice; an empty
    datagram starts no thread. *)
Theorem run_server_truncates (c : Constants) (w : World) (addr : Addr) (n : Z)
    (buf : list byte) :
  4 <= MAX_BYTES c →
  run_server c (DATA_dgram c n buf) addr w
    = Thread c (DATA_dgram c n (take (Z.to_nat (MAX_BYTES c - 4)) buf)) addr w
  ∧ run_server c [] addr w = w.
Proof.
  intros Hmb. split.
  - unfold run_server, recvfrom.
    replace (Z.to_nat (MAX_BYTES c)) with (4 + Z.to_nat (MAX_BYTES c - 4))%nat by lia.
    reflexivity.
  - unfold run_server, recvfrom. now rewrite take_nil.
Qed.

(** ** What every handler keeps *)

Lemma keeps_bind {A B : Type} (I : World → Prop) (m : M A) (k : A → M B) :
  keeps I m → (∀ a, keeps I (k a)) → keeps I (m ≫= k).
Proof.
  intros Hm Hk w Hw. specialize (Hm w Hw). unfold mbind, M_bind.
  destruct (m w) as [[a|e] w']; [exact (Hk a w' Hm)|exact Hm].
Qed.

(** The same when the continuation may use a fact [P] about the value. *)
Lemma keeps_bind_with {A B : Type} (I : World → Prop) (P : A → Prop) (m : M A)
    (k : A → M B) :
  (∀ w, I w → match m w with (Ok a, w') => I w' ∧ P a | (Raise _, w') => I w' end) →
  (∀ a, P a → keeps I (k a)) → keeps I (m ≫= k).
Proof.
  intros Hm Hk w Hw. specialize (Hm w Hw). unfold mbind, M_bind.
  destruct (m w) as [[a|e] w']; [|exact Hm]. destruct Hm as [Hw' Ha]. exact (Hk a Ha w' Hw').
Qed.

Lemma keeps_mret {A : Type} (I : World → Prop) (a : A) : keeps I (mret a).
Proof. intros w Hw. exact Hw. Qed.

Lemma keeps_raise {A : Type} (I : World → Prop) (e : exn) : keeps I (raise e : M A).
Proof. intros w Hw. exact Hw. Qed.

Lemma keeps_lift {A : Type} (I : World → Prop) (r : res A) : keeps I (lift r).
Proof. intros w Hw. exact Hw. Qed.

Lemma keeps_gets {A : Type} (I : World → Prop) (f : World → A) : keeps I (gets f).
Proof. intros w Hw. exact Hw. Qed.

Lemma _DATA_Ok_int16 (c : Constants) (n : Z) (buf pkt : list byte) :
  _DATA c n buf = Ok pkt → int16_ok n = true.
Proof.
  unfold _DATA, struct_pack_hh. destruct (int16_ok (DATA_MODE c)); [|discriminate].
  destruct (int16_ok n); [reflexivity|discriminate].
Qed.

Lemma _ACK_Ok_int16 (c : Constants) (n : Z) (pkt : list byte) :
  _ACK c n = Ok pkt → int16_ok n = true.
Proof.
  unfold _ACK, struct_pack_hh. destruct (int16_ok (ACK_MODE c)); [|discriminate].
  destruct (int16_ok n); [reflexivity|discriminate].
Qed.

Section Keeps.

Variable c : Constants.
Variable addr : Addr.
Variable I : World → Prop.
Variables E T : nat → Prop.
Hypothesis Gd : guarded addr E T I.

(** The files a handler may write without breaking [I]. *)
Variable F : string → Prop.
Hypothesis Sf : ∀ name x w, F name → I w → I (set_files (λ fs, <[name := x]> fs) w).

Lemma keeps_file_read (name : string) (offset size : Z) : keeps I (file_read name offset size).
Proof.
  intros w Hw. unfold file_read. destruct (files w !! name); [|exact Hw].
  destruct (offset <? 0); exact Hw.
Qed.

Lemma keeps_file_write (name : string) (offset : Z) (buf : option (list byte)) :
  F name → keeps I (file_write name offset buf).
Proof.
  intros HF w Hw. unfold file_write.
  destruct (refused (place w name)); [exact Hw|].
  destruct (offset <? 0); [now apply Sf|].
  destruct buf as [[|b buf]|]; cbn [snd]; repeat apply Sf; assumption.
Qed.

Lemma keeps_Event_new (w : World) :
  I w → match Event_new w with
        | (Ok tm, w') => I w' ∧ T tm
        | (Raise _, w') => I w'
        end.
Proof. intros Hw. cbn. destruct (gd_new addr E T I Gd w Hw). now split. Qed.

Lemma keeps_Event_set (e : nat) : E e → keeps I (Event_set e).
Proof. intros He w Hw. now apply (gd_cancel addr E T I Gd). Qed.

Lemma keeps_transmit (pkt : list byte) : keeps I (_transmit pkt addr).
Proof. intros w Hw. apply (gd_send addr E T I Gd (self_sock w) pkt w); auto. Qed.

Lemma keeps_wait_loop (fr : Frame) (tm : nat) (pkt : list byte) :
  T tm → keeps I (wait_loop fr tm pkt addr).
Proof. intros Ht w Hw. now apply (gd_wait addr E T I Gd). Qed.

Lemma keeps_handle_ERROR (code : Z) (msg : string) : keeps I (_handle_ERROR c addr code msg).
Proof.
  intros w Hw. unfold _handle_ERROR, mbind, M_bind, lift, gets.
  destruct (_ERROR c code msg) as [pkt|e]; [|exact Hw].
  destruct (global_sock w) as [g|] eqn:Eg; [|exact Hw].
  apply (gd_send addr E T I Gd g pkt w); auto.
Qed.

Lemma keeps_error_exit (code : Z) (msg : string) :
  keeps I (_handle_ERROR c addr code msg;; raise SystemExit : M unit).
Proof. apply keeps_bind; [apply keeps_handle_ERROR|intros ?; apply keeps_raise]. Qed.

Lemma keeps_validate_mode (mode : string) : keeps I (_validate_mode c addr mode).
Proof.
  unfold _validate_mode. destruct (bool_decide _); [apply keeps_error_exit|apply keeps_mret].
Qed.

Lemma keeps_validate_file (fname : string) : keeps I (_validate_file c addr fname).
Proof.
  unfold _validate_file, path_exists. apply keeps_bind; [apply keeps_gets|].
  intros ex. destruct (negb ex); [apply keeps_error_exit|apply keeps_mret].
Qed.

Lemma keeps_validate_tid (dct : gmap Addr FileContext) : keeps I (_validate_tid c addr dct).
Proof.
  unfold _validate_tid. destruct (bool_decide _); [apply keeps_error_exit|apply keeps_mret].
Qed.

(** Of the table read by [self.reads] or [self.writes], the Event of the
    context it has for [addr] may be set. *)
Lemma keeps_gets_reads (w : World) :
  I w → match gets reads w with
        | (Ok rs, w') => I w' ∧ ∀ fc, rs !! addr = Some fc → E (timer fc)
        | (Raise _, w') => I w'
        end.
Proof. intros Hw. cbn. split; [exact Hw|]. intros fc. now apply (gd_reads_timer addr E T I Gd). Qed.

Lemma keeps_gets_writes (w : World) :
  I w → match gets writes w with
        | (Ok ws, w') => I w' ∧ ∀ fc, ws !! addr = Some fc → E (timer fc)
        | (Raise _, w') => I w'
        end.
Proof. intros Hw. cbn. split; [exact Hw|]. intros fc. now apply (gd_writes_timer addr E T I Gd). Qed.

Lemma keeps_preempt (dct : gmap Addr FileContext) :
  (∀ fc, dct !! addr = Some fc → E (timer fc)) → keeps I (preempt dct addr).
Proof.
  intros Hd. unfold preempt. destruct (dct !! addr) as [fc|] eqn:Efc; [|apply keeps_mret].
  apply keeps_Event_set. now apply Hd.
Qed.

Lemma keeps_getitem (dct : gmap Addr FileContext) (w : World) :
  (∀ fc, dct !! addr = Some fc → E (timer fc)) →
  I w → match getitem dct addr w with
        | (Ok fc, w') => I w' ∧ E (timer fc)
        | (Raise _, w') => I w'
        end.
Proof.
  intros Hd Hw. unfold getitem. destruct (dct !! addr) as [fc|] eqn:Efc; cbn; [|exact Hw].
  split; [exact Hw|]. now apply Hd.
Qed.

Lemma keeps_handle_RRQ (fname : string) (n : Z) : keeps I (_handle_RRQ c addr fname n).
Proof.
  unfold _handle_RRQ. apply keeps_bind; [apply keeps_file_read|]. intros buf. cbn zeta.
  apply (keeps_bind_with I (λ pkt, _DATA c n buf = Ok pkt)).
  { intros w Hw. unfold lift. destruct (_DATA c n buf); auto. }
  intros pkt Hpkt. apply _DATA_Ok_int16 in Hpkt.
  apply (keeps_bind_with I T); [apply keeps_Event_new|]. intros tm Htm.
  apply keeps_bind.
  { intros w Hw. apply (gd_reads addr E T I Gd); cbn; eauto. }
  intros ?. apply keeps_bind; [apply keeps_transmit|]. intros ?. now apply keeps_wait_loop.
Qed.

(** [_handle_WRQ] writes its file only for a block number above zero. *)
Lemma keeps_handle_WRQ (fname : string) (n : Z) (buf : option (list byte)) :
  (0 < n → F fname) → keeps I (_handle_WRQ c addr fname n buf).
Proof.
  intros HF. unfold _handle_WRQ. apply keeps_bind.
  { destruct (Z.ltb_spec 0 n); [|apply keeps_mret].
    apply keeps_bind; [apply keeps_file_write; auto|intros ?; apply keeps_mret]. }
  intros done.
  apply (keeps_bind_with I (λ pkt, _ACK c n = Ok pkt)).
  { intros w Hw. unfold lift. destruct (_ACK c n); auto. }
  intros pkt Hpkt. apply _ACK_Ok_int16 in Hpkt.
  apply (keeps_bind_with I T); [apply keeps_Event_new|]. intros tm Htm.
  apply keeps_bind.
  { intros w Hw. apply (gd_writes addr E T I Gd); cbn; eauto. }
  intros ?. apply keeps_bind; [apply keeps_transmit|]. intros ?.
  destruct (negb done); [now apply keeps_wait_loop|apply keeps_mret].
Qed.

Lemma keeps_handle_ACK (n : Z) : keeps I (_handle_ACK c addr n).
Proof.
  unfold _handle_ACK.
  apply keeps_bind; [apply keeps_gets|]. intros rs.
  apply keeps_bind; [apply keeps_validate_tid|]. intros ?.
  apply (keeps_bind_with I (λ dct, ∀ fc, dct !! addr = Some fc → E (timer fc))); [apply keeps_gets_reads|]. intros rs' Hrs.
  apply (keeps_bind_with I (λ fc, E (timer fc))); [intros w; now apply keeps_getitem|].
  intros fc Hfc.
  destruct (block_num fc =? n); [|apply keeps_mret].
  apply keeps_bind; [now apply keeps_Event_set|]. intros ?.
  destruct (negb (truthy (is_done fc))); [apply keeps_handle_RRQ|apply keeps_mret].
Qed.

Lemma keeps_handle_DATA (n : Z) (buf : list byte) :
  (∀ name, F name) → keeps I (_handle_DATA c addr n buf).
Proof.
  intros HF. unfold _handle_DATA.
  apply keeps_bind; [apply keeps_gets|]. intros ws.
  apply keeps_bind; [apply keeps_validate_tid|]. intros ?.
  apply (keeps_bind_with I (λ dct, ∀ fc, dct !! addr = Some fc → E (timer fc))); [apply keeps_gets_writes|]. intros ws' Hws.
  apply (keeps_bind_with I (λ fc, E (timer fc))); [intros w; now apply keeps_getitem|].
  intros fc Hfc.
  destruct (block_num fc + 1 =? n); [|apply keeps_mret].
  apply keeps_bind; [now apply keeps_Event_set|]. intros ?. apply keeps_handle_WRQ. auto.
Qed.

(** The three branches of the dispatcher that end in [_handle_RRQ],
    [_handle_WRQ] at block 0, or [_handle_ACK]: no file is written. *)
Lemma keeps_RRQ_branch (rest : list byte) :
  keeps I (fm ← lift (_parse_init_request rest);
           _validate_mode c addr fm.2;;
           _validate_file c addr fm.1;;
           rs ← gets reads;
           preempt rs addr;;
           _handle_RRQ c addr fm.1 1).
Proof.
  apply keeps_bind; [apply keeps_lift|]. intros fm.
  apply keeps_bind; [apply keeps_validate_mode|]. intros ?.
  apply keeps_bind; [apply keeps_validate_file|]. intros ?.
  apply (keeps_bind_with I (λ dct, ∀ fc, dct !! addr = Some fc → E (timer fc))); [apply keeps_gets_reads|]. intros rs Hrs.
  apply keeps_bind; [now apply keeps_preempt|]. intros ?. apply keeps_handle_RRQ.
Qed.

Lemma keeps_WRQ_branch (rest : list byte) :
  keeps I (fm ← lift (_parse_init_request rest);
           _validate_mode c addr fm.2;;
           ws ← gets writes;
           preempt ws addr;;
           _handle_WRQ c addr fm.1 0 None).
Proof.
  apply keeps_bind; [apply keeps_lift|]. intros fm.
  apply keeps_bind; [apply keeps_validate_mode|]. intros ?.
  apply (keeps_bind_with I (λ dct, ∀ fc, dct !! addr = Some fc → E (timer fc))); [apply keeps_gets_writes|]. intros ws Hws.
  apply keeps_bind; [now apply keeps_preempt|]. intros ?. apply keeps_handle_WRQ. lia.
Qed.

Lemma keeps_ACK_branch (rest : list byte) :
  keeps I (bnum ← lift (struct_unpack_h rest); _handle_ACK c addr bnum).
Proof. apply keeps_bind; [apply keeps_lift|]. intros bnum. apply keeps_handle_ACK. Qed.

Lemma keeps_parse_pkt (data : list byte) :
  (∀ name, F name) → keeps I (_parse_pkt c data addr).
Proof.
  intros HF. unfold _parse_pkt. apply keeps_bind; [apply keeps_lift|]. intros mode. cbn zeta.
  destruct (mode =? RRQ_MODE c); [apply keeps_RRQ_branch|].
  destruct (mode =? WRQ_MODE c); [apply keeps_WRQ_branch|].
  destruct (mode =? ACK_MODE c); [apply keeps_ACK_branch|].
  destruct (mode =? DATA_MODE c).
  { apply keeps_bind; [apply keeps_lift|]. intros bnum. now apply keeps_handle_DATA. }
  apply keeps_handle_ERROR.
Qed.

End Keeps.

Lemma stable_guarded (addr : Addr) (I : World → Prop) :
  stable addr I → guarded addr (λ _, True) (λ _, True) I.
Proof.
  intros St. split; try (intros; exact Logic.I).
  - intros e w _. apply (st_cancel addr I St).
  - intros w Hw. split; [exact Logic.I|now apply (st_new addr I St)].
  - intros fc w Hd Hi _. now apply (st_reads addr I St).
  - intros fc w Hd Hi _. now apply (st_writes addr I St).
  - intros tm fr pkt w _. apply (st_wait addr I St).
  - apply (st_send addr I St).
Qed.

(** A handler keeps whatever is stable and does not depend on the files. *)
Lemma keeps_Thread (c : Constants) (addr : Addr) (I : World → Prop) (data : list byte)
    (w : World) :
  stable addr I → blind_to_files I → I w → I (Thread c data addr w).
Proof.
  intros St Bf Hw.
  exact (keeps_parse_pkt c addr I (λ _, True) (λ _, True) (stable_guarded addr I St)
           (λ _, True) (λ name x w0 _, Bf name x w0) data (λ _, Logic.I) w Hw).
Qed.

(** *** Four things that are kept *)

Lemma stable_is_set (addr : Addr) (e : nat) : stable addr (λ w, is_set w e = true).
Proof.
  split; try (intros; assumption).
  - intros e' w. unfold is_set, cancelled. cbn.
    destruct (events w !! e) as [b|] eqn:E; [|discriminate]. intros ->.
    destruct (decide (e = e')) as [<-|Hne].
    + rewrite list_lookup_insert_eq; [reflexivity|]. now apply lookup_lt_Some in E.
    + rewrite list_lookup_insert_ne by congruence. now rewrite E.
  - intros w. unfold is_set. cbn.
    destruct (events w !! e) as [b|] eqn:E; [|discriminate]. intros ->.
    rewrite lookup_app_l by (now apply lookup_lt_Some in E). now rewrite E.
Qed.

Lemma stable_sends_from (addr : Addr) (s0 : Socket) : stable addr (sends_from s0).
Proof.
  split; try (intros; assumption).
  intros s pkt w Hs (Hself & Hglob & Hall). repeat split; cbn; try assumption.
  apply Forall_app. split; [assumption|]. constructor; [|constructor]. cbn.
  destruct Hs as [->|Hs]; [assumption|congruence].
Qed.

Lemma stable_contexts_ok (addr : Addr) : stable addr contexts_ok.
Proof.
  split; try (intros; assumption).
  - intros fc w Hd Hi [Hr Hw]. split; [|exact Hw]. intros a fc'. cbn.
    destruct (decide (a = addr)) as [->|Hne].
    + rewrite lookup_insert_eq. intros [= <-]. auto.
    + rewrite lookup_insert_ne by congruence. apply Hr.
  - intros fc w Hd Hi [Hr Hw]. split; [exact Hr|]. intros a fc'. cbn.
    destruct (decide (a = addr)) as [->|Hne].
    + rewrite lookup_insert_eq. intros [= <-]. auto.
    + rewrite lookup_insert_ne by congruence. apply Hw.
Qed.

Lemma stable_untouched (addr : Addr) (w0 : World) : stable addr (untouched addr w0).
Proof.
  split; try (intros; assumption).
  - intros fc w _ _ [Htab Hwire]. split; [|exact Hwire]. intros a Ha. cbn.
    rewrite lookup_insert_ne by congruence. now apply Htab.
  - intros fc w _ _ [Htab Hwire]. split; [|exact Hwire]. intros a Ha. cbn.
    rewrite lookup_insert_ne by congruence. now apply Htab.
  - intros s pkt w _ [Htab (l & Hl & Hall)]. split; [exact Htab|].
    exists (l ++ [(s, pkt, addr)]). cbn. rewrite Hl, app_assoc. split; [reflexivity|].
    apply Forall_app. split; [assumption|]. now repeat constructor.
Qed.

Lemma untouched_refl (addr : Addr) (w : World) : untouched addr w w.
Proof. split; [auto|]. exists []. now rewrite app_nil_r. Qed.

Lemma keeps_step (c : Constants) (I : World → Prop) :
  (∀ addr, stable addr I) → blind_to_files I → (∀ tm w, I w → I (elapse tm w)) →
  ∀ ev w, I w → I (step c ev w).
Proof.
  intros St Bf Hel ev w Hw. destruct ev as [dgram addr|tm]; cbn [step]; [|now apply Hel].
  unfold run_server. destruct (recvfrom c dgram); [exact Hw|].
  now apply keeps_Thread.
Qed.

Lemma keeps_run (c : Constants) (I : World → Prop) :
  (∀ addr, stable addr I) → blind_to_files I → (∀ tm w, I w → I (elapse tm w)) →
  ∀ evs w, I w → I (run c evs w).
Proof.
  intros St Bf Hel evs. induction evs as [|ev evs IH]; intros w Hw; [exact Hw|].
  rewrite run_cons. apply IH. now apply keeps_step.
Qed.

Lemma elapse_cases (tm : nat) (w : World) :
  elapse tm w = w
  ∨ (is_set w tm = true ∧ elapse tm w = set_waiting (λ ws, delete tm ws) w)
  ∨ (∃ wt, live w tm wt ∧ elapse tm w = sent_on (self_sock w) (w_pkt wt) (w_addr wt) w).
Proof.
  unfold elapse. destruct (waiting w !! tm) as [wt|] eqn:E; [|now left].
  destruct (is_set w tm) eqn:Es; [right; left; auto|].
  right. right. exists wt. split; [split; assumption|reflexivity].
Qed.

Lemma elapse_is_set (e tm : nat) (w : World) : is_set (elapse tm w) e = is_set w e.
Proof.
  destruct (elapse_cases tm w) as [->|[[_ ->]|(wt & _ & ->)]]; reflexivity.
Qed.

(** X14: an Event that is set stays set, whatever arrives and however many
    timeouts elapse afterwards (no handler clears one), and the thread that
    waited on it never transmits again: when its wait ends it leaves the
    loop without sending. *)
Theorem cancelled_stays_cancelled (c : Constants) (w : World) (tm : nat) (evs : list event) :
  is_set w tm = true →
  let w' := run c evs w in
  is_set w' tm = true ∧ wire (step c (Elapse tm) w') = wire w'.
Proof.
  intros Hs. cbn zeta.
  assert (Hs' : is_set (run c evs w) tm = true).
  { apply (keeps_run c (λ w, is_set w tm = true)); [| | |exact Hs].
    - intros addr. apply stable_is_set.
    - intros name x w0 H. exact H.
    - intros tm' w0. now rewrite elapse_is_set. }
  split; [exact Hs'|]. cbn [step].
  destruct (elapse_cases tm (run c evs w)) as [->|[[_ ->]|(wt & [_ Hl] & _)]];
    [reflexivity|reflexivity|congruence].
Qed.

(** X15: in the running server every packet, replies to errors included,
    has gone out on the server's own socket. *)
Theorem all_sent_from_server_socket (c : Constants) (w : World) :
  reachable c w → Forall (λ x : Sent, x.1.1 = self_sock w) (wire w).
Proof.
  intros Hr.
  assert (H : ∃ s0, sends_from s0 w).
  { induction Hr as [s fs|w ev _ [s0 IH]].
    - exists s. repeat split. constructor.
    - exists s0. apply (keeps_step c (sends_from s0)); [| | |exact IH].
      + intros addr. apply stable_sends_from.
      + intros name x w0 H. exact H.
      + intros tm w0 (Hself & Hglob & Hall).
        destruct (elapse_cases tm w0) as [->|[[_ ->]|(wt & _ & ->)]];
          repeat split; cbn; try assumption.
        apply Forall_app. split; [assumption|]. now repeat constructor. }
  destruct H as (s0 & Hself & _ & Hall). now rewrite Hself.
Qed.

(** X16: in the running server every stored read context has a completion
    flag, no stored write context has one, and every stored block number
    lies within the signed 16-bit range. *)
Theorem stored_contexts_well_formed (c : Constants) (w : World) :
  reachable c w → contexts_ok w.
Proof.
  induction 1 as [s fs|w ev _ IH].
  - split; intros a fc H; cbn in H; rewrite lookup_empty in H; discriminate.
  - apply (keeps_step c contexts_ok); [| | |exact IH].
    + intros addr. apply stable_contexts_ok.
    + intros name x w0 H. exact H.
    + intros tm w0 Hw0.
      destruct (elapse_cases tm w0) as [->|[[_ ->]|(wt & _ & ->)]]; exact Hw0.
Qed.

(** X17: whatever a peer sends, and in whatever state the server is, the
    handling of that datagram leaves the read and write contexts of every
    other peer as they are and sends packets to that peer only. *)
Theorem other_peers_untouched (c : Constants) (w : World) (dgram : list byte) (addr : Addr) :
  let w' := step c (Datagram dgram addr) w in
  (∀ a, a ≠ addr → reads w' !! a = reads w !! a ∧ writes w' !! a = writes w !! a)
  ∧ ∃ l, wire w' = wire w ++ l ∧ Forall (λ x : Sent, x.2 = addr) l.
Proof.
  cbn zeta. cbn [step]. unfold run_server.
  destruct (recvfrom c dgram) as [|b data]; [apply untouched_refl|].
  apply keeps_Thread; [apply stable_untouched| |apply untouched_refl].
  intros name x w0 H. exact H.
Qed.

(** ** Which packets change a file *)

Lemma stable_file (addr : Addr) (name : string) (o : option (list byte)) :
  stable addr (λ w, files w !! name = o).
Proof. split; intros; assumption. Qed.

Lemma other_file (name : string) (o : option (list byte)) (nm : string) (x : list byte)
    (w : World) :
  nm ≠ name → files w !! name = o → files (set_files (λ fs, <[nm := x]> fs) w) !! name = o.
Proof. intros Hne H. cbn. now rewrite lookup_insert_ne. Qed.

Lemma _handle_DATA_files (c : Constants) (addr : Addr) (name : string) (n : Z)
    (buf : list byte) (w : World) :
  (∀ fc, writes w !! addr = Some fc → block_num fc + 1 = n → filename fc ≠ name) →
  files (_handle_DATA c addr n buf w).2 !! name = files w !! name.
Proof.
  intros Hfc.
  pose proof (stable_file addr name (files w !! name)) as St.
  destruct (writes w !! addr) as [fc|] eqn:E.
  - rewrite (_handle_DATA_known c w addr n buf fc E).
    destruct (Z.eqb_spec (block_num fc + 1) n) as [Hn|Hn]; [|reflexivity].
    apply (keeps_handle_WRQ c addr _ _ _ (stable_guarded addr _ St)
             (λ nm, nm ≠ name) (other_file name _)).
    + intros _. now apply Hfc.
    + reflexivity.
  - rewrite (_handle_DATA_unknown c w addr n buf E).
    now apply (keeps_error_exit c addr _ _ _ (stable_guarded addr _ St)).
Qed.

(** X18: only a DATA packet can change a file.  Handling a datagram leaves
    every file as it is (none is created, emptied or written) unless the
    datagram is a DATA packet, its sender has a write context and its block
    number is the one after the context's; then the only file that can change
    is the one named in that context.  In particular a write request does
    not create its file, and a read request or an ACK changes none. *)
Theorem only_data_changes_files (c : Constants) (w : World) (data : list byte) (addr : Addr)
    (name : string) :
  files (Thread c data addr w) !! name = files w !! name
  ∨ (struct_unpack_h (take 2 data) = Ok (DATA_MODE c)
     ∧ ∃ fc, writes w !! addr = Some fc ∧ filename fc = name
             ∧ struct_unpack_h (take 2 (drop 2 data)) = Ok (block_num fc + 1)).
Proof.
  pose proof (stable_file addr name (files w !! name)) as St.
  pose proof (λ nm x w' (H : False), match H return
      files w' !! name = files w !! name →
      files (set_files (λ fs, <[nm := x]> fs) w') !! name = files w !! name with end) as Sf.
  unfold Thread, _parse_pkt.
  destruct (struct_unpack_h (take 2 data)) as [mode|e] eqn:Em; [|now left].
  erewrite bind_Ok by reflexivity. cbn zeta.
  destruct (Z.eqb_spec mode (RRQ_MODE c)) as [_|_].
  { left. now apply (keeps_RRQ_branch c addr _ _ _ (stable_guarded addr _ St)). }
  destruct (Z.eqb_spec mode (WRQ_MODE c)) as [_|_].
  { left. now apply (keeps_WRQ_branch c addr _ _ _ (stable_guarded addr _ St) (λ _, False) Sf). }
  destruct (Z.eqb_spec mode (ACK_MODE c)) as [_|_].
  { left. now apply (keeps_ACK_branch c addr _ _ _ (stable_guarded addr _ St)). }
  destruct (Z.eqb_spec mode (DATA_MODE c)) as [->|_].
  2:{ left. now apply (keeps_handle_ERROR c addr _ _ _ (stable_guarded addr _ St)). }
  destruct (struct_unpack_h (take 2 (drop 2 data))) as [bnum|e] eqn:Eb; [|now left].
  erewrite bind_Ok by reflexivity.
  destruct (writes w !! addr) as [fc|] eqn:E.
  - destruct (decide (filename fc = name ∧ bnum = block_num fc + 1)) as [[Hn ->]|Hno].
    + right. split; [reflexivity|]. exists fc. auto.
    + left. apply _handle_DATA_files. rewrite E. intros fc' [= <-] Hb Hn. apply Hno. auto.
  - left. apply _handle_DATA_files. rewrite E. discriminate.
Qed.

(** ** What stays in the tables *)

Lemma stable_tables_grow (addr : Addr) (R W : gset Addr) :
  stable addr (λ w, R ⊆ dom (reads w) ∧ W ⊆ dom (writes w)).
Proof.
  split; try (intros; assumption).
  - intros fc w _ _ [Hr Hw]. split; [|exact Hw]. cbn. rewrite dom_insert. set_solver.
  - intros fc w _ _ [Hr Hw]. split; [exact Hr|]. cbn. rewrite dom_insert. set_solver.
Qed.

(** X19: no context is ever removed.  A peer that has a read (write) context
    keeps one, whatever arrives and however many timeouts elapse afterwards:
    a finished, failed or superseded transfer leaves its entry in the table,
    and only a new request of that peer overwrites it. *)
Theorem contexts_never_removed (c : Constants) (w : World) (evs : list event) :
  dom (reads w) ⊆ dom (reads (run c evs w))
  ∧ dom (writes w) ⊆ dom (writes (run c evs w)).
Proof.
  apply (keeps_run c (λ w', dom (reads w) ⊆ dom (reads w') ∧ dom (writes w) ⊆ dom (writes w'))).
  - intros addr. apply stable_tables_grow.
  - intros name x w0 H. exact H.
  - intros tm w0 H.
    destruct (elapse_cases tm w0) as [->|[[_ ->]|(wt & _ & ->)]]; exact H.
  - split; reflexivity.
Qed.

Lemma struct_unpack_h_max (bs : list byte) (v : Z) : struct_unpack_h bs = Ok v → v <= 32767.
Proof.
  destruct bs as [|hi [|lo [|b bs]]]; cbn; try discriminate.
  pose proof (Z_of_byte_range hi). pose proof (Z_of_byte_range lo).
  destruct (Z.ltb_spec (256 * Z_of_byte hi + Z_of_byte lo) 32768); intros [= <-]; lia.
Qed.

(** X20: a write transfer cannot pass block 32767.  Once a peer's write
    context stands at block 32767, every DATA packet of that peer is dropped:
    the block number read from the packet is a signed 16-bit value and never
    equals 32768, so nothing is written, no ACK is sent and the context stays
    as it is. *)
Theorem write_stops_at_32767 (c : Constants) (w : World) (addr : Addr) (fc : FileContext)
    (data : list byte) :
  wf_constants c = true → writes w !! addr = Some fc → block_num fc = 32767 →
  struct_unpack_h (take 2 data) = Ok (DATA_MODE c) →
  Thread c data addr w = w.
Proof.
  intros Hwf Hfc Hn Hop. apply wf_constants_facts in Hwf as Hc.
  unfold Thread, _parse_pkt.
  erewrite bind_Ok by (unfold lift; rewrite Hop; reflexivity). cbn beta zeta.
  rewrite (proj2 (Z.eqb_neq (DATA_MODE c) (RRQ_MODE c)))
    by (intros E; now apply (wf_RRQ_DATA c Hc)).
  rewrite (proj2 (Z.eqb_neq (DATA_MODE c) (WRQ_MODE c)))
    by (intros E; now apply (wf_WRQ_DATA c Hc)).
  rewrite (proj2 (Z.eqb_neq (DATA_MODE c) (ACK_MODE c)))
    by (intros E; now apply (wf_ACK_DATA c Hc)).
  rewrite Z.eqb_refl.
  destruct (struct_unpack_h (take 2 (drop 2 data))) as [bnum|e] eqn:Eb; [|reflexivity].
  erewrite bind_Ok by reflexivity.
  rewrite (_handle_DATA_known c w addr bnum _ fc Hfc).
  apply struct_unpack_h_max in Eb.
  rewrite (proj2 (Z.eqb_neq (block_num fc + 1) bnum)) by lia. reflexivity.
Qed.

(** ** Retransmission while other packets arrive *)

Lemma guarded_outstanding (a addr : Addr) (fr : Frame) (n : Z) (tm : nat) (pkt : list byte) :
  a ≠ addr →
  guarded a (λ e, e ≠ tm) (λ t, t ≠ tm) (outstanding fr addr n tm pkt).
Proof.
  intros Ha. split.
  - intros e w He [[Hw Hs] Hev Hctx Hr Hwr]. split.
    + split; [exact Hw|]. unfold is_set, cancelled. cbn.
      now rewrite list_lookup_insert_ne by congruence.
    + cbn. now rewrite length_insert.
    + destruct fr; exact Hctx.
    + exact Hr.
    + exact Hwr.
  - intros w [[Hw Hs] Hev Hctx Hr Hwr]. split; [lia|]. split.
    + split; [exact Hw|]. unfold is_set. cbn. now rewrite lookup_app_l.
    + cbn. rewrite length_app. lia.
    + destruct fr; exact Hctx.
    + exact Hr.
    + exact Hwr.
  - intros fc w _ _ Ht [[Hw Hs] Hev Hctx Hr Hwr]. split.
    + split; assumption.
    + exact Hev.
    + destruct fr; cbn in *; [|exact Hctx]. now rewrite lookup_insert_ne.
    + intros a' fc'. cbn. destruct (decide (a' = a)) as [->|Hne].
      * rewrite lookup_insert_eq. intros [= <-] E. congruence.
      * rewrite lookup_insert_ne by congruence. apply Hr.
    + exact Hwr.
  - intros fc w _ _ Ht [[Hw Hs] Hev Hctx Hr Hwr]. split.
    + split; assumption.
    + exact Hev.
    + destruct fr; cbn in *; [exact Hctx|]. now rewrite lookup_insert_ne.
    + exact Hr.
    + intros a' fc'. cbn. destruct (decide (a' = a)) as [->|Hne].
      * rewrite lookup_insert_eq. intros [= <-] E. congruence.
      * rewrite lookup_insert_ne by congruence. apply Hwr.
  - intros tm' fr' pkt' w Ht [[Hw Hs] Hev Hctx Hr Hwr]. split.
    + split; [|exact Hs]. cbn. now rewrite lookup_insert_ne by congruence.
    + exact Hev.
    + destruct fr; exact Hctx.
    + exact Hr.
    + exact Hwr.
  - intros s pkt' w _ [[Hw Hs] Hev Hctx Hr Hwr]. split.
    + split; assumption.
    + exact Hev.
    + destruct fr; exact Hctx.
    + exact Hr.
    + exact Hwr.
  - intros fc w [_ _ _ Hr _] Hfc E. destruct (Hr a fc Hfc E) as [_ ?]. congruence.
  - intros fc w [_ _ _ _ Hwr] Hfc E. destruct (Hwr a fc Hfc E) as [_ ?]. congruence.
Qed.

Lemma outstanding_set_files (fr : Frame) (addr : Addr) (n : Z) (tm : nat) (pkt : list byte)
    (f : gmap string (list byte) → gmap string (list byte)) (w : World) :
  outstanding fr addr n tm pkt w → outstanding fr addr n tm pkt (set_files f w).
Proof.
  intros [[Hw Hs] Hev Hctx Hr Hwr]. split.
  - split; assumption.
  - exact Hev.
  - destruct fr; exact Hctx.
  - exact Hr.
  - exact Hwr.
Qed.

Lemma outstanding_elapse (fr : Frame) (addr : Addr) (n : Z) (tm tm' : nat) (pkt : list byte)
    (w : World) :
  outstanding fr addr n tm pkt w → outstanding fr addr n tm pkt (elapse tm' w).
Proof.
  intros H. destruct (elapse_cases tm' w) as [->|[[Hset ->]|(wt & _ & ->)]]; [exact H| |].
  - destruct H as [[Hw Hs] Hev Hctx Hr Hwr]. split.
    + split; [|exact Hs]. cbn. rewrite lookup_delete_ne; [exact Hw|]. congruence.
    + exact Hev.
    + destruct fr; exact Hctx.
    + exact Hr.
    + exact Hwr.
  - destruct H as [[Hw Hs] Hev Hctx Hr Hwr]. split.
    + split; assumption.
    + exact Hev.
    + destruct fr; exact Hctx.
    + exact Hr.
    + exact Hwr.
Qed.

Lemma outstanding_step (c : Constants) (fr : Frame) (addr : Addr) (n : Z) (tm : nat)
    (pkt : list byte) (ev : event) (w : World) :
  wf_facts c → 4 <= MAX_BYTES c →
  outstanding fr addr n tm pkt w → unmatched c fr addr n ev →
  outstanding fr addr n tm pkt (step c ev w).
Proof.
  intros Hc Hmb Hout Hev. destruct ev as [dgram a|tm']; cbn [step].
  2:{ now apply outstanding_elapse. }
  destruct (decide (a = addr)) as [->|Ha].
  2:{ unfold run_server. destruct (recvfrom c dgram) as [|b data]; [exact Hout|].
      apply (keeps_parse_pkt c a _ _ _ (guarded_outstanding a addr fr n tm pkt Ha)
               (λ _, True) (λ name x w0 _, outstanding_set_files fr addr n tm pkt _ w0));
        [auto|exact Hout]. }
  destruct Hev as [Ha|Hsame]; [congruence|].
  destruct (out_ctx _ _ _ _ _ _ Hout) as (fc & Hfc & Hn & _).
  destruct fr; cbn [table] in Hfc.
  - destruct Hsame as (m & Hm & Hne & ->).
    rewrite run_server_Thread;
      [|discriminate|change (Z.of_nat (length (ACK_dgram c m))) with 4; lia].
    unfold Thread. rewrite (ack_ignored c w addr fc m) by (assumption || congruence).
    exact Hout.
  - destruct Hsame as (m & buf & Hm & Hne & ->).
    rewrite run_server_DATA by assumption.
    unfold Thread. rewrite (data_ignored c w addr fc m) by (assumption || congruence).
    exact Hout.
Qed.

Lemma outstanding_run (c : Constants) (fr : Frame) (addr : Addr) (n : Z) (tm : nat)
    (pkt : list byte) (evs : list event) (w : World) :
  wf_facts c → 4 <= MAX_BYTES c →
  outstanding fr addr n tm pkt w → Forall (unmatched c fr addr n) evs →
  outstanding fr addr n tm pkt (run c evs w).
Proof.
  intros Hc Hmb Hout Hevs. revert w Hout.
  induction Hevs as [|ev evs Hev _ IH]; intros w Hout; [exact Hout|].
  rewrite run_cons. apply IH. now apply outstanding_step.
Qed.

Lemma stable_self_sock (addr : Addr) (s : Socket) : stable addr (λ w, self_sock w = s).
Proof. split; intros; assumption. Qed.

Lemma run_self_sock (c : Constants) (evs : list event) (w : World) :
  self_sock (run c evs w) = self_sock w.
Proof.
  apply (keeps_run c (λ w', self_sock w' = self_sock w)).
  - intros addr. apply stable_self_sock.
  - intros name x w0 H. exact H.
  - intros tm w0 H.
    destruct (elapse_cases tm w0) as [->|[[_ ->]|(wt & _ & ->)]]; exact H.
  - reflexivity.
Qed.

Lemma called_in_consistent (c : Constants) (w : World) : called_in c w → consistent w.
Proof.
  intros (w0 & Hr & [->|[e ->]]).
  - exact (reachable_consistent c w0 Hr).
  - apply consistent_cancelled. exact (reachable_consistent c w0 Hr).
Qed.

Lemma outstanding_read_started (w : World) (addr : Addr) (fc : FileContext) (pkt : list byte) :
  consistent w → timer fc = length (events w) →
  outstanding InRRQ addr (block_num fc) (timer fc) pkt (read_started w addr fc pkt).
Proof.
  intros Hw Ht. split; cbn.
  - split; [cbn; apply lookup_insert_eq|]. rewrite Ht. now apply is_set_new.
  - rewrite length_app, Ht. cbn. lia.
  - exists fc. now rewrite lookup_insert_eq.
  - intros a fc'. destruct (decide (a = addr)) as [->|Hne]; [auto|].
    rewrite lookup_insert_ne by congruence. intros Hfc E.
    pose proof (reads_timer w Hw a fc' Hfc). lia.
  - intros a fc' Hfc E. pose proof (writes_timer w Hw a fc' Hfc). lia.
Qed.

Lemma outstanding_write_started (w : World) (addr : Addr) (fc : FileContext)
    (pkt : list byte) :
  consistent w → timer fc = length (events w) →
  outstanding InWRQ addr (block_num fc) (timer fc) pkt (write_started w addr fc pkt true).
Proof.
  intros Hw Ht. split; cbn.
  - split; [cbn; apply lookup_insert_eq|]. rewrite Ht. now apply is_set_new.
  - rewrite length_app, Ht. cbn. lia.
  - exists fc. now rewrite lookup_insert_eq.
  - intros a fc' Hfc E. pose proof (reads_timer w Hw a fc' Hfc). lia.
  - intros a fc'. destruct (decide (a = addr)) as [->|Hne]; [auto|].
    rewrite lookup_insert_ne by congruence. intros Hfc E.
    pose proof (writes_timer w Hw a fc' Hfc). lia.
Qed.

(** A blocked thread stays where it is until its Event is set: new Events
    and new waits have other numbers. *)
Lemma guarded_waits (a : Addr) (tm : nat) (wt : Waiter) :
  guarded a (λ _, True) (λ t, t ≠ tm)
    (λ w, (tm < length (events w))%nat ∧ (is_set w tm = false → waiting w !! tm = Some wt)).
Proof.
  split; try (intros; exact Logic.I).
  - intros e w _ [Hev Hw]. split; [cbn; now rewrite length_insert|].
    intros Hs. apply is_set_cancelled in Hs as [Hs _]. now apply Hw.
  - intros w [Hev Hw]. split; [lia|]. split; [cbn; rewrite length_app; lia|].
    unfold is_set. cbn. rewrite lookup_app_l by assumption. exact Hw.
  - intros fc w _ _ _ H. exact H.
  - intros fc w _ _ _ H. exact H.
  - intros tm' fr pkt w Ht [Hev Hw]. split; [exact Hev|].
    intros Hs. cbn. rewrite lookup_insert_ne by congruence. now apply Hw.
  - intros s pkt w _ H. exact H.
Qed.

Lemma waits_step (c : Constants) (tm : nat) (wt : Waiter) (ev : event) (w : World) :
  (tm < length (events w))%nat ∧ (is_set w tm = false → waiting w !! tm = Some wt) →
  (tm < length (events (step c ev w)))%nat
  ∧ (is_set (step c ev w) tm = false → waiting (step c ev w) !! tm = Some wt).
Proof.
  intros H. destruct ev as [dgram a|tm']; cbn [step].
  - unfold run_server. destruct (recvfrom c dgram) as [|b data]; [exact H|].
    apply (keeps_parse_pkt c a _ _ _ (guarded_waits a tm wt) (λ _, True));
      [intros name x w0 _ H0; exact H0|auto|exact H].
  - destruct (elapse_cases tm' w) as [->|[[Hset ->]|(wt' & _ & ->)]]; [exact H| |exact H].
    destruct H as [Hev Hw]. split; [exact Hev|].
    intros Hs. change (is_set w tm = false) in Hs. cbn.
    rewrite lookup_delete_ne; [now apply Hw|]. intros ->. congruence.
Qed.

Lemma waits_run (c : Constants) (tm : nat) (wt : Waiter) (evs : list event) (w : World) :
  (tm < length (events w))%nat → waiting w !! tm = Some wt →
  is_set (run c evs w) tm = false → live (run c evs w) tm wt.
Proof.
  intros Hev Hw Hs. split; [|exact Hs].
  assert (H : (tm < length (events (run c evs w)))%nat
              ∧ (is_set (run c evs w) tm = false → waiting (run c evs w) !! tm = Some wt)).
  { clear Hs. assert (H0 : (tm < length (events w))%nat
                           ∧ (is_set w tm = false → waiting w !! tm = Some wt)) by auto.
    clear Hev Hw. revert w H0. induction evs as [|ev evs IH]; intros w H0; [exact H0|].
    rewrite run_cons. apply IH. now apply waits_step. }
  now apply H.
Qed.

Lemma outstanding_retransmits (c : Constants) (fr : Frame) (addr : Addr) (n : Z) (tm : nat)
    (pkt : list byte) (w w1 : World) :
  wf_facts c → 4 <= MAX_BYTES c →
  self_sock w1 = self_sock w → wire w1 = wire w ++ [(self_sock w, pkt, addr)] →
  outstanding fr addr n tm pkt w1 →
  retransmits c fr addr n tm pkt w (Ok tt, w1).
Proof.
  intros Hc Hmb Hs Hwire Hout. exists w1. split; [reflexivity|]. split; [exact Hwire|].
  split.
  - intros evs Hevs.
    pose proof (outstanding_run c fr addr n tm pkt evs w1 Hc Hmb Hout Hevs) as Hout'.
    apply (out_live _ _ _ _ _ _ Hout').
  - intros evs Hset. cbn zeta.
    assert (Hl : live (run c evs w1) tm {| w_frame := fr; w_pkt := pkt; w_addr := addr |}).
    { apply waits_run; [apply (out_event _ _ _ _ _ _ Hout)| |exact Hset].
      apply (out_live _ _ _ _ _ _ Hout). }
    assert (Hs' : self_sock (run c evs w1) = self_sock w) by (now rewrite run_self_sock).
    split; [exact Hl|]. split.
    + cbn [step]. rewrite (elapse_live tm _ _ Hl). cbn [w_pkt w_addr]. now rewrite Hs'.
    + intros N. destruct (elapse_repeat c tm _ N _ Hl) as [HN _].
      cbn [w_pkt w_addr] in HN. now rewrite <- Hs'.
Qed.

Lemma _handle_WRQ_zero (c : Constants) (w : World) (addr : Addr) (fname : string)
    (buf : option (list byte)) :
  wf_facts c →
  _handle_WRQ c addr fname 0 buf w =
    (Ok tt,
     write_started w addr
       {| filename := fname; block_num := 0; timer := length (events w); is_done := None |}
       (ACK_dgram c 0) true).
Proof.
  intros Hc. unfold _handle_WRQ. cbn [Z.ltb Z.compare].
  erewrite bind_Ok by reflexivity.
  erewrite bind_Ok by (unfold lift; rewrite _ACK_ok by (assumption || reflexivity); reflexivity).
  reflexivity.
Qed.

(** C8: a handler that has sent its packet and entered its retry loop keeps
    retransmitting it, without end.  [_handle_RRQ], called for block [n] of a
    file that is there, sends DATA(n) and waits; [_handle_WRQ], called for a
    request ([n = 0]) or for a block that is not short, of a file that
    [open(..., 'wb')] opens, sends ACK(n) and waits.  No unmatched event sets
    the Event of that wait (whatever other peers send, whatever ACK or DATA
    with another block number the peer sends, whatever waits time out).  And
    after any events, as long as the Event is not set, the thread is still
    in its loop, and every timeout interval of its wait that ends sends the
    identical packet once more on the same socket and changes nothing else:
    [N] intervals give exactly [N] retransmissions, for every [N]. *)
Theorem retransmission_unbounded (c : Constants) (w : World) (addr : Addr) (fname : string)
    (n : Z) :
  wf_constants c = true → 4 <= MAX_BYTES c → called_in c w → int16_ok n = true →
  let tm := length (events w) in
  (∀ content, 1 <= n → files w !! fname = Some content →
     retransmits c InRRQ addr n tm (DATA_dgram c n (nth_block c content n)) w
       (_handle_RRQ c addr fname n w))
  ∧ (∀ buf,
       n = 0
       ∨ (1 <= n ∧ place w fname = Plain ∧ ∃ b, buf = Some b ∧ short_block c b = false) →
       retransmits c InWRQ addr n tm (ACK_dgram c n) w (_handle_WRQ c addr fname n buf w)).
Proof.
  intros Hwf Hmb Hcall Hn. apply wf_constants_facts in Hwf as Hc.
  apply called_in_consistent in Hcall as Hw. cbn zeta. split.
  - intros content H1 Hf.
    rewrite (_handle_RRQ_ok c w addr fname content n) by assumption.
    apply outstanding_retransmits; [assumption|assumption|reflexivity|reflexivity|].
    exact (outstanding_read_started w addr
             {| filename := fname; block_num := n; timer := length (events w);
                is_done := Some (Z.of_nat (length (nth_block c content n)) <? MAX_BYTES c) |}
             _ Hw eq_refl).
  - intros buf [->|(H1 & Hp & b & -> & Hb)].
    + rewrite _handle_WRQ_zero by assumption.
      apply outstanding_retransmits; [assumption|assumption|reflexivity|reflexivity|].
      exact (outstanding_write_started w addr
               {| filename := fname; block_num := 0; timer := length (events w);
                  is_done := None |} _ Hw eq_refl).
    + rewrite _handle_WRQ_block by assumption. rewrite Hb. cbn [negb].
      apply outstanding_retransmits; [assumption|assumption|reflexivity|reflexivity|].
      exact (outstanding_write_started (stored c fname n b w) addr
               {| filename := fname; block_num := n; timer := length (events w);
                  is_done := None |} _ (consistent_set_files _ w Hw) eq_refl).
Qed.

Lemma retransmission_unbounded_witness :
  let w := main srv {[ "f"%string := ten_bytes ]} cwd in
  let pkt := DATA_dgram tftp 1 ten_bytes in
  let wt := {| w_frame := InRRQ; w_pkt := pkt; w_addr := client |} in
  let wt' := {| w_frame := InWRQ; w_pkt := ACK_dgram tftp 0; w_addr := client |} in
  let evs := [Datagram (ACK_dgram tftp 7) client; Datagram (RRQ_octet tftp "f") other_peer;
              Elapse 1%nat; Elapse 0%nat] in
  let evs' := [Datagram (DATA_dgram tftp 5 ten_bytes) client; Elapse 0%nat] in
  wf_constants tftp = true ∧ 4 <= MAX_BYTES tftp ∧ called_in tftp w
  ∧ int16_ok 1 = true ∧ int16_ok 0 = true ∧ files w !! "f"%string = Some ten_bytes
  ∧ Forall (unmatched tftp InRRQ client 1) evs
  ∧ Forall (unmatched tftp InWRQ client 0) evs'
  ∧ (∃ w1, _handle_RRQ tftp client "f" 1 w = (Ok tt, w1)
       ∧ wire w1 = wire w ++ [(srv, pkt, client)]
       ∧ live (run tftp evs w1) 0%nat wt
       ∧ wire (run tftp (repeat (Elapse 0%nat) 3) (run tftp evs w1))
         = wire (run tftp evs w1) ++ repeat (srv, pkt, client) 3)
  ∧ (∃ v1, _handle_WRQ tftp client "g" 0 None w = (Ok tt, v1)
       ∧ wire v1 = wire w ++ [(srv, ACK_dgram tftp 0, client)]
       ∧ live (run tftp evs' v1) 0%nat wt'
       ∧ step tftp (Elapse 0%nat) (run tftp evs' v1)
         = sent_on srv (ACK_dgram tftp 0) client (run tftp evs' v1)).
Proof.
  intros w pkt wt wt' evs evs'.
  assert (Hmb : 4 <= MAX_BYTES tftp) by (vm_compute; discriminate).
  assert (Hcall : called_in tftp w).
  { exists w. split; [apply reach_main|left; reflexivity]. }
  assert (Hf : files w !! "f"%string = Some ten_bytes) by (vm_compute; reflexivity).
  assert (Hevs : Forall (unmatched tftp InRRQ client 1) evs).
  { constructor; [right; exists 7; repeat split; discriminate|].
    constructor; [left; discriminate|].
    constructor; [exact Logic.I|]. constructor; [exact Logic.I|]. constructor. }
  assert (Hevs' : Forall (unmatched tftp InWRQ client 0) evs').
  { constructor; [right; exists 5, ten_bytes; repeat split; discriminate|].
    constructor; [exact Logic.I|]. constructor. }
  split; [reflexivity|]. split; [exact Hmb|]. split; [exact Hcall|].
  split; [reflexivity|]. split; [reflexivity|]. split; [exact Hf|].
  split; [exact Hevs|]. split; [exact Hevs'|]. split.
  - destruct (proj1 (retransmission_unbounded tftp w client "f" 1 eq_refl Hmb Hcall eq_refl)
                ten_bytes ltac:(lia) Hf) as (w1 & E & Hwire & Hun & Hloop).
    exists w1. split; [exact E|]. split; [exact Hwire|].
    destruct (Hloop evs (Hun evs Hevs)) as (Hlive & _ & HN).
    split; [exact Hlive|exact (HN 3%nat)].
  - destruct (proj2 (retransmission_unbounded tftp w client "g" 0 eq_refl Hmb Hcall eq_refl)
                None (or_introl eq_refl)) as (v1 & E & Hwire & Hun & Hloop).
    exists v1. split; [exact E|]. split; [exact Hwire|].
    destruct (Hloop evs' (Hun evs' Hevs')) as (Hlive & Hstep & _).
    split; [exact Hlive|exact Hstep].
Defined.

(** ** These theorems at concrete inputs *)

Lemma _parse_init_request_roundtrip_witness :
  let tail := encode "blksize" ++ [x00] in
  utf8_valid (encode "f") = true ∧ utf8_valid (encode "octet") = true
  ∧ utf8_valid tail = true
  ∧ nul_free (encode "f") = true ∧ nul_free (encode "octet") = true
  ∧ _parse_init_request (encode "f" ++ [x00] ++ encode "octet" ++ [x00] ++ tail)
    = Ok ("f"%string, "octet"%string)
  ∧ _parse_init_request (encode "f" ++ [x00] ++ encode "octet")
    = Ok ("f"%string, "octet"%string).
Proof.
  cbn zeta.
  split; [reflexivity|]. split; [reflexivity|]. split; [reflexivity|].
  split; [reflexivity|]. split; [reflexivity|].
  exact (_parse_init_request_roundtrip "f" "octet" (encode "blksize" ++ [x00])
           eq_refl eq_refl eq_refl eq_refl eq_refl).
Defined.

Lemma malformed_request_dropped_witness :
  let w := main srv ∅ cwd in
  let data := be16 (RRQ_MODE tftp) ++ encode "f" in
  wf_constants tftp = true ∧ struct_unpack_h (take 2 data) = Ok 1
  ∧ (1 = RRQ_MODE tftp ∨ 1 = WRQ_MODE tftp)
  ∧ utf8_valid (drop 2 data) = true ∧ nul_free (drop 2 data) = true
  ∧ _parse_pkt tftp data client w = (Raise ValueError, w).
Proof.
  cbn zeta.
  split; [reflexivity|]. split; [reflexivity|]. split; [left; reflexivity|].
  split; [reflexivity|]. split; [reflexivity|].
  exact (proj2 (malformed_request_dropped tftp (main srv ∅ cwd) client
                  (be16 (RRQ_MODE tftp) ++ encode "f") 1 eq_refl eq_refl
                  (or_introl eq_refl))
           eq_refl eq_refl).
Defined.

Lemma unsupported_mode_witness :
  let w := main srv ∅ cwd in
  let data := request_dgram (WRQ_MODE tftp) "g" "netascii" in
  wf_constants tftp = true ∧ reachable tftp w
  ∧ (is_request (RRQ_MODE tftp) data "g" "netascii"
     ∨ is_request (WRQ_MODE tftp) data "g" "netascii")
  ∧ "netascii"%string ≠ "octet"%string
  ∧ _parse_pkt tftp data client w =
      (Raise SystemExit,
       sent_on srv (ERROR_dgram tftp 4 "TFTP only supports binary mode") client w).
Proof.
  cbn zeta.
  assert (Hreq : is_request (WRQ_MODE tftp) (request_dgram (WRQ_MODE tftp) "g" "netascii")
                   "g" "netascii") by (split; reflexivity).
  assert (Hne : "netascii"%string ≠ "octet"%string) by discriminate.
  split; [reflexivity|]. split; [apply reach_main|]. split; [right; exact Hreq|].
  split; [exact Hne|].
  exact (unsupported_mode tftp (main srv ∅ cwd) client _ "g" "netascii" eq_refl
           (reach_main tftp srv ∅ cwd) (or_intror Hreq) Hne).
Defined.

Lemma unknown_opcode_witness :
  let w := main srv ∅ cwd in
  let data := ERROR_dgram tftp 0 "stop" in
  wf_constants tftp = true ∧ reachable tftp w
  ∧ struct_unpack_h (take 2 data) = Ok 5
  ∧ 5 ≠ RRQ_MODE tftp ∧ 5 ≠ WRQ_MODE tftp ∧ 5 ≠ ACK_MODE tftp ∧ 5 ≠ DATA_MODE tftp
  ∧ _parse_pkt tftp data client w =
      (Ok tt, sent_on srv (ERROR_dgram tftp 0 "Invalid packet type") client w).
Proof.
  cbn zeta.
  split; [reflexivity|]. split; [apply reach_main|]. split; [reflexivity|].
  split; [discriminate|]. split; [discriminate|]. split; [discriminate|].
  split; [discriminate|].
  exact (unknown_opcode tftp (main srv ∅ cwd) client (ERROR_dgram tftp 0 "stop") 5 eq_refl
           (reach_main tftp srv ∅ cwd) eq_refl
           ltac:(discriminate) ltac:(discriminate) ltac:(discriminate) ltac:(discriminate)).
Defined.

Lemma truncated_packet_dropped_witness :
  let w := main srv ∅ cwd in
  wf_constants tftp = true
  ∧ _parse_pkt tftp [x00] client w = (Raise StructError, w)
  ∧ _parse_pkt tftp [x00; x04; x00] client w = (Raise StructError, w)
  ∧ _parse_pkt tftp [x00; x03; x00] client w = (Raise StructError, w).
Proof.
  cbn zeta. split; [reflexivity|].
  split; [|split].
  - apply (proj1 (truncated_packet_dropped tftp (main srv ∅ cwd) client [x00] eq_refl)).
    cbn. lia.
  - apply (proj1 (proj2 (truncated_packet_dropped tftp (main srv ∅ cwd) client [x00; x04; x00]
                           eq_refl))); [reflexivity|cbn; lia].
  - apply (proj2 (proj2 (truncated_packet_dropped tftp (main srv ∅ cwd) client [x00; x03; x00]
                           eq_refl))); [reflexivity|cbn; lia].
Defined.

Lemma write_request_accepted_witness :
  let w := main srv {[ "g"%string := ten_bytes ]} cwd in
  let data := WRQ_octet tftp "g" in
  let w' := Thread tftp data client w in
  wf_constants tftp = true ∧ is_request (WRQ_MODE tftp) data "g" "octet"
  ∧ (_parse_pkt tftp data client w).1 = Ok tt
  ∧ wire w' = wire w ++ [(srv, ACK_dgram tftp 0, client)]
  ∧ writes w' = <[client := {| filename := "g"; block_num := 0; timer := 0%nat;
                                is_done := None |}]> (writes w)
  ∧ live w' 0%nat {| w_frame := InWRQ; w_pkt := ACK_dgram tftp 0; w_addr := client |}
  ∧ files w' = files w ∧ reads w' = reads w.
Proof.
  cbn zeta.
  assert (Hreq : is_request (WRQ_MODE tftp) (WRQ_octet tftp "g") "g" "octet")
    by (split; reflexivity).
  split; [reflexivity|]. split; [exact Hreq|].
  exact (write_request_accepted tftp (main srv {[ "g"%string := ten_bytes ]} cwd) client
           (WRQ_octet tftp "g") "g" eq_refl Hreq).
Defined.

Lemma single_block_write_witness :
  let w := main srv ∅ cwd in
  let wrq := WRQ_octet tftp "g" in
  let w' := run tftp [Datagram wrq client; Datagram (DATA_dgram tftp 1 (repeat x41 600)) client]
              w in
  wf_constants tftp = true ∧ 4 <= MAX_BYTES tftp ∧ Z.of_nat (length wrq) <= MAX_BYTES tftp
  ∧ is_request (WRQ_MODE tftp) wrq "g" "octet" ∧ place w "g" = Plain
  ∧ files w' !! "g"%string = Some (repeat x41 508)
  ∧ wire w' = wire w ++ [(srv, ACK_dgram tftp 0, client); (srv, ACK_dgram tftp 1, client)]
  ∧ is_set w' 0%nat = true
  ∧ block_num <$> writes w' !! client = Some 1.
Proof.
  cbn zeta.
  assert (Hreq : is_request (WRQ_MODE tftp) (WRQ_octet tftp "g") "g" "octet")
    by (split; reflexivity).
  assert (Hmb : 4 <= MAX_BYTES tftp) by (vm_compute; discriminate).
  assert (Hlen : Z.of_nat (length (WRQ_octet tftp "g")) <= MAX_BYTES tftp)
    by (vm_compute; discriminate).
  split; [reflexivity|]. split; [exact Hmb|]. split; [exact Hlen|]. split; [exact Hreq|].
  split; [reflexivity|].
  exact (single_block_write tftp (main srv ∅ cwd) client (WRQ_octet tftp "g") "g"
           (repeat x41 600) eq_refl Hmb Hlen Hreq eq_refl).
Defined.

Lemma read_delivers_file_witness :
  let content := repeat x41 600 in
  let w := main srv {[ "f"%string := content ]} cwd in
  let rrq := RRQ_octet tftp "f" in
  let w' := serve tftp client (rrq :: acks tftp 2) w in
  wf_constants tftp = true ∧ is_request (RRQ_MODE tftp) rrq "f" "octet"
  ∧ files w !! "f"%string = Some content
  ∧ Z.of_nat (Z.to_nat (Z.of_nat (length content) / MAX_BYTES tftp)) + 1 <= 32767
  ∧ wire w' = wire w ++ blocks_sent tftp srv client content 2
  ∧ concat (map (λ j : nat, nth_block tftp content (Z.of_nat j)) (seq 1 2)) = content
  ∧ reading w' client "f" 2 true.
Proof.
  cbn zeta.
  assert (Hreq : is_request (RRQ_MODE tftp) (RRQ_octet tftp "f") "f" "octet")
    by (split; reflexivity).
  assert (Hf : files (main srv {[ "f"%string := repeat x41 600 ]} cwd) !! "f"%string
               = Some (repeat x41 600)) by (vm_compute; reflexivity).
  assert (Hk : Z.of_nat (Z.to_nat (Z.of_nat (length (repeat x41 600)) / MAX_BYTES tftp)) + 1
               <= 32767) by (vm_compute; discriminate).
  split; [reflexivity|]. split; [exact Hreq|]. split; [exact Hf|]. split; [exact Hk|].
  exact (read_delivers_file tftp (main srv {[ "f"%string := repeat x41 600 ]} cwd) client
           (RRQ_octet tftp "f") "f" (repeat x41 600) eq_refl Hreq Hf Hk).
Defined.

Lemma run_server_truncates_witness :
  let w := main srv ∅ cwd in
  let buf := repeat x41 600 in
  4 <= MAX_BYTES tftp
  ∧ run_server tftp (DATA_dgram tftp 1 buf) client w
    = Thread tftp (DATA_dgram tftp 1 (take (Z.to_nat (MAX_BYTES tftp - 4)) buf)) client w
  ∧ run_server tftp [] client w = w.
Proof.
  cbn zeta.
  assert (Hmb : 4 <= MAX_BYTES tftp) by (vm_compute; discriminate).
  split; [exact Hmb|].
  exact (run_server_truncates tftp (main srv ∅ cwd) client 1 (repeat x41 600) Hmb).
Defined.

Lemma cancelled_stays_cancelled_witness :
  let rrq := RRQ_octet tftp "f" in
  let w := run tftp [Datagram rrq client; Datagram rrq client]
             (main srv {[ "f"%string := ten_bytes ]} cwd) in
  let w' := run tftp [Elapse 1%nat; Datagram (ACK_dgram tftp 1) client; Elapse 0%nat] w in
  is_set w 0%nat = true
  ∧ is_set w' 0%nat = true ∧ wire (step tftp (Elapse 0%nat) w') = wire w'.
Proof.
  cbn zeta.
  assert (Hs : is_set (run tftp [Datagram (RRQ_octet tftp "f") client;
                                 Datagram (RRQ_octet tftp "f") client]
                         (main srv {[ "f"%string := ten_bytes ]} cwd)) 0%nat = true)
    by (vm_compute; reflexivity).
  split; [exact Hs|].
  exact (cancelled_stays_cancelled tftp _ 0%nat
           [Elapse 1%nat; Datagram (ACK_dgram tftp 1) client; Elapse 0%nat] Hs).
Defined.

Lemma all_sent_from_server_socket_witness :
  let w := step tftp (Datagram (ACK_dgram tftp 1) client) (main srv ∅ cwd) in
  reachable tftp w ∧ Forall (λ x : Sent, x.1.1 = self_sock w) (wire w).
Proof.
  cbn zeta.
  assert (Hr : reachable tftp (step tftp (Datagram (ACK_dgram tftp 1) client) (main srv ∅ cwd)))
    by (apply reach_step, reach_main).
  split; [exact Hr|].
  exact (all_sent_from_server_socket tftp _ Hr).
Defined.

Lemma stored_contexts_well_formed_witness :
  let w := run tftp [Datagram (RRQ_octet tftp "f") client;
                     Datagram (WRQ_octet tftp "g") client]
             (main srv {[ "f"%string := ten_bytes ]} cwd) in
  reachable tftp w ∧ contexts_ok w.
Proof.
  cbn zeta.
  assert (Hr : reachable tftp
                 (run tftp [Datagram (RRQ_octet tftp "f") client;
                            Datagram (WRQ_octet tftp "g") client]
                    (main srv {[ "f"%string := ten_bytes ]} cwd)))
    by (apply reach_step, reach_step, reach_main).
  split; [exact Hr|].
  exact (stored_contexts_well_formed tftp _ Hr).
Defined.

Lemma write_stops_at_32767_witness :
  let fc := {| filename := "g"; block_num := 32767; timer := 0%nat; is_done := None |} in
  let w := {| self_sock := srv; reads := ∅; writes := {[ client := fc ]};
              global_sock := Some srv; files := {[ "g"%string := full_block ]};
              place := cwd; events := [false]; waiting := ∅; wire := [] |} in
  let data := DATA_dgram tftp 32768 ten_bytes in
  wf_constants tftp = true ∧ writes w !! client = Some fc ∧ block_num fc = 32767
  ∧ struct_unpack_h (take 2 data) = Ok (DATA_MODE tftp)
  ∧ Thread tftp data client w = w.
Proof.
  intros fc w data.
  assert (Hfc : writes w !! client = Some fc) by (vm_compute; reflexivity).
  split; [reflexivity|]. split; [exact Hfc|]. split; [reflexivity|].
  split; [reflexivity|].
  exact (write_stops_at_32767 tftp w client fc data eq_refl Hfc eq_refl eq_refl).
Defined.
